(** * The SheerID batch verification client

    A shallow embedding of [sheerid_verifier.py] (class [SheerIDVerifier]) and
    of the worker thread of [sheerid_gui.py] (class [VerifyWorker]), together
    with the properties of the batch protocol that the specification states.

    The remote service, the HTTP library, [json.loads], [re.search] and the
    record store are the environment: every request is answered by an oracle
    indexed by the number of requests issued so far, and each request, sleep
    and emitted signal is appended to a trace. *)

From Stdlib Require Import List Arith NArith ZArith Lia Bool String Ascii.
From Stdlib Require Import Strings.Byte.
Import ListNotations.
Open Scope string_scope.
Open Scope list_scope.

Set Warnings "-register-all".

(** ** Python values *)

(** The values produced by [json.loads]. Numbers are kept as integers: the
    client never computes with a number, it only tests truthiness and uses
    values as dictionary keys. An object keeps its fields in order; [get]
    reads the first binding of a key. *)
Inductive json : Type :=
| JNull
| JBool (b : bool)
| JNum (n : Z)
| JStr (s : string)
| JArr (xs : list json)
| JObj (fields : list (string * json)).

Module Py.

(** Python truthiness, as tested by [if not vid] and by [a or b]. *)
Definition truthy (v : json) : bool :=
  match v with
  | JNull => false
  | JBool b => b
  | JNum n => negb (n =? 0)%Z
  | JStr s => negb (s =? EmptyString)
  | JArr xs => match xs with [] => false | _ => true end
  | JObj fs => match fs with [] => false | _ => true end
  end.

(** [a or b]. *)
Definition or_ (a b : json) : json := if truthy a then a else b.

(** [v == "literal"]: only a string equals a string. *)
Definition eq_str (v : json) (s : string) : bool :=
  match v with JStr t => (t =? s) | _ => false end.

(** Lookup in the fields of an object. *)
Fixpoint lookup (k : string) (fs : list (string * json)) : option json :=
  match fs with
  | [] => None
  | (k', v) :: rest => if (k' =? k) then Some v else lookup k rest
  end.

(** [d.get(k)] and [d.get(k, default)] on a dict. *)
Definition get (k : string) (fs : list (string * json)) : json :=
  match lookup k fs with Some v => v | None => JNull end.

Definition get_default (k : string) (dflt : json) (fs : list (string * json)) : json :=
  match lookup k fs with Some v => v | None => dflt end.

(** [k in d]. *)
Definition has_key (k : string) (fs : list (string * json)) : bool :=
  match lookup k fs with Some _ => true | None => false end.

(** Lists and dicts are unhashable: using one as a dictionary key raises
    [TypeError]. *)
Definition hashable (v : json) : bool :=
  match v with JArr _ | JObj _ => false | _ => true end.

(** Equality of dictionary keys ([True == 1], [False == 0]). *)
Definition key_eqb (a b : json) : bool :=
  match a, b with
  | JNull, JNull => true
  | JBool x, JBool y => Bool.eqb x y
  | JBool x, JNum n | JNum n, JBool x => (n =? (if x then 1 else 0))%Z
  | JNum n, JNum m => (n =? m)%Z
  | JStr s, JStr t => (s =? t)
  | _, _ => false
  end.

(** A dict keyed by Python values, in insertion order. *)
Definition dict := list (json * json).

Fixpoint dict_get (k : json) (d : dict) : option json :=
  match d with
  | [] => None
  | (k', v) :: rest => if key_eqb k' k then Some v else dict_get k rest
  end.

(** [k in d]. *)
Definition dict_mem (k : json) (d : dict) : bool :=
  match dict_get k d with Some _ => true | None => false end.

(** [d[k] = v] for a hashable [k]: an existing key keeps its place and its
    key object, a new key goes to the end. *)
Fixpoint dict_set (k v : json) (d : dict) : dict :=
  match d with
  | [] => [(k, v)]
  | (k', v') :: rest =>
      if key_eqb k' k then (k', v) :: rest else (k', v') :: dict_set k v rest
  end.

(** [range(start, stop, step)] for a positive [step]; [stop] iterations are
    enough fuel. *)
Fixpoint range_from (fuel start stop step : nat) : list nat :=
  match fuel with
  | O => []
  | S fuel' =>
      if (start <? stop)%nat
      then start :: range_from fuel' (start + step) stop step
      else []
  end.

Definition range (start stop step : nat) : list nat :=
  range_from stop start stop step.

(** [l[i:j]] for [0 <= i <= j]; Python clamps both ends to [len(l)]. *)
Definition slice {A : Type} (l : list A) (i j : nat) : list A :=
  firstn (j - i) (skipn i l).

End Py.

(** ** Text: bytes, UTF-8 and [str.strip] *)

Module Text.

Definition code (b : byte) : N := Byte.to_N b.

Definition cont (b : byte) : bool := ((128 <=? code b) && (code b <=? 191))%N.

Definition between (lo hi : N) (b : byte) : bool :=
  ((lo <=? code b) && (code b <=? hi))%N.

(** Strict UTF-8, as [bytes.decode('utf-8')] accepts it: shortest forms only,
    no surrogates, nothing above U+10FFFF. *)
Fixpoint utf8_valid (l : list byte) : bool :=
  match l with
  | [] => true
  | b0 :: t0 =>
      if (code b0 <? 128)%N then utf8_valid t0
      else match t0 with
      | [] => false
      | b1 :: t1 =>
          if between 194 223 b0 then cont b1 && utf8_valid t1
          else match t1 with
          | [] => false
          | b2 :: t2 =>
              if between 224 239 b0 then
                (if (code b0 =? 224)%N then between 160 191 b1
                 else if (code b0 =? 237)%N then between 128 159 b1
                 else cont b1)
                && cont b2 && utf8_valid t2
              else match t2 with
              | [] => false
              | b3 :: t3 =>
                  if between 240 244 b0 then
                    (if (code b0 =? 240)%N then between 144 191 b1
                     else if (code b0 =? 244)%N then between 128 143 b1
                     else cont b1)
                    && cont b2 && cont b3 && utf8_valid t3
                  else false
              end
          end
      end
  end.

(** A Python [str] is kept as the UTF-8 encoding of its text.
    [line.decode('utf-8')] raises [UnicodeDecodeError] ([None] here) on a
    line that is not valid UTF-8. *)
Definition decode (line : list byte) : option string :=
  if utf8_valid line then Some (string_of_list_byte line) else None.

(** The characters [str.isspace] accepts, by their encodings: U+0009..000D,
    U+001C..001F, U+0020; U+0085, U+00A0; U+1680, U+2000..200A, U+2028,
    U+2029, U+202F, U+205F, U+3000. *)
Definition space1 (b : byte) : bool :=
  between 9 13 b || between 28 32 b.

Definition space2 (b0 b1 : byte) : bool :=
  (code b0 =? 194)%N && ((code b1 =? 133)%N || (code b1 =? 160)%N).

Definition space3 (b0 b1 b2 : byte) : bool :=
  ((code b0 =? 225)%N && (code b1 =? 154)%N && (code b2 =? 128)%N)
  || ((code b0 =? 226)%N && (code b1 =? 128)%N
      && (between 128 138 b2 || between 168 169 b2 || (code b2 =? 175)%N))
  || ((code b0 =? 226)%N && (code b1 =? 129)%N && (code b2 =? 159)%N)
  || ((code b0 =? 227)%N && (code b1 =? 128)%N && (code b2 =? 128)%N).

(** Drop the leading white space of an encoded text. *)
Fixpoint lstrip (l : list byte) : list byte :=
  match l with
  | [] => []
  | b0 :: t0 =>
      if space1 b0 then lstrip t0
      else match t0 with
      | [] => l
      | b1 :: t1 =>
          if space2 b0 b1 then lstrip t1
          else match t1 with
          | [] => l
          | b2 :: t2 => if space3 b0 b1 b2 then lstrip t2 else l
          end
      end
  end.

(** The same from the end, on the reversed bytes: in valid UTF-8 a white
    space encoding at the end of the text is a white space character. *)
Fixpoint lstrip_rev (l : list byte) : list byte :=
  match l with
  | [] => []
  | b0 :: t0 =>
      if space1 b0 then lstrip_rev t0
      else match t0 with
      | [] => l
      | b1 :: t1 =>
          if space2 b1 b0 then lstrip_rev t1
          else match t1 with
          | [] => l
          | b2 :: t2 => if space3 b2 b1 b0 then lstrip_rev t2 else l
          end
      end
  end.

(** [s.strip()]. *)
Definition strip (s : string) : string :=
  string_of_list_byte
    (rev (lstrip_rev (rev (lstrip (list_byte_of_string s))))).

(** [s.startswith(p)]. *)
Definition startswith (p s : string) : bool := String.prefix p s.

(** [s[n:]] when the first [n] characters of [s] are ASCII. *)
Definition drop (n : nat) (s : string) : string :=
  String.substring n (String.length s - n) s.

(** The characters of a text, one string per code point (iteration over a
    [str]). *)
Fixpoint chars_from (cur : list byte) (l : list byte) : list string :=
  match l with
  | [] => match cur with [] => [] | _ => [string_of_list_byte (rev cur)] end
  | b :: t =>
      if cont b then chars_from (b :: cur) t
      else match cur with
           | [] => chars_from [b] t
           | _ => string_of_list_byte (rev cur) :: chars_from [b] t
           end
  end.

Definition chars (s : string) : list string :=
  chars_from [] (list_byte_of_string s).

End Text.


(** ** The environment *)

(** What the HTTP library hands back for one request. *)
Record response : Type := {
  status_code : Z;
  text : string;                      (* resp.text *)
  json_body : string + json;          (* resp.json(); [inl msg] when it raises *)
  stream_lines : list (list byte);    (* the lines resp.iter_lines() yields *)
  stream_error : option string        (* ... before it raises, if it does *)
}.

Inductive reply : Type :=
| Raises (msg : string)               (* timeout, connection error: str(e) = msg *)
| Responds (r : response).

(** The exceptions that can reach an [except] clause of the client. *)
Inductive exn : Type :=
| Raised (msg : string)               (* raised by a library call, str(e) = msg *)
| UnicodeDecodeError (line : list byte)
| AttributeError (receiver : json)    (* [.get] on a value that is not a dict *)
| TypeError (value : json).           (* unhashable key, or [+= str] on a non-str *)

(** What [json.loads] does with a text. The loop over the stream catches
    [json.JSONDecodeError] only; the parser also raises [RecursionError] on
    a text nested too deeply and [ValueError] on a number of too many digits,
    and neither is a [JSONDecodeError]. *)
Inductive loaded : Type :=
| Loaded (data : json)
| JSONDecodeError                     (* json.JSONDecodeError *)
| LoadsRaises (msg : string).         (* any other exception, str(e) = msg *)

(** The text a progress callback receives, before formatting. *)
Inductive progress_msg : Type :=
| Submitting                                        (* 'Submitting...' *)
| Step (status message : json)                      (* f"Step: {status} | Msg: {message}" *)
| Polling (status : json) (i : nat) (message : json) (* f"Polling: {status} ({i}/60) | Msg: {message}" *)
| Final (msg : json).

(** What the client does to the outside, in order. *)
Inductive event : Type :=
| Get (token : option string)                        (* GET BASE_URL *)
| Post (path : string) (token : option string) (body : json)
| Sleep (seconds : nat)
| Emit (vid status : json) (msg : progress_msg)      (* progress_signal.emit *)
| Move (line : string)                               (* AccountManager.move_to_verified *)
| Finished.                                          (* finished_signal.emit *)

Definition trace := list event.

Record environment : Type := {
  server : nat -> reply;                   (* the reply to the n-th request *)
  json_loads : string -> loaded;           (* json.loads *)
  search_csrf : string -> option string;   (* group 1 of the CSRF_TOKEN pattern *)
  exn_text : exn -> string                 (* str(e) of an interpreter exception *)
}.

(** The side of the user: the record store and the stop button. *)
Record frontend : Type := {
  move_to_verified : string -> option string;  (* [Some msg]: raises, str(e) = msg *)
  stop_after : option nat                  (* stop() is called once the trace has this length *)
}.

Definition is_request (e : event) : bool :=
  match e with Get _ | Post _ _ _ => true | _ => false end.

(** The number of requests issued so far. *)
Definition clock (tr : trace) : nat := List.length (filter is_request tr).

(** The state of a [SheerIDVerifier]: [self.csrf_token] and the
    [X-CSRF-Token] entry of [self.headers] (the other headers never change). *)
Record verifier : Type := {
  api_key : string;
  csrf_token : option string;
  header_token : option string
}.

(** [SheerIDVerifier(api_key)]. *)
Definition new_verifier (key : string) : verifier :=
  {| api_key := key; csrf_token := None; header_token := None |}.

(** A progress callback observes: it reads the state of its thread (here the
    trace, on which the stop flag depends) and emits progress signals
    [(vid, status, msg)]; it issues no request. *)
Definition signal : Type := json * json * progress_msg.

Definition callback := option (json -> progress_msg -> trace -> list signal).

Definition emit_all (sigs : list signal) : list event :=
  map (fun s : signal => let '(v, st, m) := s in Emit v st m) sigs.

Definition call (cb : callback) (vid : json) (m : progress_msg) (tr : trace) : trace :=
  match cb with Some f => tr ++ emit_all (f vid m tr) | None => tr end.

(** [{"status": "error", "message": msg}]. *)
Definition err_result (msg : string) : json :=
  JObj [("status", JStr "error"); ("message", JStr msg)].

(** The status the worker reads from a result:
    [res.get("currentStep") or res.get("status")]. *)
Definition result_status (res : json) : json :=
  match res with
  | JObj d => Py.or_ (Py.get "currentStep" d) (Py.get "status" d)
  | _ => JNull
  end.

(** A terminal result: its status is ['success'] or ['error']. *)
Definition terminal (res : json) : bool :=
  Py.eq_str (result_status res) "success" || Py.eq_str (result_status res) "error".

Section Client.

Variable E : environment.

Definition str_exn (e : exn) : string :=
  match e with Raised m => m | _ => exn_text E e end.

(** One request: the environment answers, the trace records it. *)
Definition request (e : event) (tr : trace) : reply * trace :=
  (server E (clock tr), tr ++ [e]).

(** [not self.csrf_token]. *)
Definition no_token (v : verifier) : bool :=
  match csrf_token v with None => true | Some t => (t =? EmptyString) end.

(** [resp.raise_for_status()] raises on 4xx and 5xx. *)
Definition is_http_error (r : response) : bool :=
  ((400 <=? status_code r) && (status_code r <? 600))%Z.

Definition _get_csrf_token (v : verifier) (tr : trace) : bool * verifier * trace :=
  let (rep, tr) := request (Get (header_token v)) tr in
  match rep with
  | Raises _ => (false, v, tr)
  | Responds r =>
      if is_http_error r then (false, v, tr)
      else match search_csrf E (text r) with
           | Some t =>
               (true,
                {| api_key := api_key v; csrf_token := Some t; header_token := Some t |},
                tr)
           | None => (false, v, tr)
           end
  end.

Definition polling_exception (e : exn) : json :=
  err_result (String.append "Polling exception: " (str_exn e)).

Definition is_final (status : json) : bool :=
  Py.eq_str status "success" || Py.eq_str status "error".

(** The loop of [_poll_status]: [n] iterations left, [i] done. *)
Fixpoint poll_loop (n i : nat) (check_token vid : json) (cb : callback)
    (v : verifier) (tr : trace) : json * trace :=
  match n with
  | O => (err_result "Polling timeout (120s)", tr)
  | S n' =>
      let tr := tr ++ [Sleep 2] in
      let (rep, tr) :=
        request (Post "/api/check-status" (header_token v)
                   (JObj [("checkToken", check_token)])) tr in
      match rep with
      | Raises msg => (polling_exception (Raised msg), tr)
      | Responds r =>
          match json_body r with
          | inl msg => (polling_exception (Raised msg), tr)
          | inr (JObj d) =>
              let status := Py.get "currentStep" d in
              let message := Py.get_default "message" (JStr EmptyString) d in
              let tr := call cb vid (Polling status (i + 1) message) tr in
              if is_final status then (JObj d, tr)
              else
                poll_loop n' (S i)
                  (if Py.has_key "checkToken" d then Py.get "checkToken" d
                   else check_token)
                  vid cb v tr
          | inr j => (polling_exception (AttributeError j), tr)
          end
      end
  end.

Definition _poll_status (check_token vid : json) (cb : callback)
    (v : verifier) (tr : trace) : json * trace :=
  poll_loop 60 0 check_token vid cb v tr.

(** [results[vid] = res]. *)
Definition store (vid res : json) (results : Py.dict) (tr : trace)
  : option exn * Py.dict * trace :=
  if Py.hashable vid then (None, Py.dict_set vid res results, tr)
  else (Some (TypeError vid), results, tr).

Definition _handle_api_response (data : json) (results : Py.dict) (cb : callback)
    (v : verifier) (tr : trace) : option exn * Py.dict * trace :=
  match data with
  | JObj d =>
      let vid := Py.get "verificationId" d in
      if negb (Py.truthy vid) then (None, results, tr)
      else
        let status := Py.get "currentStep" d in
        let message := Py.get_default "message" (JStr EmptyString) d in
        let tr := call cb vid (Step status message) tr in
        if Py.eq_str status "pending" && Py.has_key "checkToken" d then
          let (final_res, tr) := _poll_status (Py.get "checkToken" d) vid cb v tr in
          store vid final_res results tr
        else if is_final status then store vid data results tr
        else (None, results, tr)
  | _ => (Some (AttributeError data), results, tr)
  end.

(** The body of the loop over [resp.iter_lines()]. *)
Definition handle_line (line : list byte) (results : Py.dict) (cb : callback)
    (v : verifier) (tr : trace) : option exn * Py.dict * trace :=
  match line with
  | [] => (None, results, tr)
  | _ =>
      match Text.decode line with
      | None => (Some (UnicodeDecodeError line), results, tr)
      | Some decoded_line =>
          if Text.startswith "data:" decoded_line then
            match json_loads E (Text.strip (Text.drop 5 decoded_line)) with
            | Loaded data => _handle_api_response data results cb v tr
            | JSONDecodeError => (None, results, tr)
            | LoadsRaises msg => (Some (Raised msg), results, tr)
            end
          else (None, results, tr)
      end
  end.

(** The loop itself: it ends at the first exception, and the iterator may
    raise once its lines are consumed. *)
Fixpoint parse_stream (lines : list (list byte)) (err : option string)
    (results : Py.dict) (cb : callback) (v : verifier) (tr : trace)
  : option exn * Py.dict * trace :=
  match lines with
  | [] => (match err with Some m => Some (Raised m) | None => None end, results, tr)
  | line :: rest =>
      match handle_line line results cb v tr with
      | (Some e, results, tr) => (Some e, results, tr)
      | (None, results, tr) => parse_stream rest err results cb v tr
      end
  end.

(** [{vid: {"status": "error", "message": msg} for vid in verification_ids}]. *)
Definition all_error (ids : list string) (msg : string) : Py.dict :=
  fold_left (fun d vid => Py.dict_set (JStr vid) (err_result msg) d) ids [].

(** The [except Exception as e] clause of [verify_batch]. *)
Definition fill_errors (ids : list string) (e : exn) (results : Py.dict) : Py.dict :=
  fold_left
    (fun d vid =>
       if Py.dict_mem (JStr vid) d then d
       else Py.dict_set (JStr vid) (err_result (str_exn e)) d)
    ids results.

Definition batch_payload (ids : list string) (v : verifier) : json :=
  JObj [("verificationIds", JArr (map JStr ids));
        ("hCaptchaToken", JStr (api_key v));
        ("useLucky", JBool false);
        ("programId", JStr EmptyString)].

(** How a call of [verify_batch] ended: which [return] it took, and for the
    [except] clause the exception and the results gathered when it was
    raised. *)
Inductive ending : Type :=
| NoToken                                  (* the first [return], no token *)
| TokenExpired                             (* the [return] after a failed refresh *)
| Caught (e : exn) (partial : Py.dict)     (* through the [except] clause *)
| Normal.                                  (* out of the [try] block *)

(** The end of the [try] block: the stream of the response that is kept. *)
Definition consume (ids : list string) (r : response) (cb : callback)
    (v : verifier) (tr : trace) : ending * Py.dict * verifier * trace :=
  match parse_stream (stream_lines r) (stream_error r) [] cb v tr with
  | (Some e, results, tr) => (Caught e results, fill_errors ids e results, v, tr)
  | (None, results, tr) => (Normal, results, v, tr)
  end.

Definition is_auth_failure (r : response) : bool :=
  ((status_code r =? 403) || (status_code r =? 401))%Z.

(** [verify_batch] once a token is there. *)
Definition submit (ids : list string) (cb : callback) (v : verifier) (tr : trace)
  : ending * Py.dict * verifier * trace :=
  let payload := batch_payload ids v in
  let (rep, tr) := request (Post "/api/batch" (header_token v) payload) tr in
  match rep with
  | Raises msg => (Caught (Raised msg) [], fill_errors ids (Raised msg) [], v, tr)
  | Responds r =>
      if is_auth_failure r then
        let '(ok, v, tr) := _get_csrf_token v tr in
        if ok then
          let (rep, tr) := request (Post "/api/batch" (csrf_token v) payload) tr in
          match rep with
          | Raises msg => (Caught (Raised msg) [], fill_errors ids (Raised msg) [], v, tr)
          | Responds r => consume ids r cb v tr
          end
        else (TokenExpired, all_error ids "Token expired", v, tr)
      else consume ids r cb v tr
  end.

(** [verify_batch], with the way it ended. *)
Definition verify_batch_run (ids : list string) (cb : callback) (v : verifier)
    (tr : trace) : ending * Py.dict * verifier * trace :=
  if no_token v then
    let '(ok, v, tr) := _get_csrf_token v tr in
    if ok then submit ids cb v tr
    else (NoToken, all_error ids "Failed to get CSRF token", v, tr)
  else submit ids cb v tr.

Definition verify_batch (ids : list string) (cb : callback) (v : verifier) (tr : trace)
  : Py.dict * verifier * trace :=
  let '(_, results, v, tr) := verify_batch_run ids cb v tr in (results, v, tr).

(** The request of [cancel_verification]. *)
Definition cancel_request (verification_id : string) (v : verifier) (tr : trace)
  : json * verifier * trace :=
  let (rep, tr) :=
    request (Post "/api/cancel" (csrf_token v)
               (JObj [("verificationId", JStr verification_id)])) tr in
  match rep with
  | Raises msg => (err_result msg, v, tr)
  | Responds r =>
      match json_body r with
      | inr j => (j, v, tr)
      | inl _ => (err_result (String.append "Invalid JSON: " (text r)), v, tr)
      end
  end.

Definition cancel_verification (verification_id : string) (v : verifier) (tr : trace)
  : json * verifier * trace :=
  if no_token v then
    let '(ok, v, tr) := _get_csrf_token v tr in
    if ok then cancel_request verification_id v tr
    else (err_result "No CSRF Token", v, tr)
  else cancel_request verification_id v tr.

End Client.

(** ** The worker thread *)

(** One selected row of the table: [{'vid': ..., 'line': ...}]. *)
Record link : Type := { vid : string; line : string }.

(** [tasks[i:i + 5] for i in range(0, len(tasks), 5)]. *)
Definition batches (tasks : list string) : list (list string) :=
  map (fun i => Py.slice tasks i (i + 5)) (Py.range 0 (List.length tasks) 5).

(** [msg += text]: a [str] is extended, a list takes the characters, any
    other value raises [TypeError]. *)
Definition iadd_str (msg : json) (t : string) : option json :=
  match msg with
  | JStr s => Some (JStr (String.append s t))
  | JArr xs => Some (JArr (xs ++ map JStr (Text.chars t)))
  | _ => None
  end.

Section Worker.

Variable E : environment.
Variable F : frontend.

(** [self.is_running]: true until [stop()] has been called. *)
Definition is_running (tr : trace) : bool :=
  match stop_after F with
  | None => true
  | Some k => (List.length tr <? k)%nat
  end.

Definition emit (v status : json) (m : progress_msg) (tr : trace) : trace :=
  tr ++ [Emit v status m].

(** The [callback] closure of [run]. *)
Definition worker_callback : callback :=
  Some (fun v m tr => if is_running tr then [(v, JStr "Running", m)] else []).

(** The outcome of [AccountManager.move_to_verified(item['line'])] on the
    message of the result. *)
Definition move_failed (e : string) : string :=
  String.append " (Move failed: " (String.append e ")").

(** The body of [for vid, res in results.items()]. *)
Definition report (links : list link) (entry : json * json) (tr : trace)
  : option exn * trace :=
  let (v, res) := entry in
  match res with
  | JObj d =>
      let status := Py.or_ (Py.get "currentStep" d) (Py.get "status" d) in
      let msg := Py.get_default "message" (JStr EmptyString) d in
      if Py.eq_str status "success" then
        match find (fun item => Py.eq_str v (vid item)) links with
        | Some item =>
            let tr := tr ++ [Move (line item)] in
            match move_to_verified F (line item) with
            | None => (None, emit v status (Final msg) tr)
            | Some e =>
                match iadd_str msg (move_failed e) with
                | Some msg => (None, emit v status (Final msg) tr)
                | None => (Some (TypeError msg), tr)
                end
            end
        | None => (None, emit v status (Final msg) tr)
        end
      else (None, emit v status (Final msg) tr)
  | _ => (Some (AttributeError res), tr)
  end.

Fixpoint report_all (links : list link) (results : Py.dict) (tr : trace)
  : option exn * trace :=
  match results with
  | [] => (None, tr)
  | entry :: rest =>
      match report links entry tr with
      | (Some e, tr) => (Some e, tr)
      | (None, tr) => report_all links rest tr
      end
  end.

(** The status updates before a batch is submitted. *)
Definition announce (batch : list string) (tr : trace) : trace :=
  fold_left (fun tr v => emit (JStr v) (JStr "Processing") Submitting tr) batch tr.

(** [for batch in batches: ...]. An exception that escapes ends the thread. *)
Fixpoint run_batches (links : list link) (bs : list (list string))
    (v : verifier) (tr : trace) : option exn * verifier * trace :=
  match bs with
  | [] => (None, v, tr)
  | batch :: rest =>
      if negb (is_running tr) then (None, v, tr)
      else
        let tr := announce batch tr in
        let '(results, v, tr) := verify_batch E batch worker_callback v tr in
        match report_all links results tr with
        | (Some e, tr) => (Some e, v, tr)
        | (None, tr) => run_batches links rest v tr
        end
  end.

(** [VerifyWorker.run]: [None] when the thread reaches its end. *)
Definition run (key : string) (links : list link) (tr : trace) : option exn * trace :=
  let verifier := new_verifier key in
  let tasks := map vid links in
  match run_batches links (batches tasks) verifier tr with
  | (Some e, _, tr) => (Some e, tr)
  | (None, _, tr) => (None, tr ++ [Finished])
  end.

End Worker.


(** ** The window *)

(** The objects alive while a job runs: the window's own verifier, kept for
    cancellation, and the worker's verifier with the results of the batch in
    flight. *)
Record app : Type := {
  window_verifier : verifier;
  worker_verifier : verifier;
  worker_results : Py.dict
}.

(** One row of [cancel_selected]: [self.verifier.cancel_verification(vid)]. *)
Definition cancel_selected_row (E : environment) (verification_id : string)
    (a : app) (tr : trace) : json * app * trace :=
  let '(res, wv, tr) := cancel_verification E verification_id (window_verifier a) tr in
  (res,
   {| window_verifier := wv;
      worker_verifier := worker_verifier a;
      worker_results := worker_results a |},
   tr).

(** ** Vocabulary of the properties *)

(** Every value of a dict is a terminal result. *)
Definition all_terminal (d : Py.dict) : Prop :=
  Forall (fun kv : json * json => terminal (snd kv) = true) d.

(** What a callback adds to the trace. *)
Definition emitted (cb : callback) (vid : json) (m : progress_msg) (tr : trace)
  : list event :=
  match cb with Some f => emit_all (f vid m tr) | None => [] end.

(** A submission of a batch, and a fetch of the token page. *)
Definition is_submit (e : event) : bool :=
  match e with Post p _ _ => (p =? "/api/batch") | _ => false end.

Definition is_get (e : event) : bool :=
  match e with Get _ => true | _ => false end.

Definition handshake (e : event) : bool := is_submit e || is_get e.

(** The events of the stream phase: status polls, their pauses, and progress
    signals. *)
Definition poll_event (e : event) : bool :=
  match e with
  | Sleep _ | Emit _ _ _ => true
  | Post p _ _ => (p =? "/api/check-status")
  | _ => false
  end.

Definition is_poll (e : event) : bool :=
  match e with Post p _ _ => (p =? "/api/check-status") | _ => false end.

(** The reply to the request issued at clock [c] is a well-formed record
    that is not final. *)
Definition still_pending (E : environment) (c : nat) : Prop :=
  exists r d,
    server E c = Responds r /\ json_body r = inr (JObj d)
    /\ is_final (Py.get "currentStep" d) = false.

(** [line] carries the record [d]: it decodes, has the event marker, and its
    payload parses to the object [d]. *)
Definition record_on (E : environment) (line : list byte) (d : list (string * json))
  : Prop :=
  exists s,
    Text.decode line = Some s
    /\ Text.startswith "data:" s = true
    /\ json_loads E (Text.strip (Text.drop 5 s)) = Loaded (JObj d).

(** The record [d] is about the identifier [x]. *)
Definition names (d : list (string * json)) (x : string) : Prop :=
  Py.get "verificationId" d = JStr x.

(** Protocol noise that the loop passes over: a blank line, a text line
    without the event marker, or a marked line on whose payload [json.loads]
    raises [JSONDecodeError]. *)
Definition noise (E : environment) (line : list byte) : bool :=
  match line with
  | [] => true
  | _ =>
      match Text.decode line with
      | None => false
      | Some s =>
          if Text.startswith "data:" s then
            match json_loads E (Text.strip (Text.drop 5 s)) with
            | JSONDecodeError => true
            | Loaded _ | LoadsRaises _ => false
            end
          else true
      end
  end.

(** The request issued at clock [c] is answered 401 or 403. *)
Definition challenged (E : environment) (c : nat) : bool :=
  match server E c with
  | Responds r => is_auth_failure r
  | Raises _ => false
  end.

(** The first submission of a call of [verify_batch] is answered 401 or 403
    (a missing token is fetched first, which takes one request). *)
Definition auth_challenged (E : environment) (v : verifier) (tr : trace) : bool :=
  challenged E (clock tr + (if no_token v then 1 else 0)).

(** Whether a call of [verify_batch] got as far as consuming a stream or
    catching an exception. *)
Definition submitted (fin : ending) : bool :=
  match fin with Caught _ _ | Normal => true | _ => false end.

(** The submissions and token fetches that [submit] makes, read off the
    replies of the service. *)
Definition submissions (E : environment) (ids : list string) (v : verifier)
    (tr : trace) : list event :=
  let p := Post "/api/batch" (header_token v) (batch_payload ids v) in
  match server E (clock tr) with
  | Raises _ => [p]
  | Responds r =>
      if is_auth_failure r then
        match _get_csrf_token E v (tr ++ [p]) with
        | (true, v1, _) =>
            [p; Get (header_token v);
             Post "/api/batch" (csrf_token v1) (batch_payload ids v)]
        | (false, _, _) => [p; Get (header_token v)]
        end
      else [p]
  end.

(** The same for a whole call of [verify_batch]. *)
Definition handshake_of (E : environment) (ids : list string) (v : verifier)
    (tr : trace) : list event :=
  if no_token v then
    match _get_csrf_token E v tr with
    | (true, v1, tr1) => Get (header_token v) :: submissions E ids v1 tr1
    | (false, _, _) => [Get (header_token v)]
    end
  else submissions E ids v tr.

(** No record of the service about [x] is final or carries a check token:
    each is 'pending' without [checkToken]. *)
Definition only_pending (E : environment) (x : string) : Prop :=
  forall c r line d,
    server E c = Responds r -> In line (stream_lines r) ->
    record_on E line d -> names d x ->
    Py.eq_str (Py.get "currentStep" d) "pending" = true
    /\ Py.has_key "checkToken" d = false.

(** What each ending of [verify_batch] guarantees about the returned map. *)
Definition ending_ok (E : environment) (ids : list string) (fin : ending)
    (results : Py.dict) : Prop :=
  all_terminal results
  /\ match fin with
     | NoToken => results = all_error ids "Failed to get CSRF token"
     | TokenExpired => results = all_error ids "Token expired"
     | Caught e partial =>
         results = fill_errors E ids e partial /\ all_terminal partial
     | Normal => forall x, only_pending E x -> Py.dict_get (JStr x) results = None
     end.

(** The status of the result of an identifier in a returned map. *)
Definition result_status_of (x : string) (results : Py.dict) : option json :=
  option_map result_status (Py.dict_get (JStr x) results).

(** The signals of the worker around a batch. *)
Definition processing (batch : list string) : list event :=
  map (fun i => Emit (JStr i) (JStr "Processing") Submitting) batch.

Definition reported_errors (msg : string) (results : Py.dict) : list event :=
  map (fun kv : json * json => Emit (fst kv) (JStr "error") (Final (JStr msg))) results.

(** Every value of a dict is the error result with message [msg]. *)
Definition all_failed (msg : string) (d : Py.dict) : Prop :=
  Forall (fun kv : json * json => snd kv = err_result msg) d.

(** The trace without the progress signals: requests, pauses and the calls
    of the record store. *)
Definition is_signal (e : event) : bool :=
  match e with Emit _ _ _ => true | _ => false end.

Definition wire (tr : trace) : trace := filter (fun e => negb (is_signal e)) tr.

(** The final statuses the worker has reported, in order. *)
Definition finals (tr : trace) : list (json * json) :=
  flat_map
    (fun e => match e with Emit v st (Final _) => [(v, st)] | _ => [] end) tr.

(** ** A small service to run the client against *)

Module Demo.

(** JSON texts are written with apostrophes for their double quotes. *)
Fixpoint dq (s : string) : string :=
  match s with
  | EmptyString => EmptyString
  | String c rest =>
      String (if Ascii.eqb c "'"%char then Ascii.ascii_of_nat 34 else c) (dq rest)
  end.

(** A record of the service, and the JSON text that carries it. *)
Definition record (v step : string) (ct : option string) : json :=
  JObj ([("verificationId", JStr v); ("currentStep", JStr step)]
        ++ match ct with Some t => [("checkToken", JStr t)] | None => [] end).

Definition text_of (v step : string) (ct : option string) : string :=
  dq ("{'verificationId': '" ++ v ++ "', 'currentStep': '" ++ step ++ "'"
      ++ match ct with
         | Some t => ", 'checkToken': '" ++ t ++ "'"
         | None => EmptyString
         end
      ++ "}")%string.

Definition known : list (string * string * option string) :=
  flat_map
    (fun v => [(v, "success", None); (v, "error", None);
               (v, "pending", None); (v, "pending", Some "t1")])
    ["a"; "b"; "c"; "d"; "e"; "f"; "g"].

(** [n] opening brackets: an array nested [n] deep and never closed. *)
Fixpoint nest (n : nat) : string :=
  match n with
  | O => EmptyString
  | S n' => String "[" (nest n')
  end.

(** The text consists of opening brackets only. *)
Fixpoint brackets (s : string) : bool :=
  match s with
  | EmptyString => true
  | String c rest => Ascii.eqb c "[" && brackets rest
  end.

(** The nesting depth used below, far beyond the recursion limit of the
    interpreter. *)
Definition too_deep : N := 100000.
Definition depth : nat := N.to_nat too_deep.

(** [str(e)] of the [RecursionError] of the parser. *)
Definition recursion_error : string :=
  "maximum recursion depth exceeded while decoding a JSON array from a unicode string".

(** A table that agrees with [json.loads] on the payloads used below: the
    texts of the known records parse to them; on [too_deep] opening brackets
    or more the parser gives up with [RecursionError]; the other payloads of
    the examples are not JSON. *)
Definition loads (s : string) : loaded :=
  match find (fun k : string * string * option string =>
                let '(v, step, ct) := k in s =? text_of v step ct) known with
  | Some (v, step, ct) => Loaded (record v step ct)
  | None =>
      if brackets s && (too_deep <=? N.of_nat (String.length s))%N then
        LoadsRaises recursion_error
      else JSONDecodeError
  end.

Definition success_a : string := text_of "a" "success" None.
Definition pending_a : string := text_of "a" "pending" None.

Definition page_text : string := "<script>window.CSRF_TOKEN = 'tok';</script>".

(** Agrees with the search for the token pattern on [page_text] and on the
    empty page. *)
Definition search (s : string) : option string :=
  if s =? page_text then Some "tok" else None.

(** [str(e)] of the interpreter exceptions met below. *)
Definition texts (e : exn) : string :=
  match e with
  | Raised m => m
  | UnicodeDecodeError _ =>
      "'utf-8' codec can't decode byte 0xff in position 0: invalid start byte"
  | AttributeError _ => "object has no attribute 'get'"
  | TypeError _ => "unhashable type"
  end.

Definition reply_with (code : Z) (body : string) (lines : list (list byte))
    (err : option string) : reply :=
  Responds {| status_code := code; text := body;
              json_body := inl "Expecting value: line 1 column 1 (char 0)";
              stream_lines := lines; stream_error := err |}.

(** The token page, a stream answer, and the answer to an expired token. *)
Definition page : reply := reply_with 200 page_text [] None.
Definition stream (lines : list (list byte)) (err : option string) : reply :=
  reply_with 200 EmptyString lines err.
Definition denied : reply := reply_with 401 EmptyString [] None.

(** A status answer of the poll end point. *)
Definition status (j : json) : reply :=
  Responds {| status_code := 200; text := EmptyString; json_body := inr j;
              stream_lines := []; stream_error := None |}.

Definition data (payload : string) : list byte :=
  list_byte_of_string (String.append "data: " payload).

(** A service that gives the listed replies in turn and then refuses the
    connection. *)
Definition service (replies : list reply) : environment :=
  {| server := fun n => nth n replies (Raises "Connection refused");
     json_loads := loads;
     search_csrf := search;
     exn_text := texts |}.

(** A service that gives the same reply to every request. *)
Definition monotone (r : reply) : environment :=
  {| server := fun _ => r;
     json_loads := loads;
     search_csrf := search;
     exn_text := texts |}.

(** A user whose record store works and who stops the job once the trace
    has the given length, if at all. *)
Definition user (stop : option nat) : frontend :=
  {| move_to_verified := fun _ => None; stop_after := stop |}.

(** A verifier that already holds a token. *)
Definition ready : verifier :=
  {| api_key := "key"; csrf_token := Some "tok"; header_token := Some "tok" |}.

Definition links_of (ids : list string) : list link :=
  map (fun i => {| vid := i; line := String.append "https://verify/" i |}) ids.

End Demo.

(** ** Vocabulary of the further properties *)

(** The two copies of the token that a verifier keeps agree. *)
Definition in_sync (v : verifier) : Prop := header_token v = csrf_token v.

(** No record of the service is 'pending' with a check token: nothing is
    handed to the poller. *)
Definition never_deferred (E : environment) : Prop :=
  forall c r line d,
    server E c = Responds r -> In line (stream_lines r) ->
    record_on E line d ->
    Py.eq_str (Py.get "currentStep" d) "pending" && Py.has_key "checkToken" d = false.

(** A list of progress signals. *)
Definition signals_only (evs : list event) : Prop :=
  Forall (fun e => is_signal e = true) evs.

(** The check token the poller holds after the answer to the request issued
    at clock [c]: the one of the answer when it has one, else the old one. *)
Definition next_token (E : environment) (c : nat) (ct : json) : json :=
  match server E c with
  | Responds r =>
      match json_body r with
      | inr (JObj d) =>
          if Py.has_key "checkToken" d then Py.get "checkToken" d else ct
      | _ => ct
      end
  | Raises _ => ct
  end.

(** ... and after [k] answers in a row, the first to the request at [c]. *)
Fixpoint token_after (E : environment) (c k : nat) (ct : json) : json :=
  match k with
  | O => ct
  | S k' => token_after E (S c) k' (next_token E c ct)
  end.

(** The status request that carries the check token [ct]. *)
Definition poll_request (v : verifier) (ct : json) : event :=
  Post "/api/check-status" (header_token v) (JObj [("checkToken", ct)]).

(** The status requests of a poll that starts at clock [c] with the token
    [ct] and makes [k] requests. *)
Definition poll_requests (E : environment) (v : verifier) (c k : nat) (ct : json)
  : list event :=
  map (fun j => poll_request v (token_after E c j ct)) (seq 0 k).

(** The exception that an answer of the status end point raises in the
    poller, if any: the request fails, the body is not JSON, or the JSON
    value is not an object. *)
Definition poll_failure (rep : reply) : option exn :=
  match rep with
  | Raises msg => Some (Raised msg)
  | Responds r =>
      match json_body r with
      | inl msg => Some (Raised msg)
      | inr (JObj _) => None
      | inr j => Some (AttributeError j)
      end
  end.

(** What the token fetches and submissions of one call of [verify_batch] for
    the batch [ids] look like under the API key [key]: at most two fetches,
    at most two submissions, each submission with the payload of the batch. *)
Definition handshake_shape (ids : list string) (key : string) (l : list event) : Prop :=
  List.length (filter is_submit l) <= 2
  /\ List.length (filter is_get l) <= 2
  /\ forall path tok body,
       In (Post path tok body) l ->
       path = "/api/batch" /\ body = batch_payload ids (new_verifier key).

(** ** The window: reading the links *)

Module Link.

(** [[a-zA-Z0-9]]. *)
Definition alnum (c : ascii) : bool :=
  let n := nat_of_ascii c in
  ((48 <=? n) && (n <=? 57) || (65 <=? n) && (n <=? 90) || (97 <=? n) && (n <=? 122))%nat.

(** The longest run of such characters at the start of a text. *)
Fixpoint take_alnum (s : string) : string :=
  match s with
  | EmptyString => EmptyString
  | String c rest => if alnum c then String c (take_alnum rest) else EmptyString
  end.

(** What follows the literal [lit] at the start of [s], if [s] starts
    with it. *)
Fixpoint after_prefix (lit s : string) : option string :=
  match lit with
  | EmptyString => Some s
  | String a lit' =>
      match s with
      | EmptyString => None
      | String b s' => if Ascii.eqb a b then after_prefix lit' s' else None
      end
  end.

(** The match of the pattern [lit([a-zA-Z0-9]+)] at the start of [s]:
    its group 1. The group is greedy and nothing follows it in the pattern. *)
Definition match_here (lit s : string) : option string :=
  match after_prefix lit s with
  | Some rest =>
      match take_alnum rest with
      | EmptyString => None
      | g => Some g
      end
  | None => None
  end.

(** [re.search] for that pattern: the match at the leftmost position that
    has one. *)
Fixpoint re_search (lit s : string) : option string :=
  match match_here lit s with
  | Some g => Some g
  | None =>
      match s with
      | EmptyString => None
      | String _ rest => re_search lit rest
      end
  end.

(** [SheerIDWindow.extract_vid]: the query form first, then the path form. *)
Definition extract_vid (line : string) : option string :=
  match re_search "verificationId=" line with
  | Some g => Some g
  | None => re_search "verify/" line
  end.

Fixpoint all_alnum (s : string) : bool :=
  match s with
  | EmptyString => true
  | String c rest => alnum c && all_alnum rest
  end.

(** The text has no character [c]. *)
Fixpoint lacks (c : ascii) (s : string) : bool :=
  match s with
  | EmptyString => true
  | String b rest => negb (Ascii.eqb b c) && lacks c rest
  end.

(** The number of characters before the first [c]. *)
Fixpoint before (c : ascii) (s : string) : nat :=
  match s with
  | EmptyString => O
  | String b rest => if Ascii.eqb b c then O else S (before c rest)
  end.

(** The text is empty or starts with a character that cannot go on an
    identifier. *)
Definition stops (s : string) : bool :=
  match s with
  | EmptyString => true
  | String c _ => negb (alnum c)
  end.

End Link.

(** ** The window: the table *)

(** A row of the table: the check box, the identifier, the line it was read
    from, and what the status and detail cells were built from. *)
Record row : Type := {
  checked : bool;
  row_vid : string;
  row_line : string;
  row_status : json;
  row_detail : progress_msg
}.

(** The table and [self.vid_row_map], a dict from identifiers to row
    numbers. *)
Record window : Type := {
  table : list row;
  vid_row_map : Py.dict
}.

(** A plain text in the detail cell. *)
Definition plain (s : string) : progress_msg := Final (JStr s).

(** [self.table.setItem(r, ...)]: the row [r] is changed when the table has
    it; the toolkit ignores the call for another row number, which the map
    never holds (see [consistent]). *)
Fixpoint set_row (r : nat) (f : row -> row) (tbl : list row) {struct tbl}
  : list row :=
  match tbl with
  | [] => []
  | x :: rest =>
      match r with
      | O => f x :: rest
      | S r' => x :: set_row r' f rest
      end
  end.

Definition with_status (st : json) (x : row) : row :=
  {| checked := checked x; row_vid := row_vid x; row_line := row_line x;
     row_status := st; row_detail := row_detail x |}.

Definition with_detail (m : progress_msg) (x : row) : row :=
  {| checked := checked x; row_vid := row_vid x; row_line := row_line x;
     row_status := row_status x; row_detail := m |}.

Definition with_check (b : bool) (x : row) : row :=
  {| checked := b; row_vid := row_vid x; row_line := row_line x;
     row_status := row_status x; row_detail := row_detail x |}.

(** The loop of [load_data]: a line with an identifier becomes the next row
    and the map is pointed at it. *)
Fixpoint fill_table (lines : list string) (w : window) : window :=
  match lines with
  | [] => w
  | l :: rest =>
      match Link.extract_vid l with
      | Some v =>
          if Py.truthy (JStr v) then
            fill_table rest
              {| table := table w
                          ++ [{| checked := false; row_vid := v; row_line := l;
                                 row_status := JStr "Ready";
                                 row_detail := plain EmptyString |}];
                 vid_row_map :=
                   Py.dict_set (JStr v) (JNum (Z.of_nat (List.length (table w))))
                     (vid_row_map w) |}
          else fill_table rest w
      | None => fill_table rest w
      end
  end.

(** [[l.strip() for l in f.readlines() if l.strip()]]. *)
Definition stripped (raw : list string) : list string :=
  map Text.strip (filter (fun l => Py.truthy (JStr (Text.strip l))) raw).

(** [load_data]: [None] when the file does not exist (a warning, nothing
    changes), else the lines of the file. *)
Definition load_data (file : option (list string)) (w : window) : window :=
  match file with
  | None => w
  | Some raw => fill_table (stripped raw) {| table := []; vid_row_map := [] |}
  end.

(** [QTableWidgetItem(x)]: a text always makes an item; for another value
    [item_ok] says whether the toolkit accepts it. *)
Definition cell_ok (item_ok : json -> bool) (x : json) : bool :=
  match x with JStr _ => true | _ => item_ok x end.

(** The value of a message that makes no item; the formatted messages of
    the callback are texts. *)
Definition refused (item_ok : json -> bool) (m : progress_msg) : option json :=
  match m with
  | Final x => if cell_ok item_ok x then None else Some x
  | _ => None
  end.

(** [update_row_status], the slot of the progress signal. *)
Definition update_row_status (item_ok : json -> bool) (v st : json)
    (m : progress_msg) (w : window) : option exn * window :=
  if negb (Py.hashable v) then (Some (TypeError v), w)
  else
    match Py.dict_get v (vid_row_map w) with
    | Some (JNum r) =>
        if cell_ok item_ok st then
          let w1 := {| table := set_row (Z.to_nat r) (with_status st) (table w);
                       vid_row_map := vid_row_map w |} in
          match refused item_ok m with
          | None =>
              (None,
               {| table := set_row (Z.to_nat r) (with_detail m) (table w1);
                  vid_row_map := vid_row_map w |})
          | Some x => (Some (TypeError x), w1)
          end
        else (Some (TypeError st), w)
    | _ => (None, w)
    end.

(** The check boxes as the user has set them: [chk r] for the row [r]. *)
Fixpoint tick_from (i : nat) (chk : nat -> bool) (tbl : list row) : list row :=
  match tbl with
  | [] => []
  | x :: rest => with_check (chk i) x :: tick_from (S i) chk rest
  end.

Definition tick (chk : nat -> bool) (w : window) : window :=
  {| table := tick_from 0 chk (table w); vid_row_map := vid_row_map w |}.

(** The rows that [start_verify] gathers: [links_data]. *)
Definition links_data (w : window) : list link :=
  map (fun x => {| vid := row_vid x; line := row_line x |})
      (filter checked (table w)).

(** The number of the last row that shows the identifier [v], counting
    from [i]. *)
Fixpoint last_row_from (i : nat) (v : string) (tbl : list row) : option nat :=
  match tbl with
  | [] => None
  | x :: rest =>
      match last_row_from (S i) v rest with
      | Some j => Some j
      | None => if (row_vid x =? v) then Some i else None
      end
  end.

Definition last_row (v : string) (tbl : list row) : option nat :=
  last_row_from 0 v tbl.

(** The map points each identifier at the last row that shows it, and holds
    nothing else: its keys are texts. *)
Definition consistent (w : window) : Prop :=
  (forall v,
     Py.dict_get (JStr v) (vid_row_map w)
     = option_map (fun r => JNum (Z.of_nat r)) (last_row v (table w)))
  /\ Forall (fun kv : json * json => exists s, fst kv = JStr s) (vid_row_map w).

(** A line that gives a row. *)
Definition has_vid (l : string) : bool :=
  match Link.extract_vid l with
  | Some v => Py.truthy (JStr v)
  | None => false
  end.

(** Each row shows the identifier found in its line. *)
Definition rows_ok (tbl : list row) : Prop :=
  Forall (fun x => Link.extract_vid (row_line x) = Some (row_vid x)) tbl.

(** [start_verify]: nothing happens while a worker runs; else the checked
    rows are gathered and marked, and a worker is started on them unless
    there is none ([None]: no worker). *)
Definition start_verify (worker_running : bool) (w : window)
  : option (list link) * window :=
  if worker_running then (None, w)
  else
    let w' :=
      {| table :=
           map (fun x =>
                  if checked x
                  then with_detail (plain "Waiting...") (with_status (JStr "Pending") x)
                  else x)
               (table w);
         vid_row_map := vid_row_map w |} in
    match links_data w with
    | [] => (None, w')
    | links => (Some links, w')
    end.

(** The numbers of the checked rows, counting from [i]. *)
Fixpoint checked_rows_from (i : nat) (tbl : list row) : list nat :=
  match tbl with
  | [] => []
  | x :: rest =>
      if checked x then i :: checked_rows_from (S i) rest
      else checked_rows_from (S i) rest
  end.

(** The loop of [cancel_selected] over the checked rows. An answer that is
    not a dict has no [get], and a message that makes no item is refused:
    both exceptions leave the slot. *)
Fixpoint cancel_rows (E : environment) (item_ok : json -> bool) (rows : list nat)
    (w : window) (v : verifier) (tr : trace)
  : option exn * window * verifier * trace :=
  match rows with
  | [] => (None, w, v, tr)
  | r :: rest =>
      match nth_error (table w) r with
      | None => (Some (AttributeError JNull), w, v, tr)   (* item(r, 1) is None *)
      | Some x =>
          let w1 := {| table := set_row r (with_detail (plain "Cancelling...")) (table w);
                       vid_row_map := vid_row_map w |} in
          let '(res, v, tr) := cancel_verification E (row_vid x) v tr in
          match res with
          | JObj d =>
              let msg := Py.get_default "message" (JStr "Cancelled") d in
              let w2 := {| table := set_row r (with_status (JStr "Cancelled")) (table w1);
                           vid_row_map := vid_row_map w |} in
              if cell_ok item_ok msg then
                cancel_rows E item_ok rest
                  {| table := set_row r (with_detail (Final msg)) (table w2);
                     vid_row_map := vid_row_map w |}
                  v tr
              else (Some (TypeError msg), w2, v, tr)
          | _ => (Some (AttributeError res), w1, v, tr)
          end
      end
  end.

(** [cancel_selected]; [confirm] is the answer of the user to the question. *)
Definition cancel_selected (E : environment) (item_ok : json -> bool)
    (confirm : bool) (w : window) (v : verifier) (tr : trace)
  : option exn * window * verifier * trace :=
  match checked_rows_from 0 (table w) with
  | [] => (None, w, v, tr)
  | rows => if confirm then cancel_rows E item_ok rows w v tr else (None, w, v, tr)
  end.

(** The cancel request for the identifier of a row. *)
Definition cancel_post (v : verifier) (x : row) : event :=
  Post "/api/cancel" (csrf_token v) (JObj [("verificationId", JStr (row_vid x))]).

(** The status column after a cancellation that went through. *)
Definition cancelled_status (x : row) : json :=
  if checked x then JStr "Cancelled" else row_status x.

(** * Properties *)

(** ** Batching *)

Section Batching.

Context {A : Type}.

Lemma range_from_length (fuel start stop : nat) :
  stop - start <= fuel ->
  List.length (Py.range_from fuel start stop 5) = (stop - start + 4) / 5.
Proof.
  revert start; induction fuel as [|fuel IH]; intros start Hf; cbn [Py.range_from].
  - replace (stop - start) with 0 by lia. reflexivity.
  - destruct (Nat.ltb_spec start stop) as [Hlt|Hge].
    + cbn [List.length]. rewrite IH by lia.
      destruct (Nat.le_gt_cases (start + 5) stop) as [Hle|Hgt].
      * replace (stop - start + 4) with (stop - (start + 5) + 4 + 1 * 5) by lia.
        rewrite Nat.div_add by discriminate. lia.
      * replace (stop - (start + 5)) with 0 by lia.
        change ((0 + 4) / 5) with 0.
        apply Nat.div_unique with (r := stop - start - 1); lia.
    + replace (stop - start) with 0 by lia. reflexivity.
Qed.

Lemma range_from_chunks (l : list A) (fuel start : nat) :
  List.length l - start <= fuel ->
  List.concat (map (fun i => Py.slice l i (i + 5))
              (Py.range_from fuel start (List.length l) 5))
  = skipn start l.
Proof.
  revert start; induction fuel as [|fuel IH]; intros start Hf; simpl.
  - symmetry. apply skipn_all2. lia.
  - destruct (Nat.ltb_spec start (List.length l)) as [Hlt|Hge].
    + simpl. rewrite IH by lia. unfold Py.slice.
      replace (start + 5 - start) with 5 by lia.
      replace (start + 5) with (5 + start) by lia.
      rewrite <- skipn_skipn. apply firstn_skipn.
    + symmetry. apply skipn_all2. lia.
Qed.

Lemma range_from_nth (fuel start stop k : nat) :
  stop - start <= fuel ->
  k < (stop - start + 4) / 5 ->
  nth_error (Py.range_from fuel start stop 5) k = Some (start + 5 * k).
Proof.
  revert start k; induction fuel as [|fuel IH]; intros start k Hf Hk; cbn [Py.range_from].
  - replace (stop - start) with 0 in Hk by lia. cbv in Hk. lia.
  - destruct (Nat.ltb_spec start stop) as [Hlt|Hge].
    + destruct k as [|k]; cbn [nth_error].
      * f_equal. lia.
      * rewrite IH.
        -- f_equal. lia.
        -- lia.
        -- destruct (Nat.le_gt_cases (start + 5) stop) as [Hle|Hgt].
           ++ replace (stop - start + 4) with (stop - (start + 5) + 4 + 1 * 5) in Hk by lia.
              rewrite Nat.div_add in Hk by discriminate. lia.
           ++ exfalso.
              assert (Hq : (stop - start + 4) / 5 = 1)
                by (symmetry; apply Nat.div_unique with (r := stop - start - 1); lia).
              lia.
    + replace (stop - start) with 0 in Hk by lia. cbv in Hk. lia.
Qed.

End Batching.

(** C2. For every list of identifiers the worker makes ceil(N/5) batches
    (N the length of the list: the least number whose fivefold reaches N),
    each of at most five identifiers; the k-th
    batch is the slice of the input from 5k to 5k+5, so the batches follow the
    input order, and their concatenation is the input list itself: nothing is
    repeated and nothing is left out. *)
Theorem batches_partition (tasks : list string) :
  List.length (batches tasks) = (List.length tasks + 4) / 5
  /\ List.length tasks <= 5 * List.length (batches tasks) < List.length tasks + 5
  /\ Forall (fun b => List.length b <= 5) (batches tasks)
  /\ (forall k, k < (List.length tasks + 4) / 5 ->
        nth_error (batches tasks) k = Some (firstn 5 (skipn (5 * k) tasks)))
  /\ List.concat (batches tasks) = tasks.
Proof.
  assert (Hlen : List.length (batches tasks) = (List.length tasks + 4) / 5).
  { unfold batches, Py.range.
    rewrite length_map, range_from_length by lia. f_equal. lia. }
  split; [exact Hlen|]. split.
  { rewrite Hlen.
    pose proof (Nat.div_mod_eq (List.length tasks + 4) 5) as Hdiv.
    pose proof (Nat.mod_upper_bound (List.length tasks + 4) 5 ltac:(discriminate)) as Hmod.
    lia. }
  unfold batches, Py.range. repeat split.
  - apply Forall_forall. intros b Hb. apply in_map_iff in Hb.
    destruct Hb as (i & <- & _). unfold Py.slice.
    rewrite length_firstn. lia.
  - intros k Hk. rewrite nth_error_map, range_from_nth.
    + cbn [option_map]. unfold Py.slice.
      replace (0 + 5 * k + 5 - (0 + 5 * k)) with 5 by lia.
      reflexivity.
    + lia.
    + rewrite Nat.sub_0_r. exact Hk.
  - rewrite range_from_chunks by lia. reflexivity.
Qed.

Example batches_seven :
  batches ["a"; "b"; "c"; "d"; "e"; "f"; "g"]
  = [["a"; "b"; "c"; "d"; "e"]; ["f"; "g"]].
Proof. reflexivity. Qed.

(** ** Dictionaries and results *)

Lemma key_eqb_refl (k : json) : Py.hashable k = true -> Py.key_eqb k k = true.
Proof.
  destruct k; simpl; intros H; try discriminate; auto.
  - destruct b; reflexivity.
  - apply Z.eqb_refl.
  - apply String.eqb_refl.
Qed.

Lemma key_eqb_str (k : json) (s : string) :
  Py.key_eqb k (JStr s) = true <-> k = JStr s.
Proof.
  destruct k; simpl; split; intros H; try discriminate.
  - apply String.eqb_eq in H. congruence.
  - injection H as ->. apply String.eqb_refl.
Qed.

Lemma key_eqb_str_trans (k0 k : json) (s : string) :
  Py.key_eqb k0 k = true -> Py.key_eqb k (JStr s) = false ->
  Py.key_eqb k0 (JStr s) = false.
Proof.
  intros H0 H. destruct (Py.key_eqb k0 (JStr s)) eqn:Hs; [|reflexivity].
  apply key_eqb_str in Hs. subst k0.
  destruct k; simpl in H0; try discriminate.
  apply String.eqb_eq in H0. subst. simpl in H.
  rewrite String.eqb_refl in H. discriminate.
Qed.

Lemma dict_get_set_same (k v : json) (d : Py.dict) :
  Py.hashable k = true -> Py.dict_get k (Py.dict_set k v d) = Some v.
Proof.
  intros Hk. induction d as [|[k0 v0] d IH]; simpl.
  - rewrite key_eqb_refl by assumption. reflexivity.
  - destruct (Py.key_eqb k0 k) eqn:H0; simpl; rewrite H0; auto.
Qed.

Lemma dict_get_set_other (k v : json) (s : string) (d : Py.dict) :
  Py.key_eqb k (JStr s) = false ->
  Py.dict_get (JStr s) (Py.dict_set k v d) = Py.dict_get (JStr s) d.
Proof.
  intros Hk. induction d as [|[k0 v0] d IH]; simpl.
  - rewrite Hk. reflexivity.
  - destruct (Py.key_eqb k0 k) eqn:H0; simpl.
    + rewrite (key_eqb_str_trans _ _ _ H0 Hk). reflexivity.
    + destruct (Py.key_eqb k0 (JStr s)); auto.
Qed.

Lemma all_terminal_set (k v : json) (d : Py.dict) :
  terminal v = true -> all_terminal d -> all_terminal (Py.dict_set k v d).
Proof.
  intros Hv Hd. induction Hd as [|[k0 v0] d H0 Hd IH]; simpl.
  - repeat constructor. exact Hv.
  - destruct (Py.key_eqb k0 k); constructor; auto.
Qed.

Lemma all_terminal_get (k v : json) (d : Py.dict) :
  all_terminal d -> Py.dict_get k d = Some v -> terminal v = true.
Proof.
  intros Hd. induction Hd as [|[k0 v0] d H0 Hd IH]; simpl; [discriminate|].
  destruct (Py.key_eqb k0 k); [|exact IH].
  intros [= <-]. exact H0.
Qed.

Lemma terminal_err_result (msg : string) : terminal (err_result msg) = true.
Proof. reflexivity. Qed.

Lemma terminal_final (d : list (string * json)) :
  (Py.eq_str (Py.get "currentStep" d) "success"
   || Py.eq_str (Py.get "currentStep" d) "error") = true ->
  terminal (JObj d) = true.
Proof.
  unfold terminal, result_status, Py.or_. intros H.
  destruct (Py.get "currentStep" d) as [| | |s| |]; simpl in H; try discriminate.
  assert (Hs : Py.truthy (JStr s) = true).
  { simpl. destruct s; [discriminate H | reflexivity]. }
  rewrite Hs. exact H.
Qed.

Section Dictionaries.

Variable E : environment.

Lemma all_error_terminal (ids : list string) (msg : string) :
  all_terminal (all_error ids msg).
Proof.
  unfold all_error. generalize (@nil (json * json)) (Forall_nil (fun kv : json * json => terminal (snd kv) = true)).
  induction ids as [|i ids IH]; intros d Hd; simpl; [exact Hd|].
  apply IH. apply all_terminal_set; [reflexivity | exact Hd].
Qed.

Lemma all_error_get (ids : list string) (msg : string) (i : string) :
  In i ids -> Py.dict_get (JStr i) (all_error ids msg) = Some (err_result msg).
Proof.
  unfold all_error.
  assert (Hkeep : forall l d,
    Py.dict_get (JStr i) d = Some (err_result msg) ->
    Py.dict_get (JStr i)
      (fold_left (fun d vid => Py.dict_set (JStr vid) (err_result msg) d) l d)
    = Some (err_result msg)).
  { induction l as [|j l IH]; intros d Hd; simpl; [exact Hd|].
    apply IH. destruct (String.eqb_spec j i) as [->|Hne].
    - apply dict_get_set_same. reflexivity.
    - rewrite dict_get_set_other; [exact Hd|].
      simpl. apply String.eqb_neq. exact Hne. }
  generalize (@nil (json * json)).
  induction ids as [|j ids IH]; intros d Hin; simpl; [contradiction|].
  destruct (String.eqb_spec j i) as [->|Hne].
  - apply Hkeep. apply dict_get_set_same. reflexivity.
  - destruct Hin as [->|Hin]; [contradiction|]. apply IH. exact Hin.
Qed.

Lemma fill_errors_terminal (ids : list string) (e : exn) (d : Py.dict) :
  all_terminal d -> all_terminal (fill_errors E ids e d).
Proof.
  unfold fill_errors. revert d.
  induction ids as [|i ids IH]; intros d Hd; simpl; [exact Hd|].
  apply IH. destruct (Py.dict_mem (JStr i) d); [exact Hd|].
  apply all_terminal_set; [reflexivity | exact Hd].
Qed.

Lemma fill_errors_keeps (ids : list string) (e : exn) (d : Py.dict)
    (i : string) (r : json) :
  Py.dict_get (JStr i) d = Some r ->
  Py.dict_get (JStr i) (fill_errors E ids e d) = Some r.
Proof.
  unfold fill_errors. revert d.
  induction ids as [|j ids IH]; intros d Hd; simpl; [exact Hd|].
  apply IH. unfold Py.dict_mem.
  destruct (Py.dict_get (JStr j) d) eqn:Hj; [exact Hd|].
  rewrite dict_get_set_other; [exact Hd|].
  simpl. apply String.eqb_neq. intros ->. congruence.
Qed.

Lemma fill_errors_fills (ids : list string) (e : exn) (d : Py.dict) (i : string) :
  In i ids ->
  Py.dict_get (JStr i) d = None ->
  Py.dict_get (JStr i) (fill_errors E ids e d) = Some (err_result (str_exn E e)).
Proof.
  revert d. induction ids as [|j ids IH]; intros d Hin Hd; [contradiction|].
  unfold fill_errors. simpl. fold (fill_errors E ids e).
  unfold Py.dict_mem.
  destruct (String.eqb_spec j i) as [->|Hne].
  - rewrite Hd. apply fill_errors_keeps. apply dict_get_set_same. reflexivity.
  - destruct Hin as [->|Hin]; [contradiction|].
    destruct (Py.dict_get (JStr j) d) eqn:Hj.
    + apply IH; assumption.
    + apply IH; [assumption|].
      rewrite dict_get_set_other; [exact Hd|].
      simpl. apply String.eqb_neq. exact Hne.
Qed.

End Dictionaries.

(** ** Traces *)

Lemma clock_app (tr evs : trace) : clock (tr ++ evs) = clock tr + clock evs.
Proof. unfold clock. rewrite filter_app, length_app. reflexivity. Qed.

Lemma call_app (cb : callback) (vid : json) (m : progress_msg) (tr : trace) :
  call cb vid m tr = tr ++ emitted cb vid m tr.
Proof. destruct cb; simpl; [reflexivity | symmetry; apply app_nil_r]. Qed.

Lemma emitted_poll_events (cb : callback) (vid : json) (m : progress_msg) (tr : trace) :
  Forall (fun e => poll_event e = true) (emitted cb vid m tr).
Proof.
  destruct cb as [f|]; simpl; [|constructor].
  induction (f vid m tr) as [|[[a b] c] l IH]; simpl; constructor; auto.
Qed.

Lemma poll_events_clock (evs : list event) :
  Forall (fun e => poll_event e = true) evs ->
  clock evs = List.length (filter is_poll evs).
Proof.
  unfold clock. induction 1 as [|e evs He _ IH]; [reflexivity|].
  destruct e; simpl in *; try discriminate; auto.
  rewrite He. simpl. f_equal. exact IH.
Qed.

Lemma poll_events_no_handshake (evs : list event) :
  Forall (fun e => poll_event e = true) evs -> filter handshake evs = [].
Proof.
  induction 1 as [|e evs He _ IH]; [reflexivity|].
  destruct e; simpl in *; try discriminate; auto.
  unfold handshake. simpl.
  destruct (String.eqb_spec path "/api/check-status"); [subst; simpl; exact IH | discriminate].
Qed.

Lemma emitted_no_request (cb : callback) (vid : json) (m : progress_msg) (tr : trace) :
  filter is_request (emitted cb vid m tr) = [].
Proof.
  destruct cb as [f|]; simpl; [|reflexivity].
  induction (f vid m tr) as [|[[a b] c] l IH]; simpl; auto.
Qed.

Lemma emitted_clock (cb : callback) (vid : json) (m : progress_msg) (tr : trace) :
  clock (emitted cb vid m tr) = 0.
Proof.
  destruct cb as [f|]; simpl; [|reflexivity].
  unfold clock. induction (f vid m tr) as [|[[a b] c] l IH]; simpl; auto.
Qed.

(** ** The status poller *)

Section Poller.

Variable E : environment.

Lemma poll_loop_spec (n : nat) :
  forall i ct vid cb v tr res tr',
    poll_loop E n i ct vid cb v tr = (res, tr') ->
    exists evs,
      tr' = tr ++ evs
      /\ Forall (fun e => poll_event e = true) evs
      /\ List.length (filter is_poll evs) <= n
      /\ terminal res = true
      /\ ((forall k, k < n -> still_pending E (clock tr + k)) ->
          res = err_result "Polling timeout (120s)"
          /\ List.length (filter is_poll evs) = n).
Proof.
  induction n as [|n IH]; intros i ct vid cb v tr res tr' Hrun; simpl in Hrun.
  - injection Hrun as <- <-. exists []. rewrite app_nil_r.
    split; [reflexivity|]. split; [constructor|]. split; [simpl; lia|].
    split; [reflexivity|]. intros _. split; reflexivity.
  - unfold request in Hrun.
    set (post := Post "/api/check-status" (header_token v) (JObj [("checkToken", ct)])) in *.
    assert (Hpost : is_poll post = true) by reflexivity.
    assert (Hclock : clock (tr ++ [Sleep 2]) = clock tr)
      by (rewrite clock_app; change (clock [Sleep 2]) with 0; lia).
    rewrite Hclock in Hrun.
    assert (Hstop : forall res0,
      (res0, (tr ++ [Sleep 2]) ++ [post]) = (res, tr') ->
      terminal res0 = true ->
      (forall r d, server E (clock tr) = Responds r -> json_body r = inr (JObj d) ->
                   is_final (Py.get "currentStep" d) = true) ->
      exists evs,
        tr' = tr ++ evs
        /\ Forall (fun e => poll_event e = true) evs
        /\ List.length (filter is_poll evs) <= S n
        /\ terminal res = true
        /\ ((forall k, k < S n -> still_pending E (clock tr + k)) ->
            res = err_result "Polling timeout (120s)"
            /\ List.length (filter is_poll evs) = S n)).
    { intros res0 Heq Hterm Hnot. injection Heq as <- <-. exists [Sleep 2; post].
      rewrite <- app_assoc.
      split; [reflexivity|]. split; [repeat constructor|].
      split; [simpl; lia|]. split; [exact Hterm|].
      intros H. exfalso. destruct (H 0 ltac:(lia)) as (r & d & Hr & Hd & Hf).
      rewrite Nat.add_0_r in Hr. rewrite (Hnot r d Hr Hd) in Hf. discriminate. }
    destruct (server E (clock tr)) as [msg|r] eqn:Hrep.
    + eapply Hstop; [exact Hrun | reflexivity | intros; discriminate].
    + destruct (json_body r) as [msg|j] eqn:Hbody.
      * eapply Hstop; [exact Hrun | reflexivity |].
        intros r0 d [= <-] Hd. congruence.
      * destruct j as [| | | | |d];
          try (eapply Hstop; [exact Hrun | reflexivity |];
               intros r0 d0 [= <-] Hd; congruence).
        rewrite call_app in Hrun.
        set (sigs := emitted cb vid _ _) in Hrun.
        assert (Hsigs : Forall (fun e => poll_event e = true) sigs)
          by apply emitted_poll_events.
        assert (Hsig0 : clock sigs = 0) by apply emitted_clock.
        assert (Hsig : List.length (filter is_poll sigs) = 0)
          by (rewrite <- (poll_events_clock sigs) by exact Hsigs; exact Hsig0).
        destruct (is_final (Py.get "currentStep" d)) eqn:Hfin.
        -- injection Hrun as <- <-. exists ([Sleep 2; post] ++ sigs).
           rewrite <- !app_assoc.
           split; [reflexivity|].
           split; [repeat constructor; exact Hsigs|].
           split; [simpl; rewrite Hsig; lia|].
           split; [apply terminal_final; exact Hfin|].
           intros H. exfalso. destruct (H 0 ltac:(lia)) as (r0 & d0 & Hr & Hd & Hf).
           rewrite Nat.add_0_r in Hr. congruence.
        -- apply IH in Hrun. destruct Hrun as (evs & -> & Hev & Hlen & Hterm & Hall).
           exists ([Sleep 2; post] ++ sigs ++ evs).
           rewrite <- !app_assoc.
           assert (Hnext : forall k,
             clock (((tr ++ [Sleep 2]) ++ [post]) ++ sigs) + k = clock tr + S k).
           { intros k. rewrite !clock_app, Hsig0.
             change (clock [Sleep 2]) with 0. change (clock [post]) with 1. lia. }
           split; [reflexivity|].
           split; [repeat constructor; apply Forall_app; split; assumption|].
           split; [simpl; rewrite filter_app, length_app, Hsig; lia|].
           split; [exact Hterm|].
           intros H.
           assert (Hrest : forall k, k < n ->
             still_pending E (clock (((tr ++ [Sleep 2]) ++ [post]) ++ sigs) + k)).
           { intros k Hk. rewrite Hnext. apply H. lia. }
           destruct (Hall Hrest) as [-> Hn].
           split; [reflexivity|].
           simpl. rewrite filter_app, length_app, Hsig, Hn. reflexivity.
Qed.

End Poller.

(** C5. A poll issues at most 60 status requests and no other request, and
    whatever the service answers its result is terminal: a final record of the
    service or a synthetic error. When each of the 60 answers is a record
    that is neither 'success' nor 'error', all 60 requests are made and the
    result is the synthetic error whose message reports the timeout. *)
Theorem poll_status_bounded (E : environment) (check_token vid : json)
    (cb : callback) (v : verifier) (tr : trace) :
  let '(res, tr') := _poll_status E check_token vid cb v tr in
  exists evs,
    tr' = tr ++ evs
    /\ List.length (filter is_poll evs) <= 60
    /\ clock evs = List.length (filter is_poll evs)
    /\ terminal res = true
    /\ ((forall k, k < 60 -> still_pending E (clock tr + k)) ->
        res = err_result "Polling timeout (120s)"
        /\ List.length (filter is_poll evs) = 60).
Proof.
  destruct (_poll_status E check_token vid cb v tr) as [res tr'] eqn:Hrun.
  apply poll_loop_spec in Hrun.
  destruct Hrun as (evs & Htr & Hev & Hlen & Hterm & Hall).
  exists evs. repeat split; try assumption.
  - apply poll_events_clock. exact Hev.
  - apply Hall. assumption.
  - apply Hall. assumption.
Qed.

(** A service that answers 'pending' for ever: the poll gives up after its
    60 requests. *)
Lemma poll_status_bounded_witness :
  let E := Demo.monotone (Demo.status (Demo.record "f" "pending" (Some "t1"))) in
  fst (_poll_status E (JStr "t1") (JStr "f") None Demo.ready [])
  = err_result "Polling timeout (120s)".
Proof.
  intros E.
  pose proof (poll_status_bounded E (JStr "t1") (JStr "f") None Demo.ready []) as H.
  destruct (_poll_status E (JStr "t1") (JStr "f") None Demo.ready []) as [res tr'].
  destruct H as (evs & _ & _ & _ & _ & Hall).
  apply Hall. intros k _. eexists. eexists.
  split; [reflexivity|]. split; reflexivity.
Defined.

Example poll_rotates_token :
  let E := Demo.service
             [Demo.status (Demo.record "f" "pending" (Some "t2"));
              Demo.status (Demo.record "f" "success" None)] in
  _poll_status E (JStr "t1") (JStr "f") None Demo.ready []
  = (Demo.record "f" "success" None,
     [Sleep 2;
      Post "/api/check-status" (Some "tok") (JObj [("checkToken", JStr "t1")]);
      Sleep 2;
      Post "/api/check-status" (Some "tok") (JObj [("checkToken", JStr "t2")])]).
Proof. reflexivity. Qed.

(** ** The response stream *)

Section Stream.

Variable E : environment.

Lemma store_spec (vid res : json) (results : Py.dict) (tr : trace) o results' tr' :
  store vid res results tr = (o, results', tr') ->
  terminal res = true ->
  all_terminal results ->
  tr' = tr /\ all_terminal results'
  /\ (forall x, Py.key_eqb vid (JStr x) = false ->
         Py.dict_get (JStr x) results' = Py.dict_get (JStr x) results).
Proof.
  unfold store. intros H Hres Hall.
  destruct (Py.hashable vid); injection H as <- <- <-.
  - split; [reflexivity|]. split; [apply all_terminal_set; assumption|].
    intros x Hx. apply dict_get_set_other. exact Hx.
  - auto.
Qed.

Lemma handle_api_response_spec (data : json) (results : Py.dict) (cb : callback)
    (v : verifier) (tr : trace) o results' tr' :
  _handle_api_response E data results cb v tr = (o, results', tr') ->
  all_terminal results ->
  exists evs,
    tr' = tr ++ evs
    /\ Forall (fun e => poll_event e = true) evs
    /\ all_terminal results'
    /\ (forall x,
          (forall d, data = JObj d -> names d x ->
             Py.eq_str (Py.get "currentStep" d) "pending" = true
             /\ Py.has_key "checkToken" d = false) ->
          Py.dict_get (JStr x) results' = Py.dict_get (JStr x) results).
Proof.
  intros H Hall. destruct data as [| | | | |d]; simpl in H;
    try (injection H as <- <- <-; exists []; rewrite app_nil_r;
         repeat split; auto; fail).
  destruct (Py.truthy (Py.get "verificationId" d)) eqn:Hvid; simpl in H.
  2:{ injection H as <- <- <-. exists []. rewrite app_nil_r. repeat split; auto. }
  rewrite call_app in H.
  set (sigs := emitted cb _ _ _) in H.
  assert (Hsigs : Forall (fun e => poll_event e = true) sigs)
    by apply emitted_poll_events.
  destruct (Py.eq_str (Py.get "currentStep" d) "pending"
            && Py.has_key "checkToken" d) eqn:Hpoll.
  - destruct (_poll_status E _ _ cb v (tr ++ sigs)) as [final_res tr1] eqn:Hp.
    apply poll_loop_spec in Hp. destruct Hp as (evs & -> & Hev & _ & Hterm & _).
    apply store_spec in H; [|exact Hterm|exact Hall].
    destruct H as (-> & Hall' & Hkeep).
    exists (sigs ++ evs). rewrite app_assoc.
    split; [reflexivity|]. split; [apply Forall_app; split; assumption|].
    split; [exact Hall'|].
    intros x Hx. apply Hkeep.
    destruct (Py.key_eqb (Py.get "verificationId" d) (JStr x)) eqn:Hk; [|reflexivity].
    apply key_eqb_str in Hk. destruct (Hx d eq_refl Hk) as [_ Hno].
    rewrite Hno, andb_false_r in Hpoll. discriminate.
  - destruct (is_final (Py.get "currentStep" d)) eqn:Hfin.
    + apply store_spec in H; [|apply terminal_final; exact Hfin|exact Hall].
      destruct H as (-> & Hall' & Hkeep).
      exists sigs. split; [reflexivity|]. split; [exact Hsigs|].
      split; [exact Hall'|].
      intros x Hx. apply Hkeep.
      destruct (Py.key_eqb (Py.get "verificationId" d) (JStr x)) eqn:Hk; [|reflexivity].
      apply key_eqb_str in Hk. destruct (Hx d eq_refl Hk) as [Hpend _].
      unfold is_final in Hfin.
      destruct (Py.get "currentStep" d) as [| | |s| |]; simpl in *; try discriminate.
      apply String.eqb_eq in Hpend. subst s. discriminate.
    + injection H as <- <- <-. exists sigs. repeat split; auto.
Qed.

Lemma handle_line_spec (line : list byte) (results : Py.dict) (cb : callback)
    (v : verifier) (tr : trace) o results' tr' :
  handle_line E line results cb v tr = (o, results', tr') ->
  all_terminal results ->
  exists evs,
    tr' = tr ++ evs
    /\ Forall (fun e => poll_event e = true) evs
    /\ all_terminal results'
    /\ (forall x,
          (forall d, record_on E line d -> names d x ->
             Py.eq_str (Py.get "currentStep" d) "pending" = true
             /\ Py.has_key "checkToken" d = false) ->
          Py.dict_get (JStr x) results' = Py.dict_get (JStr x) results).
Proof.
  intros H Hall.
  assert (Hskip : (o, results', tr') = (o, results, tr) ->
    exists evs,
      tr' = tr ++ evs
      /\ Forall (fun e => poll_event e = true) evs
      /\ all_terminal results'
      /\ (forall x,
            (forall d, record_on E line d -> names d x ->
               Py.eq_str (Py.get "currentStep" d) "pending" = true
               /\ Py.has_key "checkToken" d = false) ->
            Py.dict_get (JStr x) results' = Py.dict_get (JStr x) results)).
  { intros [= -> ->]. exists []. rewrite app_nil_r. repeat split; auto. }
  unfold handle_line in H.
  destruct line as [|b line]; [apply Hskip; congruence|].
  destruct (Text.decode (b :: line)) as [s|] eqn:Hdec; [|apply Hskip; congruence].
  destruct (Text.startswith "data:" s) eqn:Hpre; [|apply Hskip; congruence].
  destruct (json_loads E (Text.strip (Text.drop 5 s))) as [data| |msg] eqn:Hjson;
    [|apply Hskip; congruence..].
  apply handle_api_response_spec in H; [|exact Hall].
  destruct H as (evs & -> & Hev & Hall' & Hkeep).
  exists evs. repeat split; auto.
  intros x Hx. apply Hkeep. intros d -> Hn. apply Hx; [|exact Hn].
  exists s. auto.
Qed.

Lemma parse_stream_spec (lines : list (list byte)) :
  forall err results cb v tr o results' tr',
    parse_stream E lines err results cb v tr = (o, results', tr') ->
    all_terminal results ->
    exists evs,
      tr' = tr ++ evs
      /\ Forall (fun e => poll_event e = true) evs
      /\ all_terminal results'
      /\ (forall x,
            (forall line d, In line lines -> record_on E line d -> names d x ->
               Py.eq_str (Py.get "currentStep" d) "pending" = true
               /\ Py.has_key "checkToken" d = false) ->
            Py.dict_get (JStr x) results' = Py.dict_get (JStr x) results).
Proof.
  induction lines as [|line lines IH]; intros err results cb v tr o results' tr' H Hall;
    simpl in H.
  - injection H as <- <- <-. exists []. rewrite app_nil_r. repeat split; auto.
  - destruct (handle_line E line results cb v tr) as [[o1 results1] tr1] eqn:Hline.
    apply handle_line_spec in Hline; [|exact Hall].
    destruct Hline as (evs1 & -> & Hev1 & Hall1 & Hkeep1).
    assert (Hhere : forall x,
      (forall line0 d, In line0 (line :: lines) -> record_on E line0 d -> names d x ->
         Py.eq_str (Py.get "currentStep" d) "pending" = true
         /\ Py.has_key "checkToken" d = false) ->
      Py.dict_get (JStr x) results1 = Py.dict_get (JStr x) results).
    { intros x Hx. apply Hkeep1. intros d. apply Hx. left. reflexivity. }
    destruct o1 as [e|].
    + injection H as <- <- <-. exists evs1. repeat split; auto.
    + apply IH in H; [|exact Hall1].
      destruct H as (evs & -> & Hev & Hall' & Hkeep).
      exists (evs1 ++ evs). rewrite app_assoc.
      split; [reflexivity|]. split; [apply Forall_app; split; assumption|].
      split; [exact Hall'|].
      intros x Hx. rewrite Hkeep.
      * apply Hhere. exact Hx.
      * intros line0 d Hin. apply Hx. right. exact Hin.
Qed.

End Stream.

(** ** One call of [verify_batch] *)

Section Batch.

Variable E : environment.

Lemma get_csrf_token_spec (v : verifier) (tr : trace) ok v' tr' :
  _get_csrf_token E v tr = (ok, v', tr') ->
  tr' = tr ++ [Get (header_token v)]
  /\ api_key v' = api_key v
  /\ (ok = false -> v' = v).
Proof.
  unfold _get_csrf_token, request. intros H.
  destruct (server E (clock tr)) as [msg|r].
  - injection H as <- <- <-. auto.
  - destruct (is_http_error r).
    + injection H as <- <- <-. auto.
    + destruct (search_csrf E (text r)); injection H as <- <- <-; auto.
      repeat split; auto. discriminate.
Qed.

Lemma consume_spec (ids : list string) (r : response) (cb : callback)
    (v : verifier) (tr : trace) fin results v' tr' :
  consume E ids r cb v tr = (fin, results, v', tr') ->
  v' = v
  /\ exists evs,
      tr' = tr ++ evs
      /\ Forall (fun e => poll_event e = true) evs
      /\ all_terminal results
      /\ match fin with
         | Caught e partial =>
             results = fill_errors E ids e partial /\ all_terminal partial
         | Normal =>
             forall x,
               (forall line d, In line (stream_lines r) -> record_on E line d ->
                  names d x ->
                  Py.eq_str (Py.get "currentStep" d) "pending" = true
                  /\ Py.has_key "checkToken" d = false) ->
               Py.dict_get (JStr x) results = None
         | _ => False
         end.
Proof.
  unfold consume. intros H.
  destruct (parse_stream E (stream_lines r) (stream_error r) [] cb v tr)
    as [[o results0] tr0] eqn:Hp.
  apply parse_stream_spec in Hp; [|constructor].
  destruct Hp as (evs & -> & Hev & Hall & Hkeep).
  destruct o as [e|]; injection H as <- <- <- <-.
  - split; [reflexivity|]. exists evs. repeat split; auto.
    apply fill_errors_terminal. exact Hall.
  - split; [reflexivity|]. exists evs. repeat split; auto.
Qed.

Lemma filter_handshake_poll (evs : list event) (l : list event) :
  Forall (fun e => poll_event e = true) evs ->
  filter handshake (l ++ evs) = filter handshake l.
Proof.
  intros H. rewrite filter_app, (poll_events_no_handshake evs H), app_nil_r.
  reflexivity.
Qed.

Lemma poll_events_no_submit (evs l : list event) :
  Forall (fun e => poll_event e = true) evs ->
  filter is_submit (l ++ evs) = filter is_submit l.
Proof.
  intros H. rewrite filter_app.
  replace (filter is_submit evs) with (@nil event); [apply app_nil_r|].
  induction H as [|e evs He _ IH]; [reflexivity|].
  destruct e; simpl in *; try discriminate; auto.
  destruct (String.eqb_spec path "/api/check-status"); [subst; simpl; exact IH | discriminate].
Qed.

Lemma consume_ending (ids : list string) (r : response) (cb : callback)
    (v : verifier) (tr : trace) (c : nat) fin results v' tr' :
  server E c = Responds r ->
  consume E ids r cb v tr = (fin, results, v', tr') ->
  v' = v /\ ending_ok E ids fin results /\ submitted fin = true
  /\ exists evs, tr' = tr ++ evs /\ Forall (fun e => poll_event e = true) evs.
Proof.
  intros Hc H. apply consume_spec in H.
  destruct H as (-> & evs & -> & Hev & Hall & Hfin).
  split; [reflexivity|]. split.
  - split; [exact Hall|]. destruct fin; try contradiction; auto.
    intros x Hx. apply Hfin. intros line d Hin. apply (Hx c r line d Hc Hin).
  - split; [destruct fin; try contradiction; reflexivity|].
    exists evs. auto.
Qed.

Lemma submit_spec (ids : list string) (cb : callback) (v : verifier) (tr : trace)
    fin results v' tr' :
  submit E ids cb v tr = (fin, results, v', tr') ->
  ending_ok E ids fin results
  /\ fin <> NoToken
  /\ api_key v' = api_key v
  /\ exists evs,
      tr' = tr ++ evs
      /\ filter handshake evs = submissions E ids v tr
      /\ (submitted fin = true ->
          List.length (filter is_submit evs)
          = if challenged E (clock tr) then 2 else 1).
Proof.
  unfold submit, submissions, challenged, request. intros H.
  set (p := Post "/api/batch" (header_token v) (batch_payload ids v)) in *.
  assert (Hraise : forall msg,
    ending_ok E ids (Caught (Raised msg) []) (fill_errors E ids (Raised msg) [])).
  { intros. split; [apply fill_errors_terminal; constructor|].
    split; [reflexivity | constructor]. }
  destruct (server E (clock tr)) as [msg|r] eqn:Hrep.
  - injection H as <- <- <- <-.
    split; [apply Hraise|]. split; [discriminate|].
    split; [reflexivity|]. exists [p]. auto.
  - destruct (is_auth_failure r).
    + destruct (_get_csrf_token E v (tr ++ [p])) as [[ok v1] tr1] eqn:Hget.
      destruct (get_csrf_token_spec _ _ _ _ _ Hget) as (-> & Hkey & Hsame).
      destruct ok.
      * set (p2 := Post "/api/batch" (csrf_token v1) (batch_payload ids v)) in *.
        destruct (server E (clock ((tr ++ [p]) ++ [Get (header_token v)])))
          as [msg|r2] eqn:Hrep2.
        -- injection H as <- <- <- <-.
           split; [apply Hraise|]. split; [discriminate|].
           split; [exact Hkey|].
           exists [p; Get (header_token v); p2]. rewrite <- !app_assoc. auto.
        -- apply (consume_ending _ _ _ _ _ _ _ _ _ _ Hrep2) in H.
           destruct H as (-> & Hok & Hsub & evs & -> & Hev).
           split; [exact Hok|].
           split; [destruct fin; discriminate|]. split; [exact Hkey|].
           exists ([p; Get (header_token v); p2] ++ evs).
           rewrite <- !app_assoc. split; [reflexivity|]. split.
           ++ apply (filter_handshake_poll evs [p; Get (header_token v); p2] Hev).
           ++ intros _.
              rewrite (poll_events_no_submit evs [p; Get (header_token v); p2] Hev).
              reflexivity.
      * injection H as <- <- <- <-.
        split; [split; [apply all_error_terminal | reflexivity]|].
        split; [discriminate|]. split; [exact Hkey|].
        exists [p; Get (header_token v)]. rewrite <- !app_assoc.
        split; [reflexivity|]. split; [reflexivity | discriminate].
    + apply (consume_ending _ _ _ _ _ _ _ _ _ _ Hrep) in H.
      destruct H as (-> & Hok & Hsub & evs & -> & Hev).
      split; [exact Hok|]. split; [destruct fin; discriminate|].
      split; [reflexivity|].
      exists ([p] ++ evs). rewrite <- !app_assoc. split; [reflexivity|]. split.
      * apply (filter_handshake_poll evs [p] Hev).
      * intros _. rewrite (poll_events_no_submit evs [p] Hev). reflexivity.
Qed.

Lemma verify_batch_run_spec (ids : list string) (cb : callback) (v : verifier)
    (tr : trace) fin results v' tr' :
  verify_batch_run E ids cb v tr = (fin, results, v', tr') ->
  ending_ok E ids fin results
  /\ api_key v' = api_key v
  /\ exists evs,
      tr' = tr ++ evs
      /\ filter handshake evs = handshake_of E ids v tr
      /\ (submitted fin = true ->
          List.length (filter is_submit evs)
          = if auth_challenged E v tr then 2 else 1).
Proof.
  unfold verify_batch_run, handshake_of, auth_challenged. intros H.
  destruct (no_token v).
  - destruct (_get_csrf_token E v tr) as [[ok v1] tr1] eqn:Hget.
    destruct (get_csrf_token_spec _ _ _ _ _ Hget) as (-> & Hkey & Hsame).
    destruct ok.
    + apply submit_spec in H.
      destruct H as (Hok & _ & Hkey' & evs & -> & Hev & Hcount).
      split; [exact Hok|]. split; [congruence|].
      exists ([Get (header_token v)] ++ evs). rewrite <- app_assoc.
      split; [reflexivity|]. split.
      * simpl. rewrite Hev. reflexivity.
      * intros Hs. simpl. rewrite (Hcount Hs), clock_app.
        change (clock [Get (header_token v)]) with 1. reflexivity.
    + injection H as <- <- <- <-.
      split; [split; [apply all_error_terminal | reflexivity]|].
      split; [exact Hkey|].
      exists [Get (header_token v)].
      split; [reflexivity|]. split; [reflexivity | discriminate].
  - apply submit_spec in H.
    destruct H as (Hok & _ & Hkey & evs & -> & Hev & Hcount).
    split; [exact Hok|]. split; [exact Hkey|]. exists evs.
    rewrite Nat.add_0_r. auto.
Qed.

End Batch.

(** ** Runs of the demonstration service *)

Example strip_payload : Text.strip (Text.drop 5 "data:  {} ") = "{}".
Proof. reflexivity. Qed.

Example decode_invalid : Text.decode [Byte.xff] = None.
Proof. reflexivity. Qed.

Example decode_data :
  Text.decode (Demo.data Demo.success_a)
  = Some (String.append "data: " Demo.success_a).
Proof. reflexivity. Qed.

Example all_success_no_poll :
  verify_batch (Demo.service [Demo.stream [Demo.data Demo.success_a] None])
    ["a"] None Demo.ready []
  = ([(JStr "a",
       JObj [("verificationId", JStr "a"); ("currentStep", JStr "success")])],
     Demo.ready,
     [Post "/api/batch" (Some "tok") (batch_payload ["a"] Demo.ready)]).
Proof. reflexivity. Qed.

(** ** Properties of the client *)

(** C10 as stated fails: the submission meets no transport failure (the one
    request is answered 200 and the stream does not break), and the only
    record about the identifier is 'pending' without a [checkToken]; but a
    line after it is not valid UTF-8, [line.decode] raises, and the [except]
    clause gives the identifier an error entry. *)
Lemma pending_then_undecodable_marked :
  let E := Demo.service [Demo.stream [Demo.data Demo.pending_a; [Byte.xff]] None] in
  only_pending E "a"
  /\ (exists r, server E 0 = Responds r /\ status_code r = 200%Z
                 /\ stream_error r = None)
  /\ verify_batch_run E ["a"] None Demo.ready []
     = (Caught (UnicodeDecodeError [Byte.xff]) [],
        [(JStr "a",
          err_result
            "'utf-8' codec can't decode byte 0xff in position 0: invalid start byte")],
        Demo.ready,
        [Post "/api/batch" (Some "tok") (batch_payload ["a"] Demo.ready)])
  /\ Py.dict_get (JStr "a") (fst (fst (verify_batch E ["a"] None Demo.ready [])))
     <> None.
Proof.
  intros E. split; [|split; [|split]].
  - intros c r line d Hc Hin (s & Hdec & Hpre & Hjson) Hn.
    destruct c as [|c]; [|destruct c; discriminate Hc].
    injection Hc as <-. destruct Hin as [<-|[<-|[]]].
    + vm_compute in Hdec. injection Hdec as <-.
      vm_compute in Hjson. injection Hjson as <-.
      split; reflexivity.
    + discriminate Hdec.
  - eexists. split; [reflexivity|]. split; reflexivity.
  - reflexivity.
  - discriminate.
Qed.

(** C10, amended. When a call of [verify_batch] ends normally (a token was
    there or was fetched, no refresh failed, and nothing was raised: no
    transport failure, and no exception while a line of the stream was
    decoded, parsed or handled) and every record of the
    service about an identifier is 'pending' without a [checkToken], the
    returned map has no entry for that identifier. Handling such a record
    leaves the results as they are and makes no request: the poller is not
    called, the trace only gets the progress signal of the callback. A record
    without [verificationId] names no identifier and is covered as well. *)
Theorem pending_without_token_dropped (E : environment) (ids : list string)
    (cb : callback) (v : verifier) (tr : trace) (x : string) :
  only_pending E x ->
  fst (fst (fst (verify_batch_run E ids cb v tr))) = Normal ->
  Py.dict_get (JStr x) (fst (fst (verify_batch E ids cb v tr))) = None
  /\ forall c r line d results0 v0 tr0,
       server E c = Responds r -> In line (stream_lines r) ->
       record_on E line d -> names d x ->
       exists evs,
         _handle_api_response E (JObj d) results0 cb v0 tr0
         = (None, results0, tr0 ++ evs)
         /\ filter is_request evs = [].
Proof.
  intros Hx Hfin. split.
  - unfold verify_batch.
    destruct (verify_batch_run E ids cb v tr) as [[[fin results] v'] tr'] eqn:Hrun.
    simpl in Hfin. subst fin.
    apply verify_batch_run_spec in Hrun. destruct Hrun as ((_ & Hdrop) & _).
    simpl. apply Hdrop. exact Hx.
  - intros c r line d results0 v0 tr0 Hc Hin Hrec Hn.
    destruct (Hx c r line d Hc Hin Hrec Hn) as [Hpend Hno].
    unfold names in Hn. simpl. rewrite Hn, Hno, andb_false_r.
    destruct (Py.truthy (JStr x)); simpl.
    + assert (Hfin' : is_final (Py.get "currentStep" d) = false).
      { destruct (Py.get "currentStep" d) as [| | |s| |]; simpl in Hpend;
          try discriminate.
        apply String.eqb_eq in Hpend. subst s. reflexivity. }
      rewrite Hfin', call_app. eexists. split; [reflexivity|].
      apply emitted_no_request.
    + exists []. rewrite app_nil_r. split; reflexivity.
Qed.

(** One 'pending' record without [checkToken] for the only identifier. *)
Lemma pending_without_token_dropped_witness :
  let E := Demo.service [Demo.stream [Demo.data Demo.pending_a] None] in
  only_pending E "a"
  /\ fst (fst (fst (verify_batch_run E ["a"] None Demo.ready []))) = Normal
  /\ Py.dict_get (JStr "a") (fst (fst (verify_batch E ["a"] None Demo.ready []))) = None.
Proof.
  intros E.
  assert (H : only_pending E "a").
  { intros c r line d Hc Hin (s & Hdec & Hpre & Hjson) Hn.
    destruct c as [|c]; [|destruct c; discriminate Hc].
    injection Hc as <-. destruct Hin as [<-|[]].
    vm_compute in Hdec. injection Hdec as <-.
    vm_compute in Hjson. injection Hjson as <-.
    split; reflexivity. }
  split; [exact H|]. split; [reflexivity|].
  exact (proj1 (pending_without_token_dropped E ["a"] None Demo.ready [] "a" H eq_refl)).
Defined.

(** C1, at the input on which it fails: one identifier is submitted, the
    service answers 200 with an empty stream, and [verify_batch] returns an
    empty map; the identifier gets no result at all. *)
Lemma silent_stream_drops_identifier :
  let E := Demo.service [Demo.stream [] None] in
  verify_batch_run E ["a"] None Demo.ready []
  = (Normal, [], Demo.ready,
     [Post "/api/batch" (Some "tok") (batch_payload ["a"] Demo.ready)])
  /\ Py.dict_get (JStr "a") (fst (fst (verify_batch E ["a"] None Demo.ready []))) = None.
Proof. split; reflexivity. Qed.

(** C3 as stated fails: the submission is answered 401, the token is fetched
    again, the resubmission is answered 401 too, and no identifier is marked
    'error': the returned map is empty. *)
Lemma second_denial_not_marked :
  let E := Demo.service [Demo.denied; Demo.page; Demo.denied] in
  challenged E 0 = true /\ challenged E 2 = true
  /\ verify_batch E ["a"] None Demo.ready []
     = ([], Demo.ready,
        [Post "/api/batch" (Some "tok") (batch_payload ["a"] Demo.ready);
         Get (Some "tok");
         Post "/api/batch" (Some "tok") (batch_payload ["a"] Demo.ready)])
  /\ ~ (exists res,
          Py.dict_get (JStr "a") (fst (fst (verify_batch E ["a"] None Demo.ready [])))
          = Some res).
Proof.
  repeat split. intros [res H]. discriminate H.
Qed.

(** C3, amended. [submit] is [verify_batch] from the payload on, once a token
    is held. When the submission is answered 401 or 403 the client fetches the
    token once. If that fails, nothing is resubmitted and every identifier of
    the batch is marked 'error' with the message 'Token expired'. If it
    succeeds, the same payload is submitted once more under the new token. In
    both cases no other submission and no other token fetch is made. *)
Theorem auth_retry_once (E : environment) (ids : list string) (cb : callback)
    (v : verifier) (tr : trace) :
  challenged E (clock tr) = true ->
  let p := Post "/api/batch" (header_token v) (batch_payload ids v) in
  let '(ok, v1, _) := _get_csrf_token E v (tr ++ [p]) in
  let '(fin, results, v', tr') := submit E ids cb v tr in
  exists evs,
    tr' = tr ++ evs
    /\ if ok then
         filter handshake evs
         = [p; Get (header_token v);
            Post "/api/batch" (csrf_token v1) (batch_payload ids v)]
       else
         filter handshake evs = [p; Get (header_token v)]
         /\ fin = TokenExpired
         /\ forall i, In i ids ->
              Py.dict_get (JStr i) results = Some (err_result "Token expired").
Proof.
  intros Hch p.
  destruct (_get_csrf_token E v (tr ++ [p])) as [[ok v1] tr1] eqn:Hget.
  destruct (submit E ids cb v tr) as [[[fin results] v'] tr'] eqn:Hrun.
  pose proof (submit_spec E _ _ _ _ _ _ _ _ Hrun) as (_ & _ & _ & evs & -> & Hev & _).
  exists evs. split; [reflexivity|].
  unfold submissions in Hev. unfold challenged in Hch.
  destruct (server E (clock tr)) as [msg|r] eqn:Hrep; [discriminate|].
  rewrite Hch in Hev. fold p in Hev. rewrite Hget in Hev.
  destruct ok; [exact Hev|].
  split; [exact Hev|].
  unfold submit, request in Hrun. rewrite Hrep, Hch in Hrun. fold p in Hrun.
  rewrite Hget in Hrun. injection Hrun as <- <- _ _.
  split; [reflexivity|]. intros i Hi. apply all_error_get. exact Hi.
Qed.

(** The retry at work: 401, a fresh token, and the stream of the second
    answer. *)
Lemma auth_retry_once_witness :
  let E := Demo.service
             [Demo.denied; Demo.page; Demo.stream [Demo.data Demo.success_a] None] in
  let p := Post "/api/batch" (Some "tok") (batch_payload ["a"] Demo.ready) in
  challenged E 0 = true
  /\ exists evs,
       snd (submit E ["a"] None Demo.ready []) = [] ++ evs
       /\ filter handshake evs = [p; Get (Some "tok"); p].
Proof.
  intros E p. split; [reflexivity|].
  pose proof (auth_retry_once E ["a"] None Demo.ready [] eq_refl) as H.
  exact H.
Defined.

(** The loop decodes a line before it looks for the marker: a line that does
    not start with the event marker but is not valid UTF-8 raises in
    [line.decode]; the rest of the stream, here a final record for the
    identifier, is not read, and the identifier gets an error result. Without
    that line the identifier succeeds. *)
Lemma undecodable_line_aborts :
  let good := Demo.data Demo.success_a in
  let E := Demo.service [Demo.stream [[Byte.xff]; good] None] in
  let E' := Demo.service [Demo.stream [good] None] in
  Text.startswith "data:" (string_of_list_byte [Byte.xff]) = false
  /\ fst (fst (fst (verify_batch_run E ["a"] None Demo.ready [])))
     = Caught (UnicodeDecodeError [Byte.xff]) []
  /\ result_status_of "a" (fst (fst (verify_batch E ["a"] None Demo.ready [])))
     = Some (JStr "error")
  /\ result_status_of "a" (fst (fst (verify_batch E' ["a"] None Demo.ready [])))
     = Some (JStr "success").
Proof. repeat split. Qed.

(** The lines that the loop does pass over. A blank line, a line of UTF-8
    text without the 'data:' marker, and a marked line of UTF-8 text on whose
    payload [json.loads] raises [JSONDecodeError] change nothing: consuming a
    stream gives the same results, the same trace and the same outcome as
    consuming it with these lines removed. *)
Lemma noise_lines_skipped (E : environment) (lines : list (list byte))
    (err : option string) (results : Py.dict) (cb : callback) (v : verifier)
    (tr : trace) :
  parse_stream E lines err results cb v tr
  = parse_stream E (filter (fun l => negb (noise E l)) lines) err results cb v tr.
Proof.
  revert results tr. induction lines as [|line lines IH]; intros results tr.
  - reflexivity.
  - cbn [filter]. destruct (noise E line) eqn:Hn; cbn [negb].
    + assert (Hskip : handle_line E line results cb v tr = (None, results, tr)).
      { unfold noise in Hn. unfold handle_line.
        destruct line as [|b line]; [reflexivity|].
        destruct (Text.decode (b :: line)) as [s|]; [|discriminate].
        destruct (Text.startswith "data:" s); [|reflexivity].
        destruct (json_loads E (Text.strip (Text.drop 5 s)));
          [discriminate | reflexivity | discriminate]. }
      cbn [parse_stream]. rewrite Hskip. apply IH.
    + cbn [parse_stream].
      destruct (handle_line E line results cb v tr) as [[[e|] results1] tr1];
        [reflexivity | apply IH].
Qed.

Example noise_between_records :
  let E := Demo.service [] in
  let good := Demo.data Demo.success_a in
  map (noise E) [[]; list_byte_of_string ": keep-alive";
                 list_byte_of_string "data: oops"; good; [Byte.xff]]
  = [true; true; true; false; false]
  /\ parse_stream E [[]; list_byte_of_string ": keep-alive";
                     list_byte_of_string "data: oops"; good] None [] None Demo.ready []
     = parse_stream E [good] None [] None Demo.ready [].
Proof. split; reflexivity. Qed.

(** *** A payload on which the parser raises another exception *)

(** Only [JSONDecodeError] is caught in the loop: whatever else [json.loads]
    raises on the payload of a marked line ends the loop there, and the lines
    after it are not read. *)
Lemma raising_payload_ends_stream (E : environment) (line : list byte) (s msg : string)
    (rest : list (list byte)) (err : option string) (results : Py.dict)
    (cb : callback) (v : verifier) (tr : trace) :
  Text.decode line = Some s ->
  Text.startswith "data:" s = true ->
  json_loads E (Text.strip (Text.drop 5 s)) = LoadsRaises msg ->
  parse_stream E (line :: rest) err results cb v tr = (Some (Raised msg), results, tr).
Proof.
  intros Hdec Hpre Hjson. cbn [parse_stream]. unfold handle_line.
  destruct line as [|b line].
  - injection Hdec as <-. discriminate Hpre.
  - rewrite Hdec, Hpre, Hjson. reflexivity.
Qed.

Lemma nest_bytes (n : nat) :
  list_byte_of_string (Demo.nest n) = repeat Byte.x5b n.
Proof.
  induction n as [|n IH]; [reflexivity|].
  change (Demo.nest (S n)) with (String "[" (Demo.nest n)).
  change (list_byte_of_string (String "[" (Demo.nest n)))
    with (Byte.x5b :: list_byte_of_string (Demo.nest n)).
  rewrite IH. reflexivity.
Qed.

Lemma utf8_valid_brackets (n : nat) : Text.utf8_valid (repeat Byte.x5b n) = true.
Proof. induction n as [|n IH]; [reflexivity | exact IH]. Qed.

Lemma lstrip_brackets (n : nat) : Text.lstrip (repeat Byte.x5b n) = repeat Byte.x5b n.
Proof. destruct n as [|[|[|n]]]; reflexivity. Qed.

Lemma lstrip_rev_brackets (n : nat) :
  Text.lstrip_rev (repeat Byte.x5b n) = repeat Byte.x5b n.
Proof. destruct n as [|[|[|n]]]; reflexivity. Qed.

Lemma rev_brackets (n : nat) : rev (repeat Byte.x5b n) = repeat Byte.x5b n.
Proof.
  induction n as [|n IH]; [reflexivity|].
  cbn [repeat rev]. rewrite IH. symmetry. apply repeat_cons.
Qed.

Lemma substring_all (s : string) : String.substring 0 (String.length s) s = s.
Proof. induction s as [|c s IH]; [reflexivity|]. cbn. rewrite IH. reflexivity. Qed.

Lemma nest_length (n : nat) : String.length (Demo.nest n) = n.
Proof. induction n as [|n IH]; [reflexivity|]. cbn. rewrite IH. reflexivity. Qed.

Lemma nest_brackets (n : nat) : Demo.brackets (Demo.nest n) = true.
Proof. induction n as [|n IH]; [reflexivity | exact IH]. Qed.

(** A line of the marker and [n] opening brackets is text. *)
Lemma deep_line_decodes (n : nat) :
  Text.decode (Demo.data (Demo.nest n)) = Some (String.append "data: " (Demo.nest n)).
Proof.
  unfold Text.decode, Demo.data.
  rewrite string_of_list_byte_of_string.
  change (list_byte_of_string (String.append "data: " (Demo.nest n)))
    with (list_byte_of_string "data: " ++ list_byte_of_string (Demo.nest n)).
  rewrite nest_bytes.
  change (Text.utf8_valid (list_byte_of_string "data: " ++ repeat Byte.x5b n))
    with (Text.utf8_valid (repeat Byte.x5b n)).
  rewrite utf8_valid_brackets. reflexivity.
Qed.

(** Its payload is the brackets. *)
Lemma deep_payload (n : nat) :
  Text.strip (Text.drop 5 (String.append "data: " (Demo.nest n))) = Demo.nest n.
Proof.
  unfold Text.drop.
  change (String.length (String.append "data: " (Demo.nest n)) - 5)
    with (String.length (String " " (Demo.nest n))).
  change (String.substring 5 (String.length (String " " (Demo.nest n)))
            (String.append "data: " (Demo.nest n)))
    with (String.substring 0 (String.length (String " " (Demo.nest n)))
            (String " " (Demo.nest n))).
  rewrite substring_all. unfold Text.strip.
  change (list_byte_of_string (String " " (Demo.nest n)))
    with (Byte.x20 :: list_byte_of_string (Demo.nest n)).
  rewrite nest_bytes.
  change (Text.lstrip (Byte.x20 :: repeat Byte.x5b n))
    with (Text.lstrip (repeat Byte.x5b n)).
  rewrite lstrip_brackets, rev_brackets, lstrip_rev_brackets, rev_brackets.
  rewrite <- nest_bytes. apply string_of_list_byte_of_string.
Qed.

Lemma loads_deep (n : nat) :
  (Demo.too_deep <= N.of_nat n)%N ->
  Demo.loads (Demo.nest n) = LoadsRaises Demo.recursion_error.
Proof.
  intros Hn. destruct n as [|n]; [exfalso; apply Hn; reflexivity|].
  unfold Demo.loads.
  replace (find _ Demo.known) with (@None (string * string * option string))
    by (vm_compute; reflexivity).
  rewrite nest_brackets, nest_length.
  apply N.leb_le in Hn. rewrite Hn. reflexivity.
Qed.

(** On such a line the loop body raises what [json.loads] raises. *)
Lemma deep_line_raises (E : environment) (n : nat) (results : Py.dict) (cb : callback)
    (v : verifier) (tr : trace) :
  json_loads E = Demo.loads ->
  (Demo.too_deep <= N.of_nat n)%N ->
  handle_line E (Demo.data (Demo.nest n)) results cb v tr
  = (Some (Raised Demo.recursion_error), results, tr).
Proof.
  intros HE Hn. unfold handle_line.
  destruct (Demo.data (Demo.nest n)) as [|b l] eqn:Hd; [discriminate Hd|].
  rewrite <- Hd, deep_line_decodes.
  change (Text.startswith "data:" (String.append "data: " (Demo.nest n))) with true.
  cbv iota. rewrite deep_payload, HE, (loads_deep n Hn). reflexivity.
Qed.

(** The call of [verify_batch] on a stream that holds such a line and then a
    final record. *)
Lemma deep_run (n : nat) :
  (Demo.too_deep <= N.of_nat n)%N ->
  let deep := Demo.data (Demo.nest n) in
  let good := Demo.data Demo.success_a in
  let E := Demo.service [Demo.stream [deep; good] None] in
  verify_batch_run E ["a"] None Demo.ready []
  = (Caught (Raised Demo.recursion_error) [],
     [(JStr "a", err_result Demo.recursion_error)],
     Demo.ready,
     [Post "/api/batch" (Some "tok") (batch_payload ["a"] Demo.ready)]).
Proof.
  intros Hn deep good E.
  assert (H : forall results cb v tr,
             handle_line E deep results cb v tr
             = (Some (Raised Demo.recursion_error), results, tr)).
  { intros. apply deep_line_raises; [reflexivity | exact Hn]. }
  clearbody deep.
  unfold verify_batch_run, submit, request, consume.
  cbn -[handle_line fill_errors].
  rewrite H. reflexivity.
Qed.

(** C8, at an input on which it fails. The stream holds the line 'data: '
    followed by 100000 opening brackets, and then a final 'success' record
    for the identifier. The line is text and carries the event marker; its
    payload is not JSON, but [json.loads] gives up on it with
    [RecursionError], which is not a [JSONDecodeError]. The line is not
    skipped: the exception leaves the loop, the record after it is never
    read, and the identifier gets an error result. With a payload of one
    bracket, on which [json.loads] raises [JSONDecodeError], the line is
    skipped and the identifier succeeds. *)
Lemma deep_payload_aborts_stream :
  let deep := Demo.data (Demo.nest Demo.depth) in
  let good := Demo.data Demo.success_a in
  let E := Demo.service [Demo.stream [deep; good] None] in
  let E' := Demo.service [Demo.stream [Demo.data "["; good] None] in
  Text.decode deep = Some (String.append "data: " (Demo.nest Demo.depth))
  /\ json_loads E (Demo.nest Demo.depth) = LoadsRaises Demo.recursion_error
  /\ verify_batch_run E ["a"] None Demo.ready []
     = (Caught (Raised Demo.recursion_error) [],
        [(JStr "a", err_result Demo.recursion_error)],
        Demo.ready,
        [Post "/api/batch" (Some "tok") (batch_payload ["a"] Demo.ready)])
  /\ json_loads E' "[" = JSONDecodeError
  /\ result_status_of "a" (fst (fst (verify_batch E' ["a"] None Demo.ready [])))
     = Some (JStr "success").
Proof.
  assert (Hn : (Demo.too_deep <= N.of_nat Demo.depth)%N).
  { unfold Demo.depth. rewrite N2Nat.id. apply N.le_refl. }
  intros deep good E E'. split; [|split; [|split; [|split]]].
  - apply deep_line_decodes.
  - exact (loads_deep Demo.depth Hn).
  - exact (deep_run Demo.depth Hn).
  - reflexivity.
  - reflexivity.
Qed.


(** C9. Cancelling one identifier with the window's verifier: when no token
    is cached one is fetched first, and if that fails the result is the error
    'No CSRF Token' and no cancel request is made. Otherwise exactly one cancel
    request for the identifier is made under the token; the result is the JSON
    value of the answer as it is, and an error result when the request raises
    or the answer is not JSON. The worker's verifier and the results of the
    batch in flight are left as they were. *)
Theorem cancel_once (E : environment) (verification_id : string) (a : app)
    (tr : trace) :
  let wv := window_verifier a in
  let post t := Post "/api/cancel" t (JObj [("verificationId", JStr verification_id)]) in
  let answered (c : nat) (res : json) :=
    match server E c with
    | Responds r =>
        match json_body r with
        | inr j => res = j
        | inl _ => result_status res = JStr "error"
        end
    | Raises _ => result_status res = JStr "error"
    end in
  let '(res, a', tr') := cancel_selected_row E verification_id a tr in
  worker_verifier a' = worker_verifier a
  /\ worker_results a' = worker_results a
  /\ if no_token wv then
       match _get_csrf_token E wv tr with
       | (true, v1, _) =>
           tr' = tr ++ [Get (header_token wv); post (csrf_token v1)]
           /\ answered (clock tr + 1) res
       | (false, _, _) =>
           tr' = tr ++ [Get (header_token wv)]
           /\ res = err_result "No CSRF Token"
       end
     else tr' = tr ++ [post (csrf_token wv)] /\ answered (clock tr) res.
Proof.
  intros wv post answered.
  unfold cancel_selected_row, cancel_verification. fold wv.
  assert (Hreq : forall v0 t0,
    let '(res, _, tr') := cancel_request E verification_id v0 t0 in
    tr' = t0 ++ [post (csrf_token v0)] /\ answered (clock t0) res).
  { intros v0 t0. unfold cancel_request, request, answered.
    destruct (server E (clock t0)) as [msg|r]; [split; reflexivity|].
    destruct (json_body r); split; reflexivity. }
  destruct (no_token wv).
  - destruct (_get_csrf_token E wv tr) as [[ok v1] tr1] eqn:Hget.
    destruct (get_csrf_token_spec E _ _ _ _ _ Hget) as (-> & _ & _).
    destruct ok.
    + specialize (Hreq v1 (tr ++ [Get (header_token wv)])).
      destruct (cancel_request E verification_id v1 (tr ++ [Get (header_token wv)]))
        as [[res v2] tr2].
      destruct Hreq as [-> Hans]. rewrite <- app_assoc.
      rewrite clock_app in Hans. change (clock [Get (header_token wv)]) with 1 in Hans.
      simpl. auto.
    + simpl. auto.
  - specialize (Hreq wv tr).
    destruct (cancel_request E verification_id wv tr) as [[res v2] tr2].
    destruct Hreq as [-> Hans]. simpl. auto.
Qed.

Example cancel_verbatim :
  let E := Demo.service [Demo.page; Demo.status (JArr [JNum 1])] in
  cancel_verification E "a" (new_verifier "key") []
  = (JArr [JNum 1],
     {| api_key := "key"; csrf_token := Some "tok"; header_token := Some "tok" |},
     [Get None; Post "/api/cancel" (Some "tok") (JObj [("verificationId", JStr "a")])]).
Proof. reflexivity. Qed.

(** ** The worker *)

Section WorkerFacts.

Variable E : environment.
Variable F : frontend.

Lemma announce_app (batch : list string) (tr : trace) :
  announce batch tr = tr ++ processing batch.
Proof.
  unfold announce, processing. revert tr.
  induction batch as [|i batch IH]; intros tr; simpl.
  - symmetry. apply app_nil_r.
  - rewrite IH. unfold emit. rewrite <- app_assoc. reflexivity.
Qed.

Lemma processing_no_request (batch : list string) :
  filter is_request (processing batch) = [].
Proof. induction batch; simpl; auto. Qed.

Lemma clock_announce (batch : list string) (tr : trace) :
  clock (announce batch tr) = clock tr.
Proof.
  rewrite announce_app, clock_app. unfold clock at 2.
  rewrite processing_no_request. simpl. lia.
Qed.

Lemma all_failed_set (msg : string) (k : json) (d : Py.dict) :
  all_failed msg d -> all_failed msg (Py.dict_set k (err_result msg) d).
Proof.
  intros H. induction H as [|[k0 v0] d H0 Hd IH]; simpl.
  - repeat constructor.
  - destruct (Py.key_eqb k0 k); constructor; auto.
Qed.

Lemma all_error_failed (ids : list string) (msg : string) :
  all_failed msg (all_error ids msg).
Proof.
  unfold all_error.
  assert (H : forall d, all_failed msg d ->
    all_failed msg (fold_left (fun d vid => Py.dict_set (JStr vid) (err_result msg) d) ids d)).
  { induction ids as [|i ids IH]; intros d Hd; simpl; [exact Hd|].
    apply IH. apply all_failed_set. exact Hd. }
  apply H. constructor.
Qed.

Lemma fill_errors_failed (ids : list string) (e : exn) :
  all_failed (str_exn E e) (fill_errors E ids e []).
Proof.
  unfold fill_errors.
  assert (H : forall d, all_failed (str_exn E e) d ->
    all_failed (str_exn E e)
      (fold_left
         (fun d vid =>
            if Py.dict_mem (JStr vid) d then d
            else Py.dict_set (JStr vid) (err_result (str_exn E e)) d) ids d)).
  { induction ids as [|i ids IH]; intros d Hd; simpl; [exact Hd|].
    apply IH. destruct (Py.dict_mem (JStr i) d); [exact Hd|].
    apply all_failed_set. exact Hd. }
  apply H. constructor.
Qed.

(** Reporting error results cannot fail: each gives one signal. *)
Lemma report_all_failed (links : list link) (msg : string) (results : Py.dict)
    (tr : trace) :
  all_failed msg results ->
  report_all F links results tr = (None, tr ++ reported_errors msg results).
Proof.
  intros H. revert tr. induction H as [|[k r] results Hr _ IH]; intros tr; simpl.
  - rewrite app_nil_r. reflexivity.
  - simpl in Hr. subst r. simpl. rewrite IH. unfold emit.
    rewrite <- app_assoc. reflexivity.
Qed.

Lemma reported_errors_no_request (msg : string) (results : Py.dict) :
  filter is_request (reported_errors msg results) = [].
Proof. induction results; simpl; auto. Qed.

Lemma no_request_no_submit (evs : list event) :
  filter is_request evs = [] -> filter is_submit evs = [].
Proof.
  induction evs as [|e evs IH]; [reflexivity|].
  destruct e; simpl; try discriminate; auto.
Qed.

(** One turn of the loop of [run], for a batch that starts. *)
Lemma run_batches_step (links : list link) (batch : list string)
    (rest : list (list string)) (v : verifier) (tr : trace) results v' tr1 tr2 :
  is_running F tr = true ->
  verify_batch E batch (worker_callback F) v (announce batch tr) = (results, v', tr1) ->
  report_all F links results tr1 = (None, tr2) ->
  run_batches E F links (batch :: rest) v tr = run_batches E F links rest v' tr2.
Proof.
  intros Hrun Hbatch Hrep. cbn [run_batches].
  rewrite Hrun. cbn [negb]. rewrite Hbatch, Hrep. reflexivity.
Qed.

End WorkerFacts.

(** C4 as stated fails: the stream delivers a final 'success' record for one
    identifier and then breaks with a read timeout. That identifier keeps its
    'success' result; only the other one is marked 'error'. *)
Lemma success_survives_broken_stream :
  let E := Demo.service
             [Demo.stream [Demo.data Demo.success_a] (Some "Read timed out.")] in
  let results := fst (fst (verify_batch E ["a"; "b"] None Demo.ready [])) in
  fst (fst (fst (verify_batch_run E ["a"; "b"] None Demo.ready [])))
  = Caught (Raised "Read timed out.")
      [(JStr "a", JObj [("verificationId", JStr "a"); ("currentStep", JStr "success")])]
  /\ result_status_of "a" results = Some (JStr "success")
  /\ Py.dict_get (JStr "b") results = Some (err_result "Read timed out.").
Proof. repeat split. Qed.

(** C4, amended. When the submission or the reading of its stream raises a
    transport failure, every identifier of the batch that has no result yet
    is marked 'error' with the message of the failure, and an identifier that
    already has a result keeps it, so that each identifier of the batch has a
    terminal result. The failure causes no resubmission: the batch was
    submitted once, or twice when the first answer was 401 or 403. The worker
    then reports the results and goes on with the next batch; when the
    failure hit the submission itself, every result is an error and the
    reporting cannot fail. *)
Theorem transport_failure_fills_batch (E : environment) (F : frontend) (links : list link)
    (batch : list string) (rest : list (list string)) (v : verifier) (tr : trace)
    (msg : string) (partial results : Py.dict) (v' : verifier) (tr1 : trace) :
  is_running F tr = true ->
  verify_batch_run E batch (worker_callback F) v (announce batch tr)
  = (Caught (Raised msg) partial, results, v', tr1) ->
  (forall i, In i batch ->
     match Py.dict_get (JStr i) partial with
     | Some r => Py.dict_get (JStr i) results = Some r /\ terminal r = true
     | None => Py.dict_get (JStr i) results = Some (err_result msg)
     end)
  /\ (exists evs,
        tr1 = announce batch tr ++ evs
        /\ List.length (filter is_submit evs)
           = if auth_challenged E v tr then 2 else 1)
  /\ (forall tr2,
        report_all F links results tr1 = (None, tr2) ->
        run_batches E F links (batch :: rest) v tr = run_batches E F links rest v' tr2)
  /\ (partial = [] -> exists tr2, report_all F links results tr1 = (None, tr2)).
Proof.
  intros Hrun Hbatch.
  pose proof (verify_batch_run_spec E _ _ _ _ _ _ _ _ Hbatch)
    as ((_ & -> & Hpart) & _ & evs & -> & _ & Hcount).
  split; [|split; [|split]].
  - intros i Hi. destruct (Py.dict_get (JStr i) partial) as [r|] eqn:Hget.
    + split; [apply fill_errors_keeps; exact Hget|].
      apply (all_terminal_get _ _ _ Hpart Hget).
    + apply (fill_errors_fills E batch (Raised msg) partial i Hi Hget).
  - exists evs. split; [reflexivity|]. rewrite (Hcount eq_refl).
    unfold auth_challenged. rewrite clock_announce. reflexivity.
  - intros tr2 Hrep. eapply (run_batches_step E F links batch rest v tr); eauto.
    unfold verify_batch. rewrite Hbatch. reflexivity.
  - intros ->. eexists. apply report_all_failed.
    apply (fill_errors_failed E batch (Raised msg)).
Qed.

(** The submission itself times out: both identifiers are marked. *)
Lemma transport_failure_fills_batch_witness :
  let E := Demo.service [Raises "Read timed out."; Demo.stream [] None] in
  let F := Demo.user None in
  Py.dict_get (JStr "b") (fst (fst (verify_batch E ["a"; "b"] (worker_callback F)
                                        Demo.ready (announce ["a"; "b"] []))))
  = Some (err_result "Read timed out.").
Proof.
  intros E F.
  exact (proj1 (transport_failure_fills_batch E F (Demo.links_of ["a"; "b"; "c"])
                  ["a"; "b"] [["c"]] Demo.ready [] "Read timed out." [] _ _ _
                  eq_refl eq_refl)
               "b" (or_intror (or_introl eq_refl))).
Defined.

(** C6 as stated fails: the first token fetch of the job fails, the five
    identifiers of the first batch get an error, and the job goes on: the
    second batch fetches the token again and is submitted. *)
Lemma job_survives_token_failure :
  let E := Demo.service
             [Raises "Connection timed out"; Demo.page; Demo.stream [] None] in
  let job := run E (Demo.user None) "key" (Demo.links_of ["a"; "b"; "c"; "d"; "e"; "f"]) [] in
  server E 0 = Raises "Connection timed out"
  /\ fst job = None
  /\ In (Post "/api/batch" (Some "tok") (batch_payload ["f"] Demo.ready)) (snd job)
  /\ filter is_request (snd job)
     = [Get None; Get None;
        Post "/api/batch" (Some "tok") (batch_payload ["f"] Demo.ready)].
Proof. repeat split. vm_compute. auto 30. Qed.

(** C6, amended. When the token fetch at the start of a batch fails, no
    identifier of that batch is submitted and each gets the error
    'Failed to get CSRF token'. The job is not aborted: the worker reports
    these errors and goes on with the next batch, with a verifier that still
    has no token and so fetches one again. *)
Theorem token_failure_fails_one_batch (E : environment) (F : frontend) (links : list link)
    (batch : list string) (rest : list (list string)) (v : verifier) (tr : trace) :
  is_running F tr = true ->
  no_token v = true ->
  fst (fst (_get_csrf_token E v (announce batch tr))) = false ->
  let msg := "Failed to get CSRF token" in
  let evs := processing batch ++ [Get (header_token v)]
             ++ reported_errors msg (all_error batch msg) in
  verify_batch E batch (worker_callback F) v (announce batch tr)
  = (all_error batch msg, v, announce batch tr ++ [Get (header_token v)])
  /\ (forall i, In i batch ->
        Py.dict_get (JStr i) (all_error batch msg) = Some (err_result msg))
  /\ filter is_submit evs = []
  /\ run_batches E F links (batch :: rest) v tr
     = run_batches E F links rest v (tr ++ evs).
Proof.
  intros Hrun Htok Hfail msg evs.
  assert (Hbatch : verify_batch E batch (worker_callback F) v (announce batch tr)
                   = (all_error batch msg, v, announce batch tr ++ [Get (header_token v)])).
  { unfold verify_batch, verify_batch_run. rewrite Htok.
    destruct (_get_csrf_token E v (announce batch tr)) as [[ok v1] tr1] eqn:Hget.
    simpl in Hfail. subst ok.
    destruct (get_csrf_token_spec E _ _ _ _ _ Hget) as (-> & _ & Hsame).
    rewrite (Hsame eq_refl). reflexivity. }
  split; [exact Hbatch|]. split; [|split].
  - intros i Hi. apply all_error_get. exact Hi.
  - unfold evs. rewrite !filter_app.
    rewrite (no_request_no_submit _ (processing_no_request batch)).
    rewrite (no_request_no_submit _ (reported_errors_no_request msg _)).
    reflexivity.
  - apply (run_batches_step E F links batch rest v tr _ _ _ _ Hrun Hbatch).
    rewrite (report_all_failed F links msg); [|apply all_error_failed].
    unfold evs. rewrite announce_app, <- !app_assoc. reflexivity.
Qed.

(** The token page cannot be reached for the first batch. *)
Lemma token_failure_fails_one_batch_witness :
  let E := Demo.service [Raises "Connection timed out"; Demo.page] in
  let F := Demo.user None in
  verify_batch E ["a"] (worker_callback F) (new_verifier "key") (announce ["a"] [])
  = (all_error ["a"] "Failed to get CSRF token", new_verifier "key",
     announce ["a"] [] ++ [Get None]).
Proof.
  intros E F.
  exact (proj1 (token_failure_fails_one_batch E F (Demo.links_of ["a"; "f"])
                  ["a"] [["f"]] (new_verifier "key") [] eq_refl eq_refl eq_refl)).
Defined.

(** ** Progress signals do not steer the client *)

Section Erasure.

Variable E : environment.

Lemma wire_app (tr evs : trace) : wire (tr ++ evs) = wire tr ++ wire evs.
Proof. apply filter_app. Qed.

Lemma clock_wire (tr : trace) : clock (wire tr) = clock tr.
Proof.
  unfold clock, wire. induction tr as [|e tr IH]; [reflexivity|].
  destruct e; simpl; auto.
Qed.

Lemma wire_call (cb : callback) (vid : json) (m : progress_msg) (tr : trace) :
  wire (call cb vid m tr) = wire tr.
Proof.
  rewrite call_app, wire_app.
  replace (wire (emitted cb vid m tr)) with (@nil event); [apply app_nil_r|].
  destruct cb as [f|]; simpl; [|reflexivity].
  induction (f vid m tr) as [|[[a b] c] l IH]; simpl; auto.
Qed.

Lemma call_None (vid : json) (m : progress_msg) (tr : trace) :
  call None vid m tr = tr.
Proof. reflexivity. Qed.

Lemma request_wire (e : event) (tr : trace) :
  is_signal e = false ->
  request E e (wire tr) = (fst (request E e tr), wire (snd (request E e tr))).
Proof.
  intros He. unfold request. simpl. rewrite clock_wire, wire_app.
  unfold wire at 3. simpl. rewrite He. reflexivity.
Qed.

Lemma get_csrf_token_wire (v : verifier) (tr : trace) :
  _get_csrf_token E v (wire tr)
  = let '(ok, v', tr') := _get_csrf_token E v tr in (ok, v', wire tr').
Proof.
  unfold _get_csrf_token. rewrite request_wire by reflexivity.
  unfold request. simpl.
  destruct (server E (clock tr)) as [msg|r]; [reflexivity|].
  destruct (is_http_error r); [reflexivity|].
  destruct (search_csrf E (text r)); reflexivity.
Qed.

Lemma poll_loop_wire (cb : callback) (n : nat) :
  forall i ct vid v tr,
    poll_loop E n i ct vid None v (wire tr)
    = let '(res, tr') := poll_loop E n i ct vid cb v tr in (res, wire tr').
Proof.
  induction n as [|n IH]; intros i ct vid v tr; [reflexivity|].
  cbn [poll_loop].
  replace (wire tr ++ [Sleep 2]) with (wire (tr ++ [Sleep 2]))
    by (rewrite wire_app; reflexivity).
  rewrite request_wire by reflexivity.
  unfold request. cbn [fst snd].
  destruct (server E (clock (tr ++ [Sleep 2]))) as [msg|r]; [reflexivity|].
  destruct (json_body r) as [msg|j]; [reflexivity|].
  destruct j as [| | | | |d]; try reflexivity.
  rewrite call_None.
  destruct (is_final (Py.get "currentStep" d)).
  - rewrite wire_call. reflexivity.
  - rewrite <- IH. rewrite wire_call. reflexivity.
Qed.

Lemma handle_api_response_wire (cb : callback) (data : json) (results : Py.dict)
    (v : verifier) (tr : trace) :
  _handle_api_response E data results None v (wire tr)
  = let '(o, results', tr') := _handle_api_response E data results cb v tr in
    (o, results', wire tr').
Proof.
  destruct data as [| | | | |d]; try reflexivity.
  cbn [_handle_api_response].
  destruct (negb (Py.truthy (Py.get "verificationId" d))); [reflexivity|].
  rewrite call_None.
  destruct (Py.eq_str (Py.get "currentStep" d) "pending" && Py.has_key "checkToken" d).
  - unfold _poll_status.
    rewrite <- (wire_call cb (Py.get "verificationId" d)
                  (Step (Py.get "currentStep" d)
                        (Py.get_default "message" (JStr EmptyString) d)) tr).
    rewrite (poll_loop_wire cb).
    destruct (poll_loop E 60 0 _ _ cb v _) as [final_res tr1].
    unfold store. destruct (Py.hashable (Py.get "verificationId" d)); reflexivity.
  - destruct (is_final (Py.get "currentStep" d)).
    + unfold store. destruct (Py.hashable (Py.get "verificationId" d));
        rewrite wire_call; reflexivity.
    + rewrite wire_call. reflexivity.
Qed.

Lemma handle_line_wire (cb : callback) (line : list byte) (results : Py.dict)
    (v : verifier) (tr : trace) :
  handle_line E line results None v (wire tr)
  = let '(o, results', tr') := handle_line E line results cb v tr in
    (o, results', wire tr').
Proof.
  unfold handle_line. destruct line as [|b line]; [reflexivity|].
  destruct (Text.decode (b :: line)) as [s|]; [|reflexivity].
  destruct (Text.startswith "data:" s); [|reflexivity].
  destruct (json_loads E (Text.strip (Text.drop 5 s))); [|reflexivity..].
  apply handle_api_response_wire.
Qed.

Lemma parse_stream_wire (cb : callback) (lines : list (list byte)) :
  forall err results v tr,
    parse_stream E lines err results None v (wire tr)
    = let '(o, results', tr') := parse_stream E lines err results cb v tr in
      (o, results', wire tr').
Proof.
  induction lines as [|line lines IH]; intros err results v tr; [reflexivity|].
  cbn [parse_stream]. rewrite (handle_line_wire cb).
  destruct (handle_line E line results cb v tr) as [[[e|] results1] tr1];
    [reflexivity | apply IH].
Qed.

Lemma consume_wire (cb : callback) (ids : list string) (r : response)
    (v : verifier) (tr : trace) :
  consume E ids r None v (wire tr)
  = let '(fin, results, v', tr') := consume E ids r cb v tr in
    (fin, results, v', wire tr').
Proof.
  unfold consume. rewrite (parse_stream_wire cb).
  destruct (parse_stream E (stream_lines r) (stream_error r) [] cb v tr)
    as [[[e|] results] tr1]; reflexivity.
Qed.

Lemma submit_wire (cb : callback) (ids : list string) (v : verifier) (tr : trace) :
  submit E ids None v (wire tr)
  = let '(fin, results, v', tr') := submit E ids cb v tr in
    (fin, results, v', wire tr').
Proof.
  unfold submit, request. cbn beta iota zeta.
  set (p := Post "/api/batch" (header_token v) (batch_payload ids v)).
  rewrite clock_wire.
  replace (wire tr ++ [p]) with (wire (tr ++ [p])) by (rewrite wire_app; reflexivity).
  destruct (server E (clock tr)) as [msg|r]; [reflexivity|].
  destruct (is_auth_failure r); [|apply consume_wire].
  rewrite get_csrf_token_wire.
  destruct (_get_csrf_token E v (tr ++ [p])) as [[[|] v1] tr1]; [|reflexivity].
  cbn beta iota zeta.
  set (p2 := Post "/api/batch" (csrf_token v1) (batch_payload ids v)).
  rewrite clock_wire.
  replace (wire tr1 ++ [p2]) with (wire (tr1 ++ [p2])) by (rewrite wire_app; reflexivity).
  destruct (server E (clock tr1)) as [msg|r2]; [reflexivity|].
  apply consume_wire.
Qed.

(** The ending, the results, the verifier and the requests of a call of
    [verify_batch] are those of the call without a callback. *)
Lemma verify_batch_run_wire (cb : callback) (ids : list string) (v : verifier)
    (tr : trace) :
  verify_batch_run E ids None v (wire tr)
  = let '(fin, results, v', tr') := verify_batch_run E ids cb v tr in
    (fin, results, v', wire tr').
Proof.
  unfold verify_batch_run. destruct (no_token v); [|apply submit_wire].
  rewrite get_csrf_token_wire.
  destruct (_get_csrf_token E v tr) as [[[|] v1] tr1]; [|reflexivity].
  apply submit_wire.
Qed.

End Erasure.

(** ** Stopping *)

Section Reporting.

Variable F : frontend.

Lemma report_spec (links : list link) (key res : json) (tr tr' : trace) :
  report F links (key, res) tr = (None, tr') ->
  exists evs m, tr' = tr ++ evs ++ [Emit key (result_status res) (Final m)].
Proof.
  unfold report. destruct res as [| | | | |d]; try discriminate.
  cbn [result_status]. set (status := Py.or_ _ _).
  set (msg := Py.get_default "message" (JStr EmptyString) d).
  assert (Hplain : forall t m,
    (@None exn, emit key status (Final m) (tr ++ t)) = (None, tr') ->
    exists evs m0, tr' = tr ++ evs ++ [Emit key status (Final m0)]).
  { intros t m [= <-]. exists t, m. unfold emit. rewrite <- app_assoc. reflexivity. }
  destruct (Py.eq_str status "success").
  - destruct (find (fun item => Py.eq_str key (vid item)) links) as [item|].
    + destruct (move_to_verified F (line item)) as [e|].
      * destruct (iadd_str msg (move_failed e)) as [msg'|]; [|discriminate].
        apply Hplain.
      * apply Hplain.
    + intros H. apply (Hplain [] msg). rewrite app_nil_r. exact H.
  - intros H. apply (Hplain [] msg). rewrite app_nil_r. exact H.
Qed.

Lemma report_all_spec (links : list link) (results : Py.dict) :
  forall tr tr2,
    report_all F links results tr = (None, tr2) ->
    (exists evs, tr2 = tr ++ evs)
    /\ forall key res, In (key, res) results ->
         exists m, In (Emit key (result_status res) (Final m)) tr2.
Proof.
  induction results as [|[k r] results IH]; intros tr tr2 H; cbn [report_all] in H.
  - injection H as <-. split; [exists []; symmetry; apply app_nil_r|].
    intros ? ? [].
  - destruct (report F links (k, r) tr) as [[e|] tr1] eqn:Hone; [discriminate|].
    apply report_spec in Hone. destruct Hone as (evs1 & m1 & ->).
    apply IH in H. destruct H as ((evs & ->) & Hrest).
    split.
    + eexists. rewrite <- !app_assoc. reflexivity.
    + intros key res [[= <- <-]|Hin]; [|apply Hrest; exact Hin].
      exists m1. apply in_or_app. left. apply in_or_app. right.
      apply in_or_app. right. left. reflexivity.
Qed.

End Reporting.

(** C7. The worker reads the stop flag before each batch. When the stop has
    been requested by then, the loop ends at once: the trace stays as it is,
    so no identifier of this batch or of a later one is submitted or gets a
    result. When the flag is still up the batch is carried through whenever
    the stop arrives afterwards: for any other stop moment [F'] the call of
    [verify_batch] ends the same way, with the same results, the same
    verifier and the same requests, and once the results are reported each of
    them has its signal in the trace and the loop goes on to the check before
    the next batch. *)
Theorem stop_between_batches (E : environment) (F F' : frontend)
    (links : list link) (batch : list string) (rest : list (list string))
    (v : verifier) (tr : trace) :
  if is_running F tr then
    let '(fin, results, v1, tr1) :=
      verify_batch_run E batch (worker_callback F) v (announce batch tr) in
    let '(fin', results', v1', tr1') :=
      verify_batch_run E batch (worker_callback F') v (announce batch tr) in
    (fin, results, v1) = (fin', results', v1')
    /\ wire tr1 = wire tr1'
    /\ match report_all F links results tr1 with
       | (None, tr2) =>
           run_batches E F links (batch :: rest) v tr
           = run_batches E F links rest v1 tr2
           /\ forall key res, In (key, res) results ->
                exists m, In (Emit key (result_status res) (Final m)) tr2
       | (Some e, tr2) =>
           run_batches E F links (batch :: rest) v tr = (Some e, v1, tr2)
       end
  else run_batches E F links (batch :: rest) v tr = (None, v, tr).
Proof.
  destruct (is_running F tr) eqn:Hrun.
  2:{ cbn [run_batches]. rewrite Hrun. reflexivity. }
  pose proof (verify_batch_run_wire E (worker_callback F) batch v (announce batch tr)) as H1.
  pose proof (verify_batch_run_wire E (worker_callback F') batch v (announce batch tr)) as H2.
  destruct (verify_batch_run E batch (worker_callback F) v (announce batch tr))
    as [[[fin results] v1] tr1] eqn:Hb.
  destruct (verify_batch_run E batch (worker_callback F') v (announce batch tr))
    as [[[fin' results'] v1'] tr1'].
  rewrite H1 in H2. injection H2 as -> -> -> ->.
  split; [reflexivity|]. split; [reflexivity|].
  assert (Hstep : run_batches E F links (batch :: rest) v tr
                  = match report_all F links results' tr1 with
                    | (Some e, tr2) => (Some e, v1', tr2)
                    | (None, tr2) => run_batches E F links rest v1' tr2
                    end).
  { cbn [run_batches]. rewrite Hrun. cbn [negb]. unfold verify_batch.
    rewrite Hb. reflexivity. }
  destruct (report_all F links results' tr1) as [[e|] tr2] eqn:Hrep;
    [exact Hstep|].
  split; [exact Hstep|].
  apply (report_all_spec F links results' tr1 tr2 Hrep).
Qed.

Example stopped_after_first_batch :
  let E := Demo.service [Demo.page; Demo.stream [] None; Demo.stream [] None] in
  let links := Demo.links_of ["a"; "b"; "c"; "d"; "e"; "f"; "g"] in
  filter is_request (snd (run E (Demo.user (Some 7)) "key" links []))
  = [Get None;
     Post "/api/batch" (Some "tok") (batch_payload ["a"; "b"; "c"; "d"; "e"] Demo.ready)]
  /\ filter is_request (snd (run E (Demo.user None) "key" links []))
     = [Get None;
        Post "/api/batch" (Some "tok") (batch_payload ["a"; "b"; "c"; "d"; "e"] Demo.ready);
        Post "/api/batch" (Some "tok") (batch_payload ["f"; "g"] Demo.ready)]
  /\ last (snd (run E (Demo.user (Some 7)) "key" links [])) (Sleep 0) = Finished.
Proof. repeat split. Qed.

(** The loop stops at the check that follows the request to stop. *)
Lemma stop_between_batches_witness :
  let E := Demo.service [] in
  run_batches E (Demo.user (Some 0)) (Demo.links_of ["f"; "g"]) [["f"; "g"]]
    Demo.ready []
  = (None, Demo.ready, []).
Proof.
  intros E.
  exact (stop_between_batches E (Demo.user (Some 0)) (Demo.user None)
           (Demo.links_of ["f"; "g"]) ["f"; "g"] [] Demo.ready []).
Defined.

(** The scenario of the specification: seven identifiers, the first five
    succeed at once; of the last two one is pending with a check token and
    succeeds at the second poll, under the rotated token, the other fails. *)
Example end_to_end :
  let E := Demo.service
    [Demo.page;
     Demo.stream (map (fun i => Demo.data (Demo.text_of i "success" None))
                      ["a"; "b"; "c"; "d"; "e"]) None;
     Demo.stream [Demo.data (Demo.text_of "f" "pending" (Some "t1"));
                  Demo.data (Demo.text_of "g" "error" None)] None;
     Demo.status (Demo.record "f" "pending" (Some "t2"));
     Demo.status (Demo.record "f" "success" None)] in
  let job := run E (Demo.user None) "key"
               (Demo.links_of ["a"; "b"; "c"; "d"; "e"; "f"; "g"]) [] in
  fst job = None
  /\ filter is_request (snd job)
     = [Get None;
        Post "/api/batch" (Some "tok") (batch_payload ["a"; "b"; "c"; "d"; "e"] Demo.ready);
        Post "/api/batch" (Some "tok") (batch_payload ["f"; "g"] Demo.ready);
        Post "/api/check-status" (Some "tok") (JObj [("checkToken", JStr "t1")]);
        Post "/api/check-status" (Some "tok") (JObj [("checkToken", JStr "t2")])]
  /\ finals (snd job)
     = [(JStr "a", JStr "success"); (JStr "b", JStr "success");
        (JStr "c", JStr "success"); (JStr "d", JStr "success");
        (JStr "e", JStr "success"); (JStr "f", JStr "success");
        (JStr "g", JStr "error")]
  /\ last (snd job) (Sleep 0) = Finished.
Proof. repeat split. Qed.

(** * Further properties of the verifier *)

(** X1. Whatever the service sends and however the call ends, every entry of
    the map that [verify_batch] returns is terminal: the status the worker
    reads from it is 'success' or 'error', never 'pending'. *)
Theorem verify_batch_results_terminal (E : environment) (ids : list string)
    (cb : callback) (v : verifier) (tr : trace) (key res : json) :
  In (key, res) (fst (fst (verify_batch E ids cb v tr))) ->
  Py.eq_str (result_status res) "success" = true
  \/ Py.eq_str (result_status res) "error" = true.
Proof.
  unfold verify_batch.
  destruct (verify_batch_run E ids cb v tr) as [[[fin results] v'] tr'] eqn:Hrun.
  apply verify_batch_run_spec in Hrun. destruct Hrun as ((Hall & _) & _).
  cbn [fst]. intros Hin.
  unfold all_terminal in Hall. rewrite Forall_forall in Hall.
  specialize (Hall _ Hin). cbn [snd] in Hall. unfold terminal in Hall.
  apply orb_true_iff in Hall. exact Hall.
Qed.

(** A polled identifier: the entry is the final answer of the poll. *)
Lemma verify_batch_results_terminal_witness :
  let E := Demo.service
             [Demo.stream [Demo.data (Demo.text_of "f" "pending" (Some "t1"))] None;
              Demo.status (Demo.record "f" "success" None)] in
  Py.eq_str (result_status (Demo.record "f" "success" None)) "success" = true
  \/ Py.eq_str (result_status (Demo.record "f" "success" None)) "error" = true.
Proof.
  intros E.
  exact (verify_batch_results_terminal E ["f"] None Demo.ready []
           (JStr "f") (Demo.record "f" "success" None) (or_introl eq_refl)).
Defined.

Section Sync.

Variable E : environment.

Lemma get_csrf_token_sync (v : verifier) (tr : trace) ok v' tr' :
  _get_csrf_token E v tr = (ok, v', tr') ->
  in_sync v -> in_sync v'.
Proof.
  unfold _get_csrf_token, request. intros H Hv.
  destruct (server E (clock tr)) as [msg|r]; [injection H as <- <- <-; exact Hv|].
  destruct (is_http_error r); [injection H as <- <- <-; exact Hv|].
  destruct (search_csrf E (text r)); injection H as <- <- <-;
    [reflexivity | exact Hv].
Qed.

Lemma submit_sync (ids : list string) (cb : callback) (v : verifier) (tr : trace)
    fin results v' tr' :
  submit E ids cb v tr = (fin, results, v', tr') ->
  in_sync v -> in_sync v'.
Proof.
  unfold submit, request. intros H Hv.
  destruct (server E (clock tr)) as [msg|r]; [injection H as <- <- <- <-; exact Hv|].
  destruct (is_auth_failure r).
  - destruct (_get_csrf_token E v _) as [[ok v1] tr1] eqn:Hget.
    pose proof (get_csrf_token_sync _ _ _ _ _ Hget Hv) as Hv1.
    destruct ok; [|injection H as <- <- <- <-; exact Hv1].
    destruct (server E (clock tr1)) as [msg|r2];
      [injection H as <- <- <- <-; exact Hv1|].
    apply consume_spec in H. destruct H as [-> _]. exact Hv1.
  - apply consume_spec in H. destruct H as [-> _]. exact Hv.
Qed.

End Sync.

(** X2. A verifier keeps its two copies of the token equal: if
    [self.csrf_token] and the X-CSRF-Token header agree before a call of
    [verify_batch] or of [cancel_verification] (as they do in a new verifier),
    they agree after it, and the API key is never changed. *)
Theorem token_copies_in_sync (E : environment) (ids : list string) (cb : callback)
    (verification_id : string) (v : verifier) (tr : trace) :
  in_sync v ->
  in_sync (new_verifier (api_key v))
  /\ (let '(_, v', _) := verify_batch E ids cb v tr in
      in_sync v' /\ api_key v' = api_key v)
  /\ (let '(_, v', _) := cancel_verification E verification_id v tr in
      in_sync v' /\ api_key v' = api_key v).
Proof.
  intros Hv. split; [reflexivity|]. split.
  - unfold verify_batch.
    destruct (verify_batch_run E ids cb v tr) as [[[fin results] v'] tr'] eqn:Hrun.
    split; [|apply verify_batch_run_spec in Hrun; apply Hrun].
    unfold verify_batch_run in Hrun.
    destruct (no_token v); [|apply (submit_sync E _ _ _ _ _ _ _ _ Hrun Hv)].
    destruct (_get_csrf_token E v tr) as [[ok v1] tr1] eqn:Hget.
    pose proof (get_csrf_token_sync E _ _ _ _ _ Hget Hv) as Hv1.
    destruct ok; [apply (submit_sync E _ _ _ _ _ _ _ _ Hrun Hv1)|].
    injection Hrun as _ _ <- _. exact Hv1.
  - unfold cancel_verification.
    assert (Hreq : forall v0 t0,
      let '(_, v', _) := cancel_request E verification_id v0 t0 in v' = v0).
    { intros v0 t0. unfold cancel_request, request.
      destruct (server E (clock t0)) as [msg|r]; [reflexivity|].
      destruct (json_body r); reflexivity. }
    destruct (no_token v).
    + destruct (_get_csrf_token E v tr) as [[ok v1] tr1] eqn:Hget.
      pose proof (get_csrf_token_sync E _ _ _ _ _ Hget Hv) as Hv1.
      destruct (get_csrf_token_spec E _ _ _ _ _ Hget) as (_ & Hkey & _).
      destruct ok; [|split; assumption].
      specialize (Hreq v1 tr1).
      destruct (cancel_request E verification_id v1 tr1) as [[res v2] tr2].
      subst v2. split; assumption.
    + specialize (Hreq v tr).
      destruct (cancel_request E verification_id v tr) as [[res v2] tr2].
      subst v2. split; [exact Hv | reflexivity].
Qed.

(** A new verifier fetches its token: both copies hold it afterwards. *)
Lemma token_copies_in_sync_witness :
  let E := Demo.service [Demo.page; Demo.stream [] None] in
  let '(_, v', _) := verify_batch E ["a"] None (new_verifier "key") [] in
  in_sync v' /\ api_key v' = "key".
Proof.
  intros E.
  exact (proj1 (proj2 (token_copies_in_sync E ["a"] None "a" (new_verifier "key") []
                         eq_refl))).
Defined.

(** X3. A cached token is reused: when the verifier holds a token and the
    submission is not answered 401 or 403, the call of [verify_batch] fetches
    no token, submits the batch exactly once under the cached token, and
    leaves the verifier as it was. *)
Theorem cached_token_reused (E : environment) (ids : list string) (cb : callback)
    (v : verifier) (tr : trace) :
  no_token v = false ->
  challenged E (clock tr) = false ->
  let '(results, v', tr') := verify_batch E ids cb v tr in
  v' = v
  /\ exists evs,
       tr' = tr ++ evs
       /\ filter handshake evs
          = [Post "/api/batch" (header_token v) (batch_payload ids v)].
Proof.
  intros Htok Hch. unfold verify_batch.
  destruct (verify_batch_run E ids cb v tr) as [[[fin results] v'] tr'] eqn:Hrun.
  pose proof (verify_batch_run_spec E _ _ _ _ _ _ _ _ Hrun)
    as (_ & _ & evs & -> & Hev & _).
  unfold handshake_of, submissions in Hev. rewrite Htok in Hev.
  unfold verify_batch_run in Hrun. rewrite Htok in Hrun.
  unfold submit, request in Hrun. unfold challenged in Hch.
  split; [|exists evs; split; [reflexivity|]].
  - destruct (server E (clock tr)) as [msg|r];
      [injection Hrun as _ _ <- _; reflexivity|].
    rewrite Hch in Hrun. apply consume_spec in Hrun. apply Hrun.
  - rewrite Hev. destruct (server E (clock tr)) as [msg|r]; [reflexivity|].
    rewrite Hch. reflexivity.
Qed.

(** Two batches on one verifier: the token is fetched for the first only. *)
Lemma cached_token_reused_witness :
  let E := Demo.service [Demo.stream [Demo.data Demo.success_a] None] in
  let '(results, v', tr') := verify_batch E ["a"] None Demo.ready [] in
  v' = Demo.ready
  /\ exists evs,
       tr' = [] ++ evs
       /\ filter handshake evs
          = [Post "/api/batch" (Some "tok") (batch_payload ["a"] Demo.ready)].
Proof.
  intros E.
  exact (cached_token_reused E ["a"] None Demo.ready [] eq_refl eq_refl).
Defined.

(** X4. The progress callback does not steer the client: for any two
    callbacks (or none) a call of [verify_batch] ends the same way, returns
    the same map and the same verifier, and makes the same requests and
    pauses in the same order; only the progress signals differ. *)
Theorem callback_does_not_steer (E : environment) (cb1 cb2 : callback)
    (ids : list string) (v : verifier) (tr : trace) :
  let '(fin1, results1, v1, tr1) := verify_batch_run E ids cb1 v tr in
  let '(fin2, results2, v2, tr2) := verify_batch_run E ids cb2 v tr in
  fin1 = fin2 /\ results1 = results2 /\ v1 = v2 /\ wire tr1 = wire tr2.
Proof.
  pose proof (verify_batch_run_wire E cb1 ids v tr) as H1.
  pose proof (verify_batch_run_wire E cb2 ids v tr) as H2.
  destruct (verify_batch_run E ids cb1 v tr) as [[[fin1 results1] v1] tr1].
  destruct (verify_batch_run E ids cb2 v tr) as [[[fin2 results2] v2] tr2].
  rewrite H1 in H2. injection H2 as -> -> -> ->. auto.
Qed.

Section NoPoll.

Variable E : environment.

Lemma emitted_signals (cb : callback) (vid : json) (m : progress_msg) (tr : trace) :
  signals_only (emitted cb vid m tr).
Proof.
  destruct cb as [f|]; simpl; [|constructor].
  induction (f vid m tr) as [|[[a b] c] l IH]; simpl; constructor; auto.
Qed.

Lemma parse_stream_no_poll (lines : list (list byte)) :
  forall err results cb v tr o results' tr',
    (forall line d, In line lines -> record_on E line d ->
       Py.eq_str (Py.get "currentStep" d) "pending" && Py.has_key "checkToken" d
       = false) ->
    parse_stream E lines err results cb v tr = (o, results', tr') ->
    exists evs, tr' = tr ++ evs /\ signals_only evs.
Proof.
  induction lines as [|line lines IH]; intros err results cb v tr o results' tr' Hq H;
    cbn [parse_stream] in H.
  - injection H as _ _ <-. exists []. rewrite app_nil_r. split; constructor.
  - assert (Hline : exists evs1,
      snd (handle_line E line results cb v tr) = tr ++ evs1 /\ signals_only evs1).
    { unfold handle_line.
      destruct line as [|b line0]; [exists []; rewrite app_nil_r; split; constructor|].
      destruct (Text.decode (b :: line0)) as [s|] eqn:Hdec;
        [|exists []; rewrite app_nil_r; split; constructor].
      destruct (Text.startswith "data:" s) eqn:Hpre;
        [|exists []; rewrite app_nil_r; split; constructor].
      destruct (json_loads E (Text.strip (Text.drop 5 s))) as [data| |msg] eqn:Hjson;
        [|exists []; rewrite app_nil_r; split; constructor..].
      destruct data as [| | | | |d];
        try (exists []; rewrite app_nil_r; split; constructor).
      cbn [_handle_api_response].
      destruct (negb (Py.truthy (Py.get "verificationId" d)));
        [exists []; rewrite app_nil_r; split; constructor|].
      rewrite (Hq (b :: line0) d (or_introl eq_refl)) by (exists s; auto).
      rewrite call_app. unfold store.
      destruct (is_final (Py.get "currentStep" d));
        [destruct (Py.hashable (Py.get "verificationId" d))|];
        (eexists; split; [reflexivity | apply emitted_signals]). }
    destruct Hline as (evs1 & Htr1 & Hs1).
    destruct (handle_line E line results cb v tr) as [[o1 results1] tr1].
    cbn [snd] in Htr1. subst tr1.
    destruct o1 as [e|].
    + injection H as _ _ <-. exists evs1. auto.
    + apply IH in H.
      * destruct H as (evs & -> & Hs). exists (evs1 ++ evs).
        rewrite app_assoc. split; [reflexivity|]. apply Forall_app. auto.
      * intros line0 d Hin. apply Hq. right. exact Hin.
Qed.

Lemma signals_wire (evs : list event) : signals_only evs -> wire evs = [].
Proof.
  induction 1 as [|e evs He _ IH]; [reflexivity|].
  unfold wire. cbn [filter]. rewrite He. exact IH.
Qed.

Lemma consume_no_poll (ids : list string) (r : response) (cb : callback)
    (v : verifier) (tr : trace) (c : nat) fin results v' tr' :
  never_deferred E ->
  server E c = Responds r ->
  consume E ids r cb v tr = (fin, results, v', tr') ->
  wire tr' = wire tr.
Proof.
  intros Hq Hc H. unfold consume in H.
  destruct (parse_stream E (stream_lines r) (stream_error r) [] cb v tr)
    as [[o results0] tr0] eqn:Hp.
  apply parse_stream_no_poll in Hp.
  - destruct Hp as (evs & -> & Hs).
    assert (Hw : wire (tr ++ evs) = wire tr)
      by (rewrite (wire_app tr evs), (signals_wire evs Hs); apply app_nil_r).
    destruct o; injection H as _ _ _ <-; exact Hw.
  - intros line d Hin. apply (Hq c r line d Hc Hin).
Qed.

Lemma submit_no_poll (ids : list string) (cb : callback) (v : verifier) (tr : trace)
    fin results v' tr' :
  never_deferred E ->
  submit E ids cb v tr = (fin, results, v', tr') ->
  wire tr' = wire tr ++ submissions E ids v tr.
Proof.
  intros Hq H. unfold submit, request in H. unfold submissions.
  set (p := Post "/api/batch" (header_token v) (batch_payload ids v)) in *.
  destruct (server E (clock tr)) as [msg|r] eqn:Hrep.
  - injection H as _ _ _ <-. rewrite wire_app. reflexivity.
  - destruct (is_auth_failure r).
    + destruct (_get_csrf_token E v (tr ++ [p])) as [[ok v1] tr1] eqn:Hget.
      destruct (get_csrf_token_spec E _ _ _ _ _ Hget) as (-> & _ & _).
      destruct ok.
      * set (p2 := Post "/api/batch" (csrf_token v1) (batch_payload ids v)) in *.
        destruct (server E (clock ((tr ++ [p]) ++ [Get (header_token v)])))
          as [msg|r2] eqn:Hrep2.
        -- injection H as _ _ _ <-. rewrite !wire_app. rewrite <- !app_assoc.
           reflexivity.
        -- apply (consume_no_poll _ _ _ _ _ _ _ _ _ _ Hq Hrep2) in H.
           rewrite H, !wire_app. rewrite <- !app_assoc. reflexivity.
      * injection H as _ _ _ <-. rewrite !wire_app. rewrite <- !app_assoc.
        reflexivity.
    + apply (consume_no_poll _ _ _ _ _ _ _ _ _ _ Hq Hrep) in H.
      rewrite H, wire_app. reflexivity.
Qed.

End NoPoll.

(** X5. When no record of the service is 'pending' with a check token (each
    identifier is answered at once, or not at all), a call of [verify_batch]
    makes no status request and no pause: apart from progress signals its
    whole activity is the token fetches and submissions of the handshake. *)
Theorem no_poll_without_check_token (E : environment) (ids : list string)
    (cb : callback) (v : verifier) (tr : trace) :
  never_deferred E ->
  let '(results, v', tr') := verify_batch E ids cb v tr in
  wire tr' = wire tr ++ handshake_of E ids v tr.
Proof.
  intros Hq. unfold verify_batch.
  destruct (verify_batch_run E ids cb v tr) as [[[fin results] v'] tr'] eqn:Hrun.
  unfold verify_batch_run in Hrun. unfold handshake_of.
  destruct (no_token v); [|apply (submit_no_poll E _ _ _ _ _ _ _ _ Hq Hrun)].
  destruct (_get_csrf_token E v tr) as [[ok v1] tr1] eqn:Hget.
  destruct (get_csrf_token_spec E _ _ _ _ _ Hget) as (-> & _ & _).
  destruct ok.
  - rewrite (submit_no_poll E _ _ _ _ _ _ _ _ Hq Hrun), wire_app.
    rewrite <- app_assoc. reflexivity.
  - injection Hrun as _ _ _ <-. rewrite wire_app. reflexivity.
Qed.

(** Five identifiers answered 'success' at once: one fetch, one submission. *)
Lemma no_poll_without_check_token_witness :
  let E := Demo.service
             [Demo.page;
              Demo.stream (map (fun i => Demo.data (Demo.text_of i "success" None))
                               ["a"; "b"; "c"; "d"; "e"]) None] in
  never_deferred E
  /\ wire (snd (verify_batch E ["a"; "b"; "c"; "d"; "e"] None (new_verifier "key") []))
     = [Get None;
        Post "/api/batch" (Some "tok")
          (batch_payload ["a"; "b"; "c"; "d"; "e"] Demo.ready)].
Proof.
  intros E.
  assert (H : never_deferred E).
  { intros c r line d Hc Hin (s & Hdec & Hpre & Hjson).
    destruct c as [|[|c]]; try (destruct c; discriminate Hc); injection Hc as <-.
    - destruct Hin.
    - repeat (destruct Hin as [<-|Hin];
        [vm_compute in Hdec; injection Hdec as <-;
         vm_compute in Hjson; injection Hjson as <-; reflexivity|]).
      destruct Hin. }
  split; [exact H|].
  exact (no_poll_without_check_token E ["a"; "b"; "c"; "d"; "e"] None
           (new_verifier "key") [] H).
Defined.

(** ** The poller, answer by answer *)

Section PollerSteps.

Variable E : environment.

Lemma poll_requests_S (v : verifier) (c k : nat) (ct : json) :
  poll_requests E v c (S k) ct
  = poll_request v ct :: poll_requests E v (S c) k (next_token E c ct).
Proof.
  unfold poll_requests. cbn [seq map token_after]. f_equal.
  rewrite <- seq_shift, map_map. reflexivity.
Qed.

Lemma poll_requests_snoc (v : verifier) (c k : nat) (ct : json) :
  poll_requests E v c (S k) ct
  = poll_requests E v c k ct ++ [poll_request v (token_after E c k ct)].
Proof.
  unfold poll_requests. rewrite seq_S, map_app. reflexivity.
Qed.

(** [k] answers that are not final: the loop has made [k] requests and goes
    on with the latest token. *)
Lemma poll_loop_prefix (k : nat) :
  forall n i ct vid cb v tr,
    (forall j, j < k -> still_pending E (clock tr + j)) ->
    exists evs,
      poll_loop E (k + n) i ct vid cb v tr
      = poll_loop E n (i + k) (token_after E (clock tr) k ct) vid cb v (tr ++ evs)
      /\ clock evs = k
      /\ filter is_poll evs = poll_requests E v (clock tr) k ct.
Proof.
  induction k as [|k IH]; intros n i ct vid cb v tr Hp.
  - exists []. rewrite app_nil_r, Nat.add_0_r. repeat split.
  - destruct (Hp 0 ltac:(lia)) as (r & d & Hr & Hd & Hf).
    rewrite Nat.add_0_r in Hr.
    cbn [Nat.add poll_loop]. unfold request.
    assert (Hclock : clock (tr ++ [Sleep 2]) = clock tr)
      by (rewrite clock_app; change (clock [Sleep 2]) with 0; lia).
    rewrite Hclock, Hr, Hd, Hf, call_app.
    set (post := Post "/api/check-status" (header_token v) (JObj [("checkToken", ct)])).
    set (sigs := emitted cb vid _ _).
    set (tr1 := ((tr ++ [Sleep 2]) ++ [post]) ++ sigs).
    assert (Hc1 : clock tr1 = S (clock tr)).
    { unfold tr1. rewrite !clock_app. unfold sigs. rewrite emitted_clock.
      change (clock [Sleep 2]) with 0. change (clock [post]) with 1. lia. }
    assert (Hnext : (if Py.has_key "checkToken" d then Py.get "checkToken" d else ct)
                    = next_token E (clock tr) ct).
    { unfold next_token. rewrite Hr, Hd. reflexivity. }
    rewrite Hnext.
    destruct (IH n (S i) (next_token E (clock tr) ct) vid cb v tr1) as (evs & Heq & Hck & Hpolls).
    { intros j Hj. rewrite Hc1. replace (S (clock tr) + j) with (clock tr + S j) by lia.
      apply Hp. lia. }
    exists (([Sleep 2] ++ [post]) ++ sigs ++ evs).
    split; [|split].
    + rewrite Heq, Hc1. cbn [token_after].
      replace (S i + k) with (i + S k) by lia.
      f_equal. unfold tr1. rewrite <- !app_assoc. reflexivity.
    + rewrite !clock_app, Hck. unfold sigs. rewrite emitted_clock.
      change (clock [Sleep 2]) with 0. change (clock [post]) with 1. lia.
    + rewrite !filter_app, Hpolls, Hc1, poll_requests_S.
      replace (filter is_poll sigs) with (@nil event).
      * reflexivity.
      * symmetry. pose proof (emitted_poll_events cb vid
          (Polling (Py.get "currentStep" d) (i + 1)
             (Py.get_default "message" (JStr EmptyString) d))
          ((tr ++ [Sleep 2]) ++ [post])) as Hs.
        pose proof (poll_events_clock _ Hs) as Hlen.
        rewrite emitted_clock in Hlen. fold sigs in Hlen.
        destruct (filter is_poll sigs); [reflexivity | discriminate].
Qed.

End PollerSteps.

(** X6. The poll ends at the first final answer: when the first [k]
    answers (k < 60) are records that are not final and the next one is a
    record whose step is 'success' or 'error', [_poll_status] returns that
    record as it is after exactly k+1 status requests. The first request
    carries the check token of the stream record, and each later one the
    token of the latest answer that had one. *)
Theorem poll_returns_first_final (E : environment) (check_token vid : json)
    (cb : callback) (v : verifier) (tr : trace) (k : nat) (r : response)
    (d : list (string * json)) :
  k < 60 ->
  (forall j, j < k -> still_pending E (clock tr + j)) ->
  server E (clock tr + k) = Responds r ->
  json_body r = inr (JObj d) ->
  is_final (Py.get "currentStep" d) = true ->
  let '(res, tr') := _poll_status E check_token vid cb v tr in
  res = JObj d
  /\ exists evs,
       tr' = tr ++ evs
       /\ filter is_poll evs = poll_requests E v (clock tr) (S k) check_token.
Proof.
  intros Hk Hp Hr Hd Hf. unfold _poll_status.
  destruct (poll_loop_prefix E k (60 - k) 0 check_token vid cb v tr Hp)
    as (evs & Heq & Hck & Hpolls).
  replace (k + (60 - k)) with 60 in Heq by lia. rewrite Heq.
  destruct (60 - k) as [|n] eqn:Hn; [lia|].
  cbn [poll_loop]. unfold request.
  assert (Hclock : clock ((tr ++ evs) ++ [Sleep 2]) = clock tr + k)
    by (rewrite !clock_app, Hck; change (clock [Sleep 2]) with 0; lia).
  rewrite Hclock, Hr, Hd, Hf, call_app.
  split; [reflexivity|].
  eexists. split; [rewrite <- !app_assoc; reflexivity|].
  rewrite !filter_app, Hpolls, poll_requests_snoc.
  replace (filter is_poll (emitted cb vid _ _)) with (@nil event).
  - rewrite app_nil_r. reflexivity.
  - symmetry.
    match goal with |- filter is_poll ?s = [] =>
      pose proof (poll_events_clock s (emitted_poll_events _ _ _ _)) as Hlen;
      rewrite emitted_clock in Hlen;
      destruct (filter is_poll s); [reflexivity | discriminate]
    end.
Qed.

(** The second answer is final; the second request carries the new token. *)
Lemma poll_returns_first_final_witness :
  let E := Demo.service
             [Demo.status (Demo.record "f" "pending" (Some "t2"));
              Demo.status (Demo.record "f" "success" None)] in
  let '(res, tr') := _poll_status E (JStr "t1") (JStr "f") None Demo.ready [] in
  res = Demo.record "f" "success" None
  /\ exists evs,
       tr' = [] ++ evs
       /\ filter is_poll evs
          = [poll_request Demo.ready (JStr "t1"); poll_request Demo.ready (JStr "t2")].
Proof.
  intros E.
  refine (poll_returns_first_final E (JStr "t1") (JStr "f") None Demo.ready [] 1
            _ _ _ _ eq_refl eq_refl eq_refl).
  - lia.
  - intros j Hj. destruct j as [|j]; [|lia].
    eexists. eexists. split; [reflexivity|]. split; reflexivity.
Defined.

(** X7. A failure ends the poll at once: when the first [k] answers
    (k < 60) are records that are not final and the next status request
    fails, or its body is not JSON, or the JSON value is not an object,
    [_poll_status] makes no further request and returns the error result
    whose message is 'Polling exception: ' followed by the text of the
    exception. *)
Theorem poll_stops_at_failure (E : environment) (check_token vid : json)
    (cb : callback) (v : verifier) (tr : trace) (k : nat) (e : exn) :
  k < 60 ->
  (forall j, j < k -> still_pending E (clock tr + j)) ->
  poll_failure (server E (clock tr + k)) = Some e ->
  let '(res, tr') := _poll_status E check_token vid cb v tr in
  res = err_result (String.append "Polling exception: " (str_exn E e))
  /\ exists evs,
       tr' = tr ++ evs
       /\ filter is_poll evs = poll_requests E v (clock tr) (S k) check_token.
Proof.
  intros Hk Hp Hfail. unfold _poll_status.
  destruct (poll_loop_prefix E k (60 - k) 0 check_token vid cb v tr Hp)
    as (evs & Heq & Hck & Hpolls).
  replace (k + (60 - k)) with 60 in Heq by lia. rewrite Heq.
  destruct (60 - k) as [|n] eqn:Hn; [lia|].
  cbn [poll_loop]. unfold request.
  assert (Hclock : clock ((tr ++ evs) ++ [Sleep 2]) = clock tr + k)
    by (rewrite !clock_app, Hck; change (clock [Sleep 2]) with 0; lia).
  rewrite Hclock.
  assert (Hpolls' : filter is_poll
            ((evs ++ [Sleep 2])
             ++ [Post "/api/check-status" (header_token v)
                   (JObj [("checkToken", token_after E (clock tr) k check_token)])])
          = poll_requests E v (clock tr) (S k) check_token).
  { rewrite !filter_app, Hpolls, poll_requests_snoc. rewrite app_nil_r. reflexivity. }
  unfold poll_failure in Hfail.
  destruct (server E (clock tr + k)) as [msg|r].
  - injection Hfail as <-. split; [reflexivity|].
    eexists. split; [rewrite <- !app_assoc; reflexivity|].
    rewrite app_assoc. exact Hpolls'.
  - destruct (json_body r) as [msg|j].
    + injection Hfail as <-. split; [reflexivity|].
      eexists. split; [rewrite <- !app_assoc; reflexivity|].
      rewrite app_assoc. exact Hpolls'.
    + destruct j; try discriminate; injection Hfail as <-;
        (split; [reflexivity|];
         eexists; split; [rewrite <- !app_assoc; reflexivity|];
         rewrite app_assoc; exact Hpolls').
Qed.

(** The first status request times out. *)
Lemma poll_stops_at_failure_witness :
  let E := Demo.service [Raises "Read timed out."] in
  let '(res, tr') := _poll_status E (JStr "t1") (JStr "f") None Demo.ready [] in
  res = err_result "Polling exception: Read timed out."
  /\ exists evs,
       tr' = [] ++ evs
       /\ filter is_poll evs = [poll_request Demo.ready (JStr "t1")].
Proof.
  intros E.
  refine (poll_stops_at_failure E (JStr "t1") (JStr "f") None Demo.ready [] 0
            (Raised "Read timed out.") _ _ eq_refl).
  - lia.
  - intros j Hj. lia.
Defined.

(** * Further properties of the worker *)

Section Job.

Variable E : environment.
Variable F : frontend.

Lemma batch_payload_key (ids : list string) (v : verifier) :
  batch_payload ids v = batch_payload ids (new_verifier (api_key v)).
Proof. reflexivity. Qed.

Lemma submissions_shape (ids : list string) (v : verifier) (tr : trace) :
  List.length (filter is_submit (submissions E ids v tr)) <= 2
  /\ List.length (filter is_get (submissions E ids v tr)) <= 1
  /\ forall path tok body,
       In (Post path tok body) (submissions E ids v tr) ->
       path = "/api/batch" /\ body = batch_payload ids (new_verifier (api_key v)).
Proof.
  unfold submissions.
  set (p := Post "/api/batch" (header_token v) (batch_payload ids v)).
  assert (Hp : forall t path tok body,
    Post path tok body = Post "/api/batch" t (batch_payload ids v) ->
    path = "/api/batch" /\ body = batch_payload ids (new_verifier (api_key v))).
  { intros t path tok body [= -> _ ->]. split; [reflexivity | apply batch_payload_key]. }
  destruct (server E (clock tr)) as [msg|r].
  - cbn. split; [lia|]. split; [lia|].
    intros path tok body [H|[]]. symmetry in H. apply (Hp _ _ _ _ H).
  - destruct (is_auth_failure r).
    + destruct (_get_csrf_token E v (tr ++ [p])) as [[[|] v1] tr1]; cbn;
        (split; [lia|]; split; [lia|]);
        intros path tok body Hin;
        repeat (destruct Hin as [Hx|Hin];
                [try discriminate Hx; symmetry in Hx; apply (Hp _ _ _ _ Hx)|]);
        destruct Hin.
    + cbn. split; [lia|]. split; [lia|].
      intros path tok body [H|[]]. symmetry in H. apply (Hp _ _ _ _ H).
Qed.

Lemma handshake_of_shape (ids : list string) (v : verifier) (tr : trace) :
  handshake_shape ids (api_key v) (handshake_of E ids v tr).
Proof.
  unfold handshake_of, handshake_shape.
  destruct (no_token v); [|].
  - destruct (_get_csrf_token E v tr) as [[[|] v1] tr1] eqn:Hget.
    + destruct (get_csrf_token_spec E _ _ _ _ _ Hget) as (_ & Hkey & _).
      destruct (submissions_shape ids v1 tr1) as (Hs & Hg & Hb).
      cbn [filter is_submit is_get List.length]. rewrite <- Hkey.
      split; [exact Hs|]. split; [lia|].
      intros path tok body [H|Hin]; [discriminate H | apply (Hb _ _ _ Hin)].
    + cbn. split; [lia|]. split; [lia|].
      intros path tok body [H|[]]. discriminate H.
  - destruct (submissions_shape ids v tr) as (Hs & Hg & Hb).
    split; [exact Hs|]. split; [lia | exact Hb].
Qed.

Lemma filter_sub {A : Type} (f g : A -> bool) (l : list A) :
  (forall x, f x = true -> g x = true) ->
  filter f (filter g l) = filter f l.
Proof.
  intros Hfg. induction l as [|x l IH]; [reflexivity|].
  cbn [filter]. destruct (g x) eqn:Hg.
  - cbn [filter]. rewrite IH. reflexivity.
  - rewrite IH. destruct (f x) eqn:Hf; [|reflexivity].
    rewrite (Hfg x Hf) in Hg. discriminate.
Qed.

(** The events of one call of [verify_batch] have the shape of a handshake,
    apart from polls and signals. *)
Lemma verify_batch_shape (ids : list string) (cb : callback) (v : verifier)
    (tr : trace) results v' tr' :
  verify_batch E ids cb v tr = (results, v', tr') ->
  all_terminal results
  /\ api_key v' = api_key v
  /\ exists evs,
       tr' = tr ++ evs
       /\ List.length (filter is_submit evs) <= 2
       /\ List.length (filter is_get evs) <= 2
       /\ forall tok body, In (Post "/api/batch" tok body) evs ->
            body = batch_payload ids (new_verifier (api_key v)).
Proof.
  unfold verify_batch. intros H.
  destruct (verify_batch_run E ids cb v tr) as [[[fin results0] v0] tr0] eqn:Hrun.
  injection H as <- <- <-.
  pose proof (verify_batch_run_spec E _ _ _ _ _ _ _ _ Hrun)
    as ((Hall & _) & Hkey & evs & -> & Hev & _).
  split; [exact Hall|]. split; [exact Hkey|].
  exists evs. split; [reflexivity|].
  destruct (handshake_of_shape ids v tr) as (Hs & Hg & Hb). rewrite <- Hev in *.
  rewrite (filter_sub is_submit handshake evs) in Hs
    by (intros x Hx; unfold handshake; rewrite Hx; reflexivity).
  rewrite (filter_sub is_get handshake evs) in Hg
    by (intros x Hx; unfold handshake; rewrite Hx; apply orb_true_r).
  split; [exact Hs|]. split; [exact Hg|].
  intros tok body Hin. apply (Hb "/api/batch" tok body).
  apply filter_In. split; [exact Hin | reflexivity].
Qed.

(** Reporting makes no request, whether it ends well or not. *)
Lemma report_all_events (links : list link) (results : Py.dict) :
  forall tr o tr',
    report_all F links results tr = (o, tr') ->
    exists evs, tr' = tr ++ evs /\ filter is_request evs = [].
Proof.
  induction results as [|[k r] results IH]; intros tr o tr' H; cbn [report_all] in H.
  - injection H as <- <-. exists []. rewrite app_nil_r. auto.
  - assert (Hone : exists evs1,
      snd (report F links (k, r) tr) = tr ++ evs1 /\ filter is_request evs1 = []).
    { unfold report. destruct r as [| | | | |d];
        try (exists []; rewrite app_nil_r; auto; fail).
      destruct (Py.eq_str _ "success");
        [|eexists; split; [reflexivity | reflexivity]].
      destruct (find _ links) as [item|];
        [|eexists; split; [reflexivity | reflexivity]].
      destruct (move_to_verified F (line item)) as [e|].
      - destruct (iadd_str _ _); cbn [snd]; unfold emit.
        + rewrite <- app_assoc. eexists. split; [reflexivity | reflexivity].
        + eexists. split; [reflexivity | reflexivity].
      - cbn [snd]. unfold emit. rewrite <- app_assoc.
        eexists. split; [reflexivity | reflexivity]. }
    destruct Hone as (evs1 & Htr1 & Hq1).
    destruct (report F links (k, r) tr) as [[e|] tr1]; cbn [snd] in Htr1; subst tr1.
    + injection H as <- <-. exists evs1. auto.
    + apply IH in H. destruct H as (evs & -> & Hq).
      exists (evs1 ++ evs). rewrite app_assoc. split; [reflexivity|].
      rewrite filter_app, Hq1, Hq. reflexivity.
Qed.

Lemma run_batches_bound (links : list link) (bs : list (list string)) :
  forall v tr o v' tr',
    run_batches E F links bs v tr = (o, v', tr') ->
    exists evs,
      tr' = tr ++ evs
      /\ List.length (filter is_submit evs) <= 2 * List.length bs
      /\ List.length (filter is_get evs) <= 2 * List.length bs
      /\ forall tok body, In (Post "/api/batch" tok body) evs ->
           exists b, In b bs /\ body = batch_payload b (new_verifier (api_key v)).
Proof.
  induction bs as [|batch bs IH]; intros v tr o v' tr' H; cbn [run_batches] in H.
  - injection H as _ _ <-. exists []. rewrite app_nil_r.
    split; [reflexivity|]. split; [simpl; lia|]. split; [simpl; lia|].
    intros ? ? [].
  - destruct (negb (is_running F tr)).
    { injection H as _ _ <-. exists []. rewrite app_nil_r.
      split; [reflexivity|]. split; [simpl; lia|]. split; [simpl; lia|].
    intros ? ? []. }
    destruct (verify_batch E batch (worker_callback F) v (announce batch tr))
      as [[results v1] tr1] eqn:Hb.
    apply verify_batch_shape in Hb.
    destruct Hb as (_ & Hkey & evs1 & -> & Hs1 & Hg1 & Hp1).
    destruct (report_all F links results (announce batch tr ++ evs1))
      as [oe tr2] eqn:Hrep.
    apply report_all_events in Hrep. destruct Hrep as (evs2 & -> & Hq2).
    assert (Hpre : forall evs3,
      List.length (filter is_submit evs3) <= 2 * List.length bs ->
      List.length (filter is_get evs3) <= 2 * List.length bs ->
      (forall tok body, In (Post "/api/batch" tok body) evs3 ->
         exists b, In b bs /\ body = batch_payload b (new_verifier (api_key v))) ->
      exists evs,
        ((announce batch tr ++ evs1) ++ evs2) ++ evs3 = tr ++ evs
        /\ List.length (filter is_submit evs) <= 2 * List.length (batch :: bs)
        /\ List.length (filter is_get evs) <= 2 * List.length (batch :: bs)
        /\ forall tok body, In (Post "/api/batch" tok body) evs ->
             exists b, In b (batch :: bs)
                       /\ body = batch_payload b (new_verifier (api_key v))).
    { intros evs3 Hs3 Hg3 Hp3.
      exists (processing batch ++ evs1 ++ evs2 ++ evs3).
      split; [rewrite announce_app, <- !app_assoc; reflexivity|].
      assert (Hn : forall evs0, filter is_request evs0 = [] ->
                filter is_submit evs0 = [] /\ filter is_get evs0 = []
                /\ forall p t b, ~ In (Post p t b) evs0).
      { intros evs0 H0. split; [apply no_request_no_submit; exact H0|]. split.
        - clear -H0. induction evs0 as [|e evs0 IH0]; [reflexivity|].
          destruct e; cbn in *; try discriminate; auto.
        - intros p t b Hin.
          assert (Hin' : In (Post p t b) (filter is_request evs0))
            by (apply filter_In; split; [exact Hin | reflexivity]).
          rewrite H0 in Hin'. destruct Hin'. }
      destruct (Hn _ (processing_no_request batch)) as (Ha1 & Ha2 & Ha3).
      destruct (Hn _ Hq2) as (Hb1 & Hb2 & Hb3).
      rewrite !filter_app, Ha1, Ha2, Hb1, Hb2, !length_app.
      cbn [List.length]. split; [lia|]. split; [lia|].
      intros tok body Hin.
      apply in_app_or in Hin. destruct Hin as [Hin|Hin]; [destruct (Ha3 _ _ _ Hin)|].
      apply in_app_or in Hin. destruct Hin as [Hin|Hin].
      - exists batch. split; [left; reflexivity | apply (Hp1 _ _ Hin)].
      - apply in_app_or in Hin. destruct Hin as [Hin|Hin]; [destruct (Hb3 _ _ _ Hin)|].
        destruct (Hp3 _ _ Hin) as (b & Hb & ->). exists b. split; [right; exact Hb | reflexivity]. }
    destruct oe as [e|].
    + injection H as _ _ <-.
      destruct (Hpre [] ltac:(simpl; lia) ltac:(simpl; lia) ltac:(intros ? ? []))
        as (evs & Heq & Hrest).
      rewrite app_nil_r in Heq. exists evs. split; [exact Heq | exact Hrest].
    + apply IH in H. destruct H as (evs3 & -> & Hs3 & Hg3 & Hp3).
      rewrite Hkey in Hp3. apply (Hpre evs3 Hs3 Hg3 Hp3).
Qed.

Lemma batches_small (tasks : list string) (b : list string) :
  In b (batches tasks) -> List.length b <= 5 /\ incl b tasks.
Proof.
  unfold batches. intros Hb. apply in_map_iff in Hb.
  destruct Hb as (i & <- & _). unfold Py.slice. split.
  - rewrite length_firstn. lia.
  - intros x Hx.
    rewrite <- (firstn_skipn i tasks). apply in_or_app. right.
    rewrite <- (firstn_skipn (i + 5 - i) (skipn i tasks)). apply in_or_app. left.
    exact Hx.
Qed.

End Job.

(** X8. A job over N selected rows submits at most twice per batch, that is
    at most 2 * ceil(N/5) times, and fetches the token page as often at most,
    whatever the service answers. Every submission carries the API key of the
    job and one of the batches: at most five identifiers, all of them
    selected. *)
Theorem job_submissions_bounded (E : environment) (F : frontend) (key : string)
    (links : list link) (tr : trace) :
  let '(o, tr') := run E F key links tr in
  exists evs,
    tr' = tr ++ evs
    /\ List.length (filter is_submit evs) <= 2 * ((List.length links + 4) / 5)
    /\ List.length (filter is_get evs) <= 2 * ((List.length links + 4) / 5)
    /\ forall tok body,
         In (Post "/api/batch" tok body) evs ->
         exists b,
           body = batch_payload b (new_verifier key)
           /\ List.length b <= 5
           /\ incl b (map vid links).
Proof.
  unfold run.
  destruct (run_batches E F links (batches (map vid links)) (new_verifier key) tr)
    as [[o v'] tr'] eqn:Hrun.
  apply run_batches_bound in Hrun.
  destruct Hrun as (evs & -> & Hs & Hg & Hp).
  assert (Hlen : List.length (batches (map vid links)) = (List.length links + 4) / 5).
  { unfold batches, Py.range.
    rewrite length_map, range_from_length by lia. rewrite length_map. f_equal. lia. }
  rewrite Hlen in Hs, Hg.
  assert (Hmain : forall extra,
    filter is_request extra = [] ->
    exists evs0,
      (tr ++ evs) ++ extra = tr ++ evs0
      /\ List.length (filter is_submit evs0) <= 2 * ((List.length links + 4) / 5)
      /\ List.length (filter is_get evs0) <= 2 * ((List.length links + 4) / 5)
      /\ forall tok body,
           In (Post "/api/batch" tok body) evs0 ->
           exists b,
             body = batch_payload b (new_verifier key)
             /\ List.length b <= 5
             /\ incl b (map vid links)).
  { intros extra Hx. exists (evs ++ extra).
    split; [symmetry; apply app_assoc|].
    assert (Hx1 : filter is_submit extra = []) by (apply no_request_no_submit; exact Hx).
    assert (Hx2 : filter is_get extra = []).
    { clear -Hx. induction extra as [|e extra IH]; [reflexivity|].
      destruct e; cbn in *; try discriminate; auto. }
    rewrite !filter_app, Hx1, Hx2, !app_nil_r.
    split; [exact Hs|]. split; [exact Hg|].
    intros tok body Hin. apply in_app_or in Hin. destruct Hin as [Hin|Hin].
    - destruct (Hp tok body Hin) as (b & Hb & ->).
      destruct (batches_small _ _ Hb) as [H5 Hincl].
      exists b. auto.
    - exfalso.
      assert (Hin' : In (Post "/api/batch" tok body) (filter is_request extra))
        by (apply filter_In; split; [exact Hin | reflexivity]).
      rewrite Hx in Hin'. destruct Hin'. }
  destruct o as [e|].
  - destruct (Hmain [] eq_refl) as (evs0 & Heq & Hrest).
    rewrite app_nil_r in Heq. exists evs0. split; [exact Heq | exact Hrest].
  - apply (Hmain [Finished] eq_refl).
Qed.

Section Survival.

Variable F : frontend.

Lemma terminal_is_object (res : json) :
  terminal res = true -> exists d, res = JObj d.
Proof.
  destruct res; try discriminate. intros _. eexists. reflexivity.
Qed.

Lemma report_all_safe (links : list link) (results : Py.dict) :
  (forall l, move_to_verified F l = None) ->
  all_terminal results ->
  forall tr, exists tr', report_all F links results tr = (None, tr').
Proof.
  intros Hstore Hall. induction Hall as [|[k r] results Hr _ IH]; intros tr.
  - eexists. reflexivity.
  - cbn [report_all]. cbn [snd] in Hr.
    destruct (terminal_is_object r Hr) as [d ->].
    assert (Hone : exists tr1, report F links (k, JObj d) tr = (None, tr1)).
    { unfold report. destruct (Py.eq_str _ "success"); [|eexists; reflexivity].
      destruct (find _ links) as [item|]; [|eexists; reflexivity].
      rewrite Hstore. eexists. reflexivity. }
    destruct Hone as [tr1 ->]. apply IH.
Qed.

End Survival.

(** X9. When the record store never raises, the worker thread cannot die:
    whatever the selection, the replies of the service and the moment of a
    stop, [run] reaches its end and its last act is to emit the finished
    signal. *)
Theorem worker_reaches_finished (E : environment) (F : frontend) (key : string)
    (links : list link) (tr : trace) :
  (forall l, move_to_verified F l = None) ->
  exists evs, run E F key links tr = (None, tr ++ evs ++ [Finished]).
Proof.
  intros Hstore. unfold run.
  assert (Hloop : forall bs v t,
    exists v' evs, run_batches E F links bs v t = (None, v', t ++ evs)).
  { induction bs as [|batch bs IH]; intros v t; cbn [run_batches].
    - exists v, []. rewrite app_nil_r. reflexivity.
    - destruct (negb (is_running F t)).
      + exists v, []. rewrite app_nil_r. reflexivity.
      + destruct (verify_batch E batch (worker_callback F) v (announce batch t))
          as [[results v1] tr1] eqn:Hb.
        apply verify_batch_shape in Hb.
        destruct Hb as (Hall & _ & evs1 & -> & _).
        destruct (report_all_safe F links results Hstore Hall (announce batch t ++ evs1))
          as [tr2 Hrep].
        rewrite Hrep.
        apply report_all_events in Hrep. destruct Hrep as (evs2 & -> & _).
        destruct (IH v1 ((announce batch t ++ evs1) ++ evs2)) as (v' & evs3 & ->).
        exists v', (processing batch ++ evs1 ++ evs2 ++ evs3).
        rewrite announce_app, <- !app_assoc. reflexivity. }
  destruct (Hloop (batches (map vid links)) (new_verifier key) tr) as (v' & evs & ->).
  exists evs. rewrite <- app_assoc. reflexivity.
Qed.

(** A job of two rows against a service that is down. *)
Lemma worker_reaches_finished_witness :
  exists evs,
    run (Demo.service []) (Demo.user None) "key" (Demo.links_of ["a"; "b"]) []
    = (None, [] ++ evs ++ [Finished]).
Proof.
  exact (worker_reaches_finished (Demo.service []) (Demo.user None) "key"
           (Demo.links_of ["a"; "b"]) [] (fun _ => eq_refl)).
Defined.

(** The other side: the record store raises for a 'success' result whose
    message is a number; [msg += ...] raises [TypeError], the thread dies, the
    result is not reported and the finished signal is not emitted. *)
Example worker_dies_on_bad_message :
  let E := Demo.service
             [Demo.stream [] None;
              Demo.status (JObj [("currentStep", JStr "success"); ("message", JNum 7)])] in
  let F := {| move_to_verified := fun _ => Some "disk full"; stop_after := None |} in
  let res := JObj [("currentStep", JStr "success"); ("message", JNum 7)] in
  report_all F (Demo.links_of ["a"]) [(JStr "a", res)] []
  = (Some (TypeError (JNum 7)), [Move "https://verify/a"]).
Proof. reflexivity. Qed.

(** * Further properties of the window *)

Section Links.

Import Link.

Lemma take_alnum_all (s : string) : all_alnum (take_alnum s) = true.
Proof.
  induction s as [|c s IH]; [reflexivity|].
  simpl. destruct (alnum c) eqn:Hc; [|reflexivity].
  simpl. rewrite Hc. exact IH.
Qed.

Lemma match_here_alnum (lit s g : string) :
  match_here lit s = Some g -> g <> EmptyString /\ all_alnum g = true.
Proof.
  unfold match_here. destruct (after_prefix lit s) as [rest|]; [|discriminate].
  pose proof (take_alnum_all rest) as Hall.
  destruct (take_alnum rest) as [|c g0]; [discriminate|].
  intros [= <-]. split; [discriminate | exact Hall].
Qed.

Lemma re_search_alnum (lit s g : string) :
  re_search lit s = Some g -> g <> EmptyString /\ all_alnum g = true.
Proof.
  induction s as [|c s IH]; simpl.
  - destruct (match_here lit EmptyString) eqn:Hm; [|discriminate].
    intros [= <-]. apply (match_here_alnum _ _ _ Hm).
  - destruct (match_here lit (String c s)) eqn:Hm.
    + intros [= <-]. apply (match_here_alnum _ _ _ Hm).
    + exact IH.
Qed.

Lemma take_alnum_app (g rest : string) :
  all_alnum g = true -> stops rest = true ->
  take_alnum (g ++ rest)%string = g.
Proof.
  intros Hg Hr. induction g as [|c g IH]; simpl in *.
  - destruct rest as [|b rest]; [reflexivity|].
    simpl in Hr |- *. destruct (alnum b); [discriminate | reflexivity].
  - apply andb_true_iff in Hg. destruct Hg as [Hc Hg].
    rewrite Hc, (IH Hg). reflexivity.
Qed.

Lemma after_prefix_app (lit s rest : string) :
  after_prefix lit s = Some rest -> s = (lit ++ rest)%string.
Proof.
  revert s. induction lit as [|a lit IH]; intros s; simpl.
  - intros [= ->]. reflexivity.
  - destruct s as [|b s]; [discriminate|].
    destruct (Ascii.eqb_spec a b) as [->|]; [|discriminate].
    intros H. rewrite (IH s H). reflexivity.
Qed.

Lemma before_app (c : ascii) (p s : string) :
  lacks c p = true -> before c (p ++ s)%string = String.length p + before c s.
Proof.
  induction p as [|b p IH]; simpl; [reflexivity|].
  intros H. apply andb_true_iff in H. destruct H as [Hb Hp].
  destruct (Ascii.eqb b c); [discriminate|]. rewrite (IH Hp). reflexivity.
Qed.

(** In front of the marker, where no [=] occurs, the query pattern has no
    match. *)
Lemma no_match_before (p tail : string) :
  lacks "="%char p = true ->
  re_search "verificationId=" (p ++ "verificationId=" ++ tail)%string
  = re_search "verificationId=" ("verificationId=" ++ tail)%string.
Proof.
  induction p as [|b p IH]; intros Hp; [reflexivity|].
  assert (Hp' : lacks "="%char p = true).
  { simpl in Hp. apply andb_true_iff in Hp. apply Hp. }
  change ((String b p ++ "verificationId=" ++ tail)%string)
    with (String b (p ++ "verificationId=" ++ tail)%string).
  cbn [re_search].
  destruct (match_here "verificationId=" (String b (p ++ "verificationId=" ++ tail)%string))
    as [g|] eqn:Hm; [exfalso | apply (IH Hp')].
  unfold match_here in Hm.
  destruct (after_prefix "verificationId=" (String b (p ++ "verificationId=" ++ tail)%string))
    as [rest|] eqn:Ha; [|discriminate].
  apply after_prefix_app in Ha.
  assert (H1 : before "="%char (String b (p ++ "verificationId=" ++ tail)%string)
               = String.length (String b p) + 14).
  { change (String b (p ++ "verificationId=" ++ tail)%string)
      with ((String b p ++ "verificationId=" ++ tail)%string).
    rewrite (before_app _ _ _ Hp). reflexivity. }
  rewrite Ha in H1. simpl in H1. lia.
Qed.

End Links.

(** X10. An identifier that [extract_vid] finds is never empty and consists
    of ASCII letters and digits only; it is a truthy value, so the worker's
    test [if not vid] never drops it. *)
Theorem extract_vid_alphanumeric (line v : string) :
  Link.extract_vid line = Some v ->
  v <> EmptyString /\ Link.all_alnum v = true /\ Py.truthy (JStr v) = true.
Proof.
  unfold Link.extract_vid. intros H.
  assert (Hv : v <> EmptyString /\ Link.all_alnum v = true).
  { destruct (Link.re_search "verificationId=" line) as [g|] eqn:H1.
    - injection H as <-. apply (re_search_alnum _ _ _ H1).
    - apply (re_search_alnum _ _ _ H). }
  destruct Hv as [Hne Hall]. repeat split; auto.
  destruct v; [contradiction | reflexivity].
Qed.

(** A link of the service, with the program in the path. *)
Lemma extract_vid_alphanumeric_witness :
  "694a1c3e" <> EmptyString /\ Link.all_alnum "694a1c3e" = true
  /\ Py.truthy (JStr "694a1c3e") = true.
Proof.
  exact (extract_vid_alphanumeric
           "https://services.sheerid.com/verify/67c8c14f/?verificationId=694a1c3e"
           "694a1c3e" eq_refl).
Defined.

(** X11. [extract_vid] reads back the identifier of a link: for a text made
    of a prefix without [=], the marker [verificationId=], a non-empty
    identifier of letters and digits, and a rest that is empty or starts with
    another character, the result is that identifier, also when the prefix
    holds a [verify/...] path, which would match the second pattern. *)
Theorem extract_vid_reads_query (pre v rest : string) :
  Link.lacks "="%char pre = true ->
  v <> EmptyString ->
  Link.all_alnum v = true ->
  Link.stops rest = true ->
  Link.extract_vid (pre ++ "verificationId=" ++ v ++ rest)%string = Some v.
Proof.
  intros Hpre Hne Hv Hrest. unfold Link.extract_vid.
  rewrite (no_match_before pre (v ++ rest)%string Hpre).
  assert (Hm : Link.match_here "verificationId=" ("verificationId=" ++ v ++ rest)%string
               = Some v).
  { unfold Link.match_here. cbn [Link.after_prefix String.append Ascii.eqb Bool.eqb].
    rewrite (take_alnum_app v rest Hv Hrest).
    destruct v; [contradiction | reflexivity]. }
  destruct ("verificationId=" ++ v ++ rest)%string eqn:Hs; cbn [Link.re_search];
    rewrite Hm; reflexivity.
Qed.

(** The link above, followed by another parameter. *)
Lemma extract_vid_reads_query_witness :
  Link.extract_vid
    ("https://services.sheerid.com/verify/67c8c14f/?" ++ "verificationId="
     ++ "694a1c3e" ++ "&locale")%string
  = Some "694a1c3e".
Proof.
  refine (extract_vid_reads_query "https://services.sheerid.com/verify/67c8c14f/?"
            "694a1c3e" "&locale" eq_refl _ eq_refl eq_refl).
  discriminate.
Defined.

Example extract_vid_path_form :
  Link.extract_vid "https://services.sheerid.com/verify/67c8c14f/" = Some "67c8c14f"
  /\ Link.extract_vid "user@example.com----secret" = None.
Proof. split; reflexivity. Qed.

Section Table.

Lemma last_row_from_snoc (v : string) (x : row) (tbl : list row) :
  forall i,
    last_row_from i v (tbl ++ [x])
    = if (row_vid x =? v) then Some (i + List.length tbl) else last_row_from i v tbl.
Proof.
  induction tbl as [|y tbl IH]; intros i; simpl.
  - rewrite Nat.add_0_r. reflexivity.
  - rewrite IH. destruct (row_vid x =? v); [f_equal; lia | reflexivity].
Qed.

Lemma last_row_from_set_row (v : string) (f : row -> row) :
  (forall x, row_vid (f x) = row_vid x) ->
  forall tbl r i, last_row_from i v (set_row r f tbl) = last_row_from i v tbl.
Proof.
  intros Hf. induction tbl as [|y tbl IH]; intros r i; simpl; [reflexivity|].
  destruct r as [|r]; simpl.
  - rewrite Hf. reflexivity.
  - rewrite IH. reflexivity.
Qed.

Lemma set_row_twice (f g : row -> row) (tbl : list row) :
  forall r, set_row r f (set_row r g tbl) = set_row r (fun x => f (g x)) tbl.
Proof.
  induction tbl as [|y tbl IH]; intros r; simpl; [reflexivity|].
  destruct r as [|r]; simpl; [reflexivity|]. rewrite IH. reflexivity.
Qed.

Lemma rows_ok_set_row (f : row -> row) (tbl : list row) :
  (forall x, row_vid (f x) = row_vid x /\ row_line (f x) = row_line x) ->
  rows_ok tbl -> forall r, rows_ok (set_row r f tbl).
Proof.
  intros Hf Hok. induction Hok as [|y tbl Hy Htl IH]; intros r; simpl; [constructor|].
  destruct r as [|r]; constructor.
  - unfold rows_ok in *. destruct (Hf y) as [-> ->]. exact Hy.
  - exact Htl.
  - exact Hy.
  - apply IH.
Qed.

Lemma dict_keys_set (s : string) (x : json) (d : Py.dict) :
  Forall (fun kv : json * json => exists t, fst kv = JStr t) d ->
  Forall (fun kv : json * json => exists t, fst kv = JStr t) (Py.dict_set (JStr s) x d).
Proof.
  intros H. induction H as [|[k0 v0] d H0 Hd IH]; simpl.
  - repeat constructor. exists s. reflexivity.
  - destruct (Py.key_eqb k0 (JStr s)); constructor; auto.
Qed.

Lemma dict_get_text_keys (k : json) (d : Py.dict) :
  Forall (fun kv : json * json => exists t, fst kv = JStr t) d ->
  (forall s, k <> JStr s) ->
  Py.dict_get k d = None.
Proof.
  intros H Hk. induction H as [|[k0 v0] d [t Ht] _ IH]; [reflexivity|].
  simpl in *. subst k0.
  destruct k; simpl; try exact IH. 
  exfalso. apply (Hk s). reflexivity.
Qed.

Lemma fill_table_spec (lines : list string) :
  forall w,
    consistent w -> rows_ok (table w) ->
    consistent (fill_table lines w)
    /\ rows_ok (table (fill_table lines w))
    /\ map row_line (table (fill_table lines w))
       = map row_line (table w) ++ filter has_vid lines.
Proof.
  induction lines as [|l lines IH]; intros w Hc Hok; cbn [fill_table filter].
  - rewrite app_nil_r. auto.
  - assert (Hh : has_vid l = match Link.extract_vid l with
                               | Some v => Py.truthy (JStr v)
                               | None => false
                               end) by reflexivity.
    destruct (Link.extract_vid l) as [v|] eqn:Hv; rewrite Hh;
      [|apply IH; assumption].
    destruct (Py.truthy (JStr v)); [|apply IH; assumption].
    set (x := {| checked := false; row_vid := v; row_line := l;
                 row_status := JStr "Ready"; row_detail := plain EmptyString |}).
    set (w1 := {| table := table w ++ [x];
                  vid_row_map := Py.dict_set (JStr v)
                                   (JNum (Z.of_nat (List.length (table w))))
                                   (vid_row_map w) |}).
    assert (Hc1 : consistent w1).
    { destruct Hc as [Hget Hkeys]. split.
      - intros u. unfold w1. cbn [table vid_row_map]. unfold last_row.
        rewrite last_row_from_snoc. cbn [row_vid x].
        destruct (String.eqb_spec v u) as [->|Hne].
        + rewrite dict_get_set_same by reflexivity. reflexivity.
        + rewrite dict_get_set_other.
          * apply Hget.
          * simpl. apply String.eqb_neq. exact Hne.
      - apply dict_keys_set. exact Hkeys. }
    assert (Hok1 : rows_ok (table w1)).
    { unfold w1. cbn [table]. apply Forall_app. split; [exact Hok|].
      repeat constructor. exact Hv. }
    destruct (IH w1 Hc1 Hok1) as (H1 & H2 & H3).
    split; [exact H1|]. split; [exact H2|].
    rewrite H3. unfold w1. cbn [table]. rewrite map_app, <- app_assoc. reflexivity.
Qed.

End Table.

(** X12. After [load_data] the table has one row per non-blank line of the
    file in which [extract_vid] finds an identifier, in the order of the file;
    each row shows the identifier of its line; and [vid_row_map] points every
    identifier at the last row that shows it and holds no other key. A link
    that occurs twice therefore has two rows, of which the map knows the
    second only. *)
Theorem load_data_table (raw : list string) (w0 : window) :
  let w := load_data (Some raw) w0 in
  map row_line (table w) = filter has_vid (stripped raw)
  /\ rows_ok (table w)
  /\ consistent w.
Proof.
  cbn [load_data].
  destruct (fill_table_spec (stripped raw) {| table := []; vid_row_map := [] |})
    as (Hc & Hok & Hlines).
  - split; [intros v; reflexivity | constructor].
  - constructor.
  - auto.
Qed.

Example load_data_duplicate :
  let w := load_data
             (Some ["  https://x/verify/p1/?verificationId=abc  ";
                    "# no link here";
                    "https://x/verify/p1/?verificationId=zz9";
                    "https://x/verify/p1/?verificationId=abc"])
             {| table := []; vid_row_map := [] |} in
  map row_vid (table w) = ["abc"; "zz9"; "abc"]
  /\ vid_row_map w = [(JStr "abc", JNum 2); (JStr "zz9", JNum 1)].
Proof. split; reflexivity. Qed.

(** X13. In a table whose map is consistent, as [load_data] leaves it, a
    progress signal for the identifier [v] whose status and message make
    items changes the status and detail cells of the last row that shows
    [v], and nothing else: no other row, no check box, no identifier; a
    signal for an identifier without a row changes nothing. The map stays
    consistent, so this holds for every later signal too. *)
Theorem status_goes_to_last_row (item_ok : json -> bool) (v : string) (st : json)
    (m : progress_msg) (w : window) :
  consistent w ->
  cell_ok item_ok st = true ->
  refused item_ok m = None ->
  let '(o, w') := update_row_status item_ok (JStr v) st m w in
  o = None
  /\ table w'
     = match last_row v (table w) with
       | Some r => set_row r (fun x => with_detail m (with_status st x)) (table w)
       | None => table w
       end
  /\ vid_row_map w' = vid_row_map w
  /\ consistent w'
  /\ (rows_ok (table w) -> rows_ok (table w')).
Proof.
  intros [Hget Hkeys] Hst Hm. unfold update_row_status.
  cbn [Py.hashable negb]. rewrite Hget.
  destruct (last_row v (table w)) as [r|] eqn:Hlast; cbn [option_map].
  - rewrite Hst, Hm, Nat2Z.id. cbn [table vid_row_map].
    rewrite set_row_twice.
    split; [reflexivity|]. split; [reflexivity|]. split; [reflexivity|]. split.
    + split; [|exact Hkeys]. intros u. cbn [table vid_row_map]. rewrite Hget.
      unfold last_row. rewrite last_row_from_set_row; [reflexivity|].
      intros x. reflexivity.
    + intros Hok. apply rows_ok_set_row; [|exact Hok].
      intros x. split; reflexivity.
  - split; [reflexivity|]. split; [reflexivity|]. split; [reflexivity|].
    split; [split; assumption | auto].
Qed.

(** The link that occurs twice: the signal reaches the second row only. *)
Lemma status_goes_to_last_row_witness :
  let w := load_data
             (Some ["https://x/verify/p1/?verificationId=abc";
                    "https://x/verify/p1/?verificationId=abc"])
             {| table := []; vid_row_map := [] |} in
  map row_status
      (table (snd (update_row_status (fun _ => false) (JStr "abc") (JStr "success")
                     (plain "ok") w)))
  = [JStr "Ready"; JStr "success"].
Proof.
  intros w.
  assert (Hc : consistent w).
  { apply (fill_table_spec _ {| table := []; vid_row_map := [] |});
      [split; [intros u; reflexivity | constructor] | constructor]. }
  pose proof (status_goes_to_last_row (fun _ => false) "abc" (JStr "success")
                (plain "ok") w Hc eq_refl eq_refl) as H.
  destruct (update_row_status (fun _ => false) (JStr "abc") (JStr "success")
              (plain "ok") w) as [o w'].
  destruct H as (_ & Ht & _). cbn [snd]. rewrite Ht. reflexivity.
Defined.

Section Selection.

Lemma tick_from_rows (chk : nat -> bool) (tbl : list row) :
  forall i x, In x (tick_from i chk tbl) ->
    exists y, In y tbl /\ row_vid x = row_vid y /\ row_line x = row_line y.
Proof.
  induction tbl as [|y tbl IH]; intros i x Hin; [destruct Hin|].
  destruct Hin as [<-|Hin].
  - exists y. split; [left; reflexivity | split; reflexivity].
  - destruct (IH _ _ Hin) as (z & Hz & H1 & H2). exists z. split; [right; exact Hz | auto].
Qed.

Lemma links_data_rows (w : window) (k : link) :
  In k (links_data w) ->
  exists x, In x (table w) /\ vid k = row_vid x /\ line k = row_line x.
Proof.
  unfold links_data. intros Hin. apply in_map_iff in Hin.
  destruct Hin as (x & <- & Hx). apply filter_In in Hx.
  exists x. split; [apply Hx | split; reflexivity].
Qed.

End Selection.

(** X14. From the file to the wire: load the file, let the user tick any
    rows, and start the job. Every submission of that job carries at most
    five identifiers, and each of them is a non-empty text of letters and
    digits that [extract_vid] finds in a line of the file. When no row is
    ticked, or a worker is running, no job is started. *)
Theorem job_ids_come_from_file (E : environment) (F : frontend) (key : string)
    (raw : list string) (w0 : window) (chk : nat -> bool) (tr : trace)
    (links : list link) (w' : window) :
  start_verify false (tick chk (load_data (Some raw) w0)) = (Some links, w') ->
  let '(o, tr') := run E F key links tr in
  exists evs,
    tr' = tr ++ evs
    /\ forall tok body,
         In (Post "/api/batch" tok body) evs ->
         exists b,
           body = batch_payload b (new_verifier key)
           /\ List.length b <= 5
           /\ forall v, In v b ->
                v <> EmptyString /\ Link.all_alnum v = true
                /\ exists l, In l raw /\ Link.extract_vid (Text.strip l) = Some v.
Proof.
  intros Hstart.
  assert (Hlinks : links = links_data (tick chk (load_data (Some raw) w0))).
  { unfold start_verify in Hstart.
    destruct (links_data (tick chk (load_data (Some raw) w0))); [discriminate|].
    injection Hstart as <- _. reflexivity. }
  assert (Hids : forall v, In v (map vid links) ->
    v <> EmptyString /\ Link.all_alnum v = true
    /\ exists l, In l raw /\ Link.extract_vid (Text.strip l) = Some v).
  { intros v Hv. apply in_map_iff in Hv. destruct Hv as (k & <- & Hk).
    rewrite Hlinks in Hk. apply links_data_rows in Hk.
    destruct Hk as (x & Hx & -> & _). cbn [tick table] in Hx.
    apply tick_from_rows in Hx. destruct Hx as (y & Hy & -> & _).
    destruct (fill_table_spec (stripped raw) {| table := []; vid_row_map := [] |})
      as (_ & Hok & Hlines);
      [split; [intros u; reflexivity | constructor] | constructor |].
    cbn [load_data] in Hy.
    unfold rows_ok in Hok. rewrite Forall_forall in Hok.
    pose proof (Hok y Hy) as Hvid.
    assert (Hline : In (row_line y) (stripped raw)).
    { assert (Hin : In (row_line y)
                (map row_line (table (fill_table (stripped raw)
                                        {| table := []; vid_row_map := [] |}))))
        by (apply in_map; exact Hy).
      rewrite Hlines in Hin. cbn [table map] in Hin.
      change (In (row_line y) (filter has_vid (stripped raw))) in Hin.
      apply filter_In in Hin. apply Hin. }
    unfold stripped in Hline. apply in_map_iff in Hline.
    destruct Hline as (l & Hl & Hraw). apply filter_In in Hraw.
    assert (Hne : row_vid y <> EmptyString /\ Link.all_alnum (row_vid y) = true).
    { unfold Link.extract_vid in Hvid.
      destruct (Link.re_search "verificationId=" (row_line y)) as [g|] eqn:H1.
      - injection Hvid as <-. apply (re_search_alnum _ _ _ H1).
      - apply (re_search_alnum _ _ _ Hvid). }
    destruct Hne as [Hne Hall]. split; [exact Hne|]. split; [exact Hall|].
    exists l. split; [apply Hraw|]. rewrite Hl. exact Hvid. }
  unfold run.
  destruct (run_batches E F links (batches (map vid links)) (new_verifier key) tr)
    as [[o v'] tr'] eqn:Hrun.
  apply run_batches_bound in Hrun.
  destruct Hrun as (evs & -> & _ & _ & Hp).
  assert (Hbody : forall tok body, In (Post "/api/batch" tok body) evs ->
    exists b,
      body = batch_payload b (new_verifier key)
      /\ List.length b <= 5
      /\ forall v, In v b ->
           v <> EmptyString /\ Link.all_alnum v = true
           /\ exists l, In l raw /\ Link.extract_vid (Text.strip l) = Some v).
  { intros tok body Hin. destruct (Hp tok body Hin) as (b & Hb & ->).
    destruct (batches_small _ _ Hb) as [H5 Hincl].
    exists b. split; [reflexivity|]. split; [exact H5|].
    intros v Hv. apply Hids. apply Hincl. exact Hv. }
  destruct o as [e|].
  - exists evs. split; [reflexivity | exact Hbody].
  - exists (evs ++ [Finished]). split; [symmetry; apply app_assoc|].
    intros tok body Hin. apply in_app_or in Hin.
    destruct Hin as [Hin|[Hin|[]]]; [apply (Hbody tok body Hin) | discriminate Hin].
Qed.

(** Two links, both ticked, one submission. *)
Lemma job_ids_come_from_file_witness :
  let raw := ["https://x/verify/p1/?verificationId=abc"; EmptyString;
              "https://x/verify/p1/?verificationId=zz9"] in
  let E := Demo.service [Demo.page; Demo.stream [] None] in
  let w := tick (fun _ => true) (load_data (Some raw) {| table := []; vid_row_map := [] |}) in
  let links := links_data w in
  map vid links = ["abc"; "zz9"]
  /\ let '(o, tr') := run E (Demo.user None) "key" links [] in
     exists evs,
       tr' = [] ++ evs
       /\ forall tok body,
            In (Post "/api/batch" tok body) evs ->
            exists b,
              body = batch_payload b (new_verifier "key")
              /\ List.length b <= 5
              /\ forall v, In v b ->
                   v <> EmptyString /\ Link.all_alnum v = true
                   /\ exists l, In l raw /\ Link.extract_vid (Text.strip l) = Some v.
Proof.
  intros raw E w links. split; [reflexivity|].
  exact (job_ids_come_from_file E (Demo.user None) "key" raw
           {| table := []; vid_row_map := [] |} (fun _ => true) [] links
           (snd (start_verify false w)) eq_refl).
Defined.

Section Cancelling.

Variable E : environment.
Variable item_ok : json -> bool.

Lemma set_row_middle (f : row -> row) (pre : list row) (x : row) (rest : list row) :
  set_row (List.length pre) f (pre ++ x :: rest) = pre ++ f x :: rest.
Proof. induction pre as [|y pre IH]; simpl; [reflexivity | rewrite IH; reflexivity]. Qed.

Lemma nth_error_middle (pre : list row) (x : row) (rest : list row) :
  nth_error (pre ++ x :: rest) (List.length pre) = Some x.
Proof. induction pre as [|y pre IH]; simpl; [reflexivity | exact IH]. Qed.

Lemma cancel_with_token (verification_id : string) (v : verifier) (tr : trace) :
  no_token v = false ->
  exists res,
    cancel_verification E verification_id v tr
    = (res, v,
       tr ++ [Post "/api/cancel" (csrf_token v)
                (JObj [("verificationId", JStr verification_id)])]).
Proof.
  intros Htok. unfold cancel_verification. rewrite Htok.
  unfold cancel_request, request.
  destruct (server E (clock tr)) as [msg|r]; [eexists; reflexivity|].
  destruct (json_body r); eexists; reflexivity.
Qed.

Lemma cancel_rows_spec (v : verifier) (m : Py.dict) (suf : list row) :
  no_token v = false ->
  forall pre tr w' v' tr',
    cancel_rows E item_ok (checked_rows_from (List.length pre) suf)
      {| table := pre ++ suf; vid_row_map := m |} v tr
    = (None, w', v', tr') ->
    map row_status (table w') = map row_status pre ++ map cancelled_status suf
    /\ map row_vid (table w') = map row_vid (pre ++ suf)
    /\ map checked (table w') = map checked (pre ++ suf)
    /\ vid_row_map w' = m
    /\ v' = v
    /\ tr' = tr ++ map (cancel_post v) (filter checked suf).
Proof.
  intros Htok. induction suf as [|x suf IH]; intros pre tr w' v' tr' H.
  - cbn in H. injection H as <- <- <-. cbn [table vid_row_map].
    rewrite !app_nil_r. auto 10.
  - cbn [checked_rows_from filter] in H |- *. unfold cancelled_status at 1.
    cbn [map].
    destruct (checked x) eqn:Hx.
    + cbn [cancel_rows table vid_row_map] in H.
      rewrite nth_error_middle in H.
      destruct (cancel_with_token (row_vid x) v tr Htok) as [res Hres].
      rewrite Hres in H.
      destruct res as [| | | | |d]; try discriminate H.
      destruct (cell_ok item_ok (Py.get_default "message" (JStr "Cancelled") d));
        [|discriminate H].
      rewrite !set_row_middle in H.
      set (x' := with_detail _ (with_status _ (with_detail _ x))) in H.
      replace (pre ++ x' :: suf) with ((pre ++ [x']) ++ suf) in H
        by (rewrite <- app_assoc; reflexivity).
      replace (S (List.length pre)) with (List.length (pre ++ [x'])) in H
        by (rewrite length_app; simpl; lia).
      apply IH in H. destruct H as (Hs & Hv & Hc & Hm & -> & ->).
      rewrite Hs, Hv, Hc. rewrite !map_app. cbn [map]. rewrite <- !app_assoc.
      cbn [Datatypes.app]. unfold x'. cbn [row_status row_vid checked with_detail with_status].
      rewrite Hx. unfold cancel_post at 2. auto 10.
    + replace (pre ++ x :: suf) with ((pre ++ [x]) ++ suf) in H |- *
        by (rewrite <- app_assoc; reflexivity).
      replace (S (List.length pre)) with (List.length (pre ++ [x])) in H
        by (rewrite length_app; simpl; lia).
      apply IH in H. destruct H as (Hs & Hv & Hc & Hm & -> & ->).
      rewrite Hs, Hv, Hc. rewrite !map_app. cbn [map]. rewrite <- !app_assoc.
      auto 10.
Qed.

End Cancelling.

(** X15. Cancelling the ticked rows with a window verifier that holds a
    token. When the user answers no, nothing is requested and nothing
    changes. When the user answers yes and no exception leaves the slot (each
    answer is an object whose message makes an item), exactly one cancel
    request is made per ticked row, in the order of the table and under the
    cached token, and every ticked row is labelled 'Cancelled' whatever the
    service answered, be it an error; the other rows keep their status, and no
    identifier or check box changes. *)
Theorem cancel_selected_labels_rows (E : environment) (item_ok : json -> bool)
    (confirm : bool) (w : window) (v : verifier) (tr : trace) :
  no_token v = false ->
  let '(o, w', v', tr') := cancel_selected E item_ok confirm w v tr in
  if confirm then
    o = None ->
    tr' = tr ++ map (cancel_post v) (filter checked (table w))
    /\ map row_status (table w') = map cancelled_status (table w)
    /\ map row_vid (table w') = map row_vid (table w)
    /\ map checked (table w') = map checked (table w)
    /\ vid_row_map w' = vid_row_map w
    /\ v' = v
  else (o, w', v', tr') = (None, w, v, tr).
Proof.
  intros Htok.
  assert (Hsame : confirm = true ->
    cancel_selected E item_ok confirm w v tr
    = cancel_rows E item_ok (checked_rows_from 0 (table w)) w v tr).
  { intros ->. unfold cancel_selected.
    destruct (checked_rows_from 0 (table w)); reflexivity. }
  destruct confirm.
  - rewrite (Hsame eq_refl).
    destruct (cancel_rows E item_ok (checked_rows_from 0 (table w)) w v tr)
      as [[[o w'] v'] tr'] eqn:Hrun.
    intros ->. destruct w as [tbl m].
    apply (cancel_rows_spec E item_ok v m tbl Htok []) in Hrun.
    cbn [table vid_row_map Datatypes.app map] in *. tauto.
  - unfold cancel_selected. destruct (checked_rows_from 0 (table w)); reflexivity.
Qed.

(** Two rows, the second ticked; the service answers with an error. *)
Lemma cancel_selected_labels_rows_witness :
  let E := Demo.service [Demo.status (err_result "Not found")] in
  let w := tick (fun r => Nat.eqb r 1)
             (load_data (Some ["https://x/?verificationId=abc";
                               "https://x/?verificationId=zz9"])
                {| table := []; vid_row_map := [] |}) in
  let '(o, w', v', tr') := cancel_selected E (fun _ => false) true w Demo.ready [] in
  o = None
  /\ tr' = [Post "/api/cancel" (Some "tok") (JObj [("verificationId", JStr "zz9")])]
  /\ map row_status (table w') = [JStr "Ready"; JStr "Cancelled"].
Proof.
  intros E w.
  pose proof (cancel_selected_labels_rows E (fun _ => false) true w Demo.ready []
                eq_refl) as H.
  destruct (cancel_selected E (fun _ => false) true w Demo.ready [])
    as [[[o w'] v'] tr'] eqn:Hrun.
  assert (Ho : o = None) by (vm_compute in Hrun; congruence).
  destruct (H Ho) as (Htr & Hst & _).
  split; [exact Ho|]. split; [exact Htr | exact Hst].
Defined.
